(** * Yolo-Explorer: the indexing pipeline and the question pipeline

    A shallow embedding of [backend/src/indexer.py], [backend/src/generator.py],
    [backend/src/database.py], [backend/src/embedder.py], [backend/src/main.py]
    and [backend/scripts/setup_index.py].

    Python dictionaries are finite maps with string keys, Python exceptions
    are values of [exn] threaded through a [result] type, and the external
    collaborators (the Python parser, the sentence encoder, the document
    store, the remote chat endpoint) are section variables. *)

From Stdlib Require Import ZArith String Ascii List Lia Permutation.
From Stdlib Require Import DecimalString.
From stdpp Require Import base option list strings gmap.

Set Warnings "-register-all".

Local Open Scope string_scope.
Local Open Scope Z_scope.

(** ** Python values *)

(** A float is kept as its binary64 bit pattern; the code never computes
    with floats, it only moves them around. *)
Inductive pyfloat := Float64 (bits : Z).

Inductive pyval :=
| VNone
| VBool (b : bool)
| VInt (z : Z)
| VFloat (f : pyfloat)
| VStr (s : string)
| VList (l : list pyval)
| VDict (d : gmap string pyval).

(** A [dict] with string keys, as the chunks and the JSON payloads are. *)
Abbreviation pydict := (gmap string pyval).

Definition vector := list pyfloat.

Definition VVector (v : vector) : pyval := VList (map VFloat v).

(** ** Strings *)

Definition nl : string := String (ascii_of_nat 10) EmptyString.

Definition string_of_Z (z : Z) : string :=
  NilZero.string_of_int (Z.to_int z).

Definition string_of_nat (n : nat) : string := string_of_Z (Z.of_nat n).

(** [sep.join(l)] *)
Fixpoint join (sep : string) (l : list string) : string :=
  match l with
  | [] => ""
  | [x] => x
  | x :: rest => x ++ sep ++ join sep rest
  end.

(** [s.split('\n')]: never empty, the pieces hold no newline. *)
Fixpoint split_lines (s : string) : list string :=
  match s with
  | EmptyString => [""]
  | String c rest =>
      if Ascii.eqb c (ascii_of_nat 10) then "" :: split_lines rest
      else match split_lines rest with
           | [] => [String c ""]
           | l :: ls => String c l :: ls
           end
  end.

(** [s * n] *)
Fixpoint repeat_string (s : string) (n : nat) : string :=
  match n with
  | O => ""
  | S k => s ++ repeat_string s k
  end.

(** [needle in hay] for two strings. *)
Fixpoint is_substring (needle hay : string) : bool :=
  if String.prefix needle hay then true
  else match hay with
       | EmptyString => false
       | String _ rest => is_substring needle rest
       end.

(** [s[:n]] for [0 <= n]. *)
Fixpoint string_take (n : nat) (s : string) : string :=
  match n, s with
  | S k, String c rest => String c (string_take k rest)
  | _, _ => ""
  end.

(** ** Sequences *)

(** Python's clamping of a slice bound against a length. *)
Definition slice_bound (i len : Z) : Z :=
  if i <? 0 then Z.max 0 (i + len) else Z.min i len.

(** [l[start:stop]] *)
Definition slice {A} (l : list A) (start stop : Z) : list A :=
  let len := Z.of_nat (length l) in
  let s := slice_bound start len in
  let e := slice_bound stop len in
  if s <? e then take (Z.to_nat (e - s)) (drop (Z.to_nat s) l) else [].

(** ** Exceptions *)

(** The exception classes the code raises, catches or can meet, with the
    base class of each: Python's built-in hierarchy, [HTTPException] of
    FastAPI (a subclass of [Exception]), and [LibraryError] for everything
    else a collaborator raises (transport, decoding, validation errors). *)
Inductive exn_class :=
| cException
| cSyntaxError
| cValueError
| cUnicodeError
| cUnicodeDecodeError
| cTypeError
| cLookupError
| cKeyError
| cIndexError
| cAttributeError
| cHTTPException
| cLibraryError.

Definition base_class (c : exn_class) : option exn_class :=
  match c with
  | cException => None
  | cSyntaxError => Some cException
  | cValueError => Some cException
  | cUnicodeError => Some cValueError
  | cUnicodeDecodeError => Some cUnicodeError
  | cTypeError => Some cException
  | cLookupError => Some cException
  | cKeyError => Some cLookupError
  | cIndexError => Some cLookupError
  | cAttributeError => Some cException
  | cHTTPException => Some cException
  | cLibraryError => Some cException
  end.

Definition exn_class_eqb (a b : exn_class) : bool :=
  match a, b with
  | cException, cException | cSyntaxError, cSyntaxError
  | cValueError, cValueError | cUnicodeError, cUnicodeError
  | cUnicodeDecodeError, cUnicodeDecodeError | cTypeError, cTypeError
  | cLookupError, cLookupError | cKeyError, cKeyError
  | cIndexError, cIndexError | cAttributeError, cAttributeError
  | cHTTPException, cHTTPException | cLibraryError, cLibraryError => true
  | _, _ => false
  end.

(** [issubclass(c, target)]; the hierarchy is at most four deep. *)
Fixpoint issubclass_fuel (fuel : nat) (c target : exn_class) : bool :=
  if exn_class_eqb c target then true
  else match fuel with
       | O => false
       | S k => match base_class c with
                | None => false
                | Some b => issubclass_fuel k b target
                end
       end.

Definition issubclass : exn_class -> exn_class -> bool := issubclass_fuel 4.

(** The key of a failed lookup. *)
Inductive pykey := KStr (s : string) | KInt (z : Z).

Inductive exn :=
| SyntaxError (lineno : option Z) (msg : string)
| UnicodeDecodeError (reason : string)
| TypeError (msg : string)
| ValueError (msg : string)
| KeyError (key : pykey)
| IndexError (msg : string)
| AttributeError (msg : string)
| HTTPException (status_code : Z) (detail : string)
| Exception (msg : string)
| LibraryError (cls : string) (msg : string).

Definition class_of (e : exn) : exn_class :=
  match e with
  | SyntaxError _ _ => cSyntaxError
  | UnicodeDecodeError _ => cUnicodeDecodeError
  | TypeError _ => cTypeError
  | ValueError _ => cValueError
  | KeyError _ => cKeyError
  | IndexError _ => cIndexError
  | AttributeError _ => cAttributeError
  | HTTPException _ _ => cHTTPException
  | Exception _ => cException
  | LibraryError _ _ => cLibraryError
  end.

(** [isinstance(e, c)], the test an [except c] clause makes. *)
Definition isinstance (e : exn) (c : exn_class) : bool :=
  issubclass (class_of e) c.

(** [e.lineno] and [e.msg] of a [SyntaxError], as an f-string prints them. *)
Definition format_lineno (l : option Z) : string :=
  match l with
  | None => "None"
  | Some n => string_of_Z n
  end.

(** [str(e)].  A [SyntaxError] built from one argument prints that
    argument; one that carries a line prints it after the message.  A
    [KeyError] prints its key quoted.  FastAPI's [HTTPException] prints
    its status and its detail, as Starlette defines [__str__] for it. *)
Definition str_exn (e : exn) : string :=
  match e with
  | SyntaxError None msg => msg
  | SyntaxError (Some n) msg =>
      msg ++ " (<unknown>, line " ++ string_of_Z n ++ ")"
  | UnicodeDecodeError reason => reason
  | TypeError msg => msg
  | ValueError msg => msg
  | KeyError (KStr key) => "'" ++ key ++ "'"
  | KeyError (KInt z) => string_of_Z z
  | IndexError msg => msg
  | AttributeError msg => msg
  | HTTPException status detail => string_of_Z status ++ ": " ++ detail
  | Exception msg => msg
  | LibraryError _ msg => msg
  end.

(** The outcome of a call: a value, or an exception on its way up. *)
Inductive result (A : Type) :=
| Ok (a : A)
| Raise (e : exn).
Arguments Ok {A} a.
Arguments Raise {A} e.

#[export] Instance result_ret : MRet result := fun A a => Ok a.

#[export] Instance result_bind : MBind result := fun A B k r =>
  match r with
  | Ok a => k a
  | Raise e => Raise e
  end.

(** [d[key]] on a dictionary. *)
Definition getitem (d : pydict) (key : string) : result pyval :=
  match d !! key with
  | Some v => Ok v
  | None => Raise (KeyError (KStr key))
  end.

(** ** Calls on the collaborators *)

(** The arguments of [requests.post]. *)
Record request := {
  url : string;
  json : pyval;
  headers : list (string * string);
  timeout : Z
}.

(** What the code reads of a [requests.Response]; [resp_json] is the
    outcome of [response.json()]. *)
Record response := {
  resp_status_code : Z;
  resp_text : string;
  resp_headers : pydict;
  resp_json : result pyval
}.

(** The [$vectorSearch] stage and the [$project] stage of a pipeline. *)
Record pipeline := {
  vs_index : string;
  vs_path : string;
  vs_queryVector : vector;
  vs_numCandidates : Z;
  vs_limit : Z;
  project : list (string * pyval)
}.

Inductive call :=
| ModelEncode (text : string)
| ModelEncodeBatch (texts : list pyval)
| Aggregate (p : pipeline)
| Post (r : request)
| DeleteMany
| InsertMany (docs : list pydict).

(** ** Logging and output *)

Inductive level := DEBUG | INFO | WARNING | ERROR.

(** What a run leaves behind, in order: every call on a logger (whatever
    the configured threshold: the message of a call is built before the
    threshold is looked at), every printed line, every call on a
    collaborator. *)
Inductive entry :=
| Logged (lv : level) (message : string)
| Printed (line : string)
| Called (c : call).

Definition log := list entry.

Definition say (lv : level) (message : string) : log := [Logged lv message].

(** ** Paths *)

(** A [pathlib.Path] as its components. *)
Definition path := list string.

(** [p / name] *)
Definition path_div (p : path) (name : string) : path := (p ++ [name])%list.

(** [str(p)] *)
Definition str_path (p : path) : string :=
  match p with
  | [] => "."
  | _ => join "/" p
  end.

(** [p.relative_to(base)]: [base] is stripped from the front of [p]; a
    path that does not start with [base] raises [ValueError]. *)
Fixpoint strip_prefix (p base : path) : option path :=
  match base, p with
  | [], _ => Some p
  | b :: bs, c :: cs => if String.eqb b c then strip_prefix cs bs else None
  | _ :: _, [] => None
  end.

Definition relative_to (p base : path) : result path :=
  match strip_prefix p base with
  | Some rel => Ok rel
  | None =>
      Raise (ValueError ("'" ++ str_path p ++ "' is not in the subpath of '"
                         ++ str_path base ++ "'"))
  end.

(** What the extractor reads of the world: which directories exist, what
    [rglob("*.py")] yields under a directory (in its traversal order), and
    what reading a file under each of the two encodings gives. *)
Record filesystem := {
  path_exists : path -> bool;
  rglob_py : path -> list path;
  read_utf8 : path -> result string;
  read_latin1 : path -> result string
}.

(** ** Syntax trees *)

(** The attributes [_extract_node] reads off a definition node.
    [end_lineno] is [None] when the node has no such attribute;
    [get_docstring] is what [ast.get_docstring(node)] returns. *)
Record def_attrs := {
  name : string;
  lineno : Z;
  end_lineno : option Z;
  get_docstring : option string
}.

Inductive node_class :=
| FunctionDef (a : def_attrs)
| AsyncFunctionDef (a : def_attrs)
| ClassDef (a : def_attrs)
| OtherNode (cls : string).

(** A node with its children in [ast.iter_child_nodes] order. *)
Inductive node := Node (c : node_class) (children : list node).

Definition node_cls (n : node) : node_class :=
  match n with Node c _ => c end.

Definition iter_child_nodes (n : node) : list node :=
  match n with Node _ children => children end.

Fixpoint node_size (n : node) : nat :=
  match n with
  | Node _ children => S (list_sum (map node_size children))
  end.

(** [ast.walk]: a queue that starts with the root; each turn pops the
    front node, appends its children at the back, and yields the node. *)
Fixpoint walk_loop (fuel : nat) (todo : list node) : list node :=
  match fuel with
  | O => []
  | S k =>
      match todo with
      | [] => []
      | n :: rest => n :: walk_loop k (rest ++ iter_child_nodes n)%list
      end
  end.

Definition walk (tree : node) : list node :=
  walk_loop (node_size tree) [tree].

(** The nodes of a tree at any depth, the root first. *)
Fixpoint descendants (n : node) : list node :=
  match n with
  | Node c children => Node c children :: flat_map descendants children
  end.

Definition queue_size (todo : list node) : nat :=
  list_sum (map node_size todo).

(** [isinstance(node, (ast.FunctionDef, ast.ClassDef))]: the three
    definition classes are siblings, none derives from another. *)
Definition is_function_or_class (n : node) : bool :=
  match node_cls n with
  | FunctionDef _ | ClassDef _ => true
  | AsyncFunctionDef _ | OtherNode _ => false
  end.

Definition is_class (n : node) : bool :=
  match node_cls n with
  | ClassDef _ => true
  | _ => false
  end.

(** The attributes of a definition; on any other node the first
    attribute read, [node.lineno], is taken as missing. *)
Definition node_attrs (n : node) : result def_attrs :=
  match node_cls n with
  | FunctionDef a | AsyncFunctionDef a | ClassDef a => Ok a
  | OtherNode cls =>
      Raise (AttributeError ("'" ++ cls ++ "' object has no attribute 'lineno'"))
  end.

(** [getattr(node, 'name', 'unknown')] *)
Definition node_name_or_unknown (n : node) : string :=
  match node_cls n with
  | FunctionDef a | AsyncFunctionDef a | ClassDef a => name a
  | OtherNode _ => "unknown"
  end.

(** [x or ""] on an optional string. *)
Definition or_empty (o : option string) : string :=
  match o with
  | Some s => s
  | None => ""
  end.

(** [bool(d)] for a dictionary. *)
Definition dict_truthy (d : pydict) : bool := negb (Nat.eqb (size d) 0).

(** ** [indexer.py] *)

Module CodeIndexer.

(** [self.target_dirs] *)
Definition target_dirs : list string := ["models"; "engine"; "data"].

Section Indexer.

(** [ast.parse] *)
Variable ast_parse : string -> result node.
Variable fs : filesystem.
(** [self.source_dir] *)
Variable source_dir : path.

(** The body of the [try] in [_extract_node]. *)
Definition extract_node_body (n : node) (source : string) (file_path : path)
  : result pydict :=
  let lines := split_lines source in
  a ← node_attrs n;
  let start := lineno a - 1 in
  let stop := match end_lineno a with
              | Some e => e
              | None => start + 10
              end in
  let code := join nl (slice lines start stop) in
  let docstring := or_empty (get_docstring a) in
  rel ← relative_to file_path source_dir;
  Ok (<["file_path" := VStr (str_path rel)]>
      (<["name" := VStr (name a)]>
      (<["type" := VStr (if is_class n then "class" else "function")]>
      (<["code" := VStr code]>
      (<["docstring" := VStr docstring]>
      (<["lineno" := VInt (lineno a)]>
      (<["text_for_embedding" :=
           VStr (name a ++ nl ++ docstring ++ nl ++ code)]> ∅))))))).

Definition _extract_node (n : node) (source : string) (file_path : path)
  : log * option pydict :=
  match extract_node_body n source file_path with
  | Ok chunk => ([], Some chunk)
  | Raise e =>
      if isinstance e cException then
        (say DEBUG ("Could not extract node " ++ node_name_or_unknown n
                    ++ " from " ++ str_path file_path ++ ": " ++ str_exn e),
         None)
      else ([], None)
  end.

(** The loop of [_parse_file] over the nodes [ast.walk] yields. *)
Fixpoint collect_chunks (nodes : list node) (source : string)
    (file_path : path) : log * list pydict :=
  match nodes with
  | [] => ([], [])
  | n :: rest =>
      if is_function_or_class n then
        let '(l1, chunk) := _extract_node n source file_path in
        let '(l2, chunks) := collect_chunks rest source file_path in
        match chunk with
        | Some c =>
            if dict_truthy c then ((l1 ++ l2)%list, c :: chunks)
            else ((l1 ++ l2)%list, chunks)
        | None => ((l1 ++ l2)%list, chunks)
        end
      else collect_chunks rest source file_path
  end.

(** The first [try] of [_parse_file].  [UnicodeDecodeError] takes five
    arguments, so building one from a single message raises [TypeError]
    in its place. *)
Definition read_source (file_path : path) : log * result string :=
  match read_utf8 fs file_path with
  | Ok source => ([], Ok source)
  | Raise e =>
      if isinstance e cUnicodeDecodeError then
        let l := say WARNING ("Could not decode " ++ str_path file_path
                              ++ " with UTF-8. Trying latin-1...") in
        match read_latin1 fs file_path with
        | Ok source => (l, Ok source)
        | Raise e' =>
            if isinstance e' cException then
              (l, Raise (TypeError
                           "function takes exactly 5 arguments (1 given)"))
            else (l, Raise e')
        end
      else ([], Raise e)
  end.

Definition exn_lineno (e : exn) : option Z :=
  match e with
  | SyntaxError l _ => l
  | _ => None
  end.

Definition exn_msg (e : exn) : string :=
  match e with
  | SyntaxError _ m => m
  | _ => str_exn e
  end.

(** The second [try] of [_parse_file]. *)
Definition parse_source (source : string) : result node :=
  match ast_parse source with
  | Ok tree => Ok tree
  | Raise e =>
      if isinstance e cSyntaxError then
        Raise (SyntaxError None
                 ("Invalid Python syntax at line "
                  ++ format_lineno (exn_lineno e) ++ ": " ++ exn_msg e))
      else Raise e
  end.

Definition _parse_file (file_path : path) : log * result (list pydict) :=
  match read_source file_path with
  | (l1, Raise e) => (l1, Raise e)
  | (l1, Ok source) =>
      match parse_source source with
      | Raise e => (l1, Raise e)
      | Ok tree =>
          let '(l2, chunks) := collect_chunks (walk tree) source file_path in
          ((l1 ++ l2)%list, Ok chunks)
      end
  end.

(** The inner loop of [extract_code_chunks]: one [try] per file, with
    its three handlers in order. *)
Fixpoint index_files (files : list path) (chunks : list pydict)
  : log * result (list pydict) :=
  match files with
  | [] => ([], Ok chunks)
  | py_file :: rest =>
      match _parse_file py_file with
      | (l1, Ok file_chunks) =>
          let '(l2, r) := index_files rest (chunks ++ file_chunks)%list in
          ((l1 ++ l2)%list, r)
      | (l1, Raise e) =>
          let skip (lv : level) (what : string) :=
            let '(l2, r) := index_files rest chunks in
            ((l1 ++ say lv (what ++ str_path py_file ++ ": " ++ str_exn e
                            ++ ". Skipping file.") ++ l2)%list, r) in
          if isinstance e cSyntaxError then skip WARNING "Syntax error in "
          else if isinstance e cUnicodeDecodeError then
            skip WARNING "Encoding error in "
          else if isinstance e cException then
            skip ERROR "Unexpected error parsing "
          else (l1, Raise e)
      end
  end.

(** The outer loop of [extract_code_chunks]. *)
Fixpoint index_dirs (dirs : list string) (chunks : list pydict)
  : log * result (list pydict) :=
  match dirs with
  | [] => ([], Ok chunks)
  | target_dir :: rest =>
      let dir_path := path_div source_dir target_dir in
      if negb (path_exists fs dir_path) then
        let '(l2, r) := index_dirs rest chunks in
        ((say WARNING ("Directory not found: " ++ str_path dir_path
                       ++ ". Skipping...") ++ l2)%list, r)
      else
        let l0 := say INFO ("Indexing directory: " ++ str_path dir_path) in
        match index_files (rglob_py fs dir_path) chunks with
        | (l1, Ok chunks') =>
            let '(l2, r) := index_dirs rest chunks' in
            ((l0 ++ l1 ++ l2)%list, r)
        | (l1, Raise e) => ((l0 ++ l1)%list, Raise e)
        end
  end.

(** str of a list of strings, as [{self.target_dirs}] prints it. *)
Definition repr_string_list (l : list string) : string :=
  "[" ++ join ", " (map (fun s => "'" ++ s ++ "'") l) ++ "]".

Definition extract_code_chunks : log * result (list pydict) :=
  match index_dirs target_dirs [] with
  | (l, Raise e) => (l, Raise e)
  | (l, Ok chunks) =>
      match chunks with
      | [] =>
          ((l ++ say ERROR ("No code chunks found! Verify that "
                            ++ str_path source_dir
                            ++ " contains Python files in "
                            ++ repr_string_list target_dirs))%list,
           Ok chunks)
      | _ =>
          ((l ++ say INFO ("Successfully extracted "
                           ++ string_of_nat (length chunks)
                           ++ " code chunks"))%list,
           Ok chunks)
      end
  end.

(** The chunk [_extract_node] returns for a node, if any. *)
Definition chunk_of (source : string) (file_path : path) (n : node)
  : option pydict :=
  (_extract_node n source file_path).2.

(** What a file adds to the run: its chunks when [_parse_file] returns,
    nothing when it raises. *)
Definition chunks_of_file (file_path : path) : list pydict :=
  match (_parse_file file_path).2 with
  | Ok chunks => chunks
  | Raise _ => []
  end.

(** The files of a target directory, none when it does not exist. *)
Definition listing (target_dir : string) : list path :=
  let dir_path := path_div source_dir target_dir in
  if path_exists fs dir_path then rglob_py fs dir_path else [].

(** Every file the run tries to parse, in order. *)
Definition eligible_files : list path :=
  flat_map listing target_dirs.

(** The nodes of a tree that [_parse_file] hands to [_extract_node],
    in the order of the walk. *)
Definition extracted_nodes (tree : node) : list node :=
  List.filter is_function_or_class (walk tree).

End Indexer.

End CodeIndexer.

(** ** Operations on Python values *)

Definition type_name (v : pyval) : string :=
  match v with
  | VNone => "NoneType"
  | VBool _ => "bool"
  | VInt _ => "int"
  | VFloat _ => "float"
  | VStr _ => "str"
  | VList _ => "list"
  | VDict _ => "dict"
  end.

(** [bool(v)]; both zeros of a float are false. *)
Definition truthy (v : pyval) : bool :=
  match v with
  | VNone => false
  | VBool b => b
  | VInt z => negb (z =? 0)
  | VFloat (Float64 bits) => negb ((bits =? 0) || (bits =? 2 ^ 63))
  | VStr s => negb (String.eqb s "")
  | VList l => match l with [] => false | _ => true end
  | VDict d => dict_truthy d
  end.

(** [key in v] for a string [key]: a key of a dictionary, an element of a
    list, a substring of a string. *)
Definition contains (key : string) (v : pyval) : result bool :=
  match v with
  | VDict d => Ok (match d !! key with Some _ => true | None => false end)
  | VList l =>
      Ok (existsb (fun x => match x with
                            | VStr s => String.eqb s key
                            | _ => false
                            end) l)
  | VStr s => Ok (is_substring key s)
  | _ => Raise (TypeError ("argument of type '" ++ type_name v
                           ++ "' is not iterable"))
  end.

Definition not_subscriptable {A} (v : pyval) : result A :=
  Raise (TypeError ("'" ++ type_name v ++ "' object is not subscriptable")).

(** [v[key]] for a string [key]. *)
Definition subscript (v : pyval) (key : string) : result pyval :=
  match v with
  | VDict d => getitem d key
  | VList _ =>
      Raise (TypeError "list indices must be integers or slices, not str")
  | VStr _ => Raise (TypeError "string indices must be integers, not 'str'")
  | _ => not_subscriptable v
  end.

(** [v[0]]; the dictionaries here have string keys only. *)
Definition first_item (v : pyval) : result pyval :=
  match v with
  | VList (x :: _) => Ok x
  | VList [] => Raise (IndexError "list index out of range")
  | VStr (String c _) => Ok (VStr (String c ""))
  | VStr EmptyString => Raise (IndexError "string index out of range")
  | VDict _ => Raise (KeyError (KInt 0))
  | _ => not_subscriptable v
  end.

(** [v[:n]] *)
Definition head_slice (n : nat) (v : pyval) : result pyval :=
  match v with
  | VStr s => Ok (VStr (string_take n s))
  | VList l => Ok (VList (take n l))
  | VDict _ => Raise (TypeError "unhashable type: 'slice'")
  | _ => not_subscriptable v
  end.

Definition no_attribute {A} (v : pyval) (attr : string) : result A :=
  Raise (AttributeError ("'" ++ type_name v ++ "' object has no attribute '"
                         ++ attr ++ "'")).

(** [v.get(key, default)] *)
Definition method_get (v : pyval) (key : string) (default : pyval)
  : result pyval :=
  match v with
  | VDict d => Ok (match d !! key with Some x => x | None => default end)
  | _ => no_attribute v "get"
  end.

(** [v.split('\n')] *)
Definition method_split (v : pyval) : result (list string) :=
  match v with
  | VStr s => Ok (split_lines s)
  | _ => no_attribute v "split"
  end.

(** ** Code that logs *)

(** A computation that leaves entries behind and ends in a value or in an
    exception; the entries written before an exception stay. *)
Definition logged (A : Type) : Type := log * result A.

#[export] Instance logged_ret : MRet logged := fun A a => ([], Ok a).

#[export] Instance logged_bind : MBind logged := fun A B k m =>
  match m with
  | (l, Ok a) => let '(l', r) := k a in ((l ++ l')%list, r)
  | (l, Raise e) => (l, Raise e)
  end.

Definition tell (lv : level) (message : string) : logged unit :=
  (say lv message, Ok tt).

Definition print (line : string) : logged unit := ([Printed line], Ok tt).

Definition lift {A} (r : result A) : logged A := ([], r).

Definition raise {A} (e : exn) : logged A := ([], Raise e).

(** [if cond: raise e] *)
Definition raise_if (cond : bool) (e : exn) : logged unit :=
  if cond then raise e else mret tt.

(** A call on a collaborator: recorded, then answered. *)
Definition calling {A} (c : call) (answer : result A) : logged A :=
  ([Called c], answer).

(** [try: body  except cls as e: handler e] *)
Definition try_except {A} (body : logged A) (cls : exn_class)
    (handler : exn -> logged A) : logged A :=
  match body with
  | (l, Ok a) => (l, Ok a)
  | (l, Raise e) =>
      if isinstance e cls then
        let '(l', r) := handler e in ((l ++ l')%list, r)
      else (l, Raise e)
  end.

(** ** [generator.py] *)

Module ResponseGenerator.

Definition base_url : string :=
  "https://openrouter.ai/api/v1/chat/completions".

(** The float [0.6]. *)
Definition temperature : pyfloat := Float64 0x3FE3333333333333.

Section Generator.

(** [self.api_key], [None] when the variable is unset. *)
Variable api_key : option string.
(** [self.model] *)
Variable model : string.
(** [repr] of a value, as an f-string prints anything but a string. *)
Variable py_repr : pyval -> string.
(** [requests.post] *)
Variable requests_post : request -> result response.

(** [str(v)] *)
Definition py_str (v : pyval) : string :=
  match v with
  | VStr s => s
  | _ => py_repr v
  end.

(** One turn of the loop of [_format_context]; [i] counts from 1. *)
Definition format_chunk (i total_chunks : nat) (chunk : pydict)
  : result string :=
  let docstring_line :=
    match chunk !! "docstring" with
    | Some v => v
    | None => VStr ""
    end in
  purpose ← (if truthy docstring_line then
               parts ← method_split docstring_line;
               match parts with
               | first :: _ => Ok first
               | [] => Raise (IndexError "list index out of range")
               end
             else Ok "No description");
  file_path ← getitem chunk "file_path";
  name ← getitem chunk "name";
  type ← getitem chunk "type";
  lineno ← getitem chunk "lineno";
  code ← getitem chunk "code";
  Ok ("=== CODE CHUNK [" ++ string_of_nat i ++ "/"
      ++ string_of_nat total_chunks ++ "] ===" ++ nl
      ++ "File: " ++ py_str file_path ++ nl
      ++ "Function/Class: " ++ py_str name
      ++ " (" ++ py_str type ++ ")" ++ nl
      ++ "Lines: " ++ py_str lineno ++ nl
      ++ "Purpose: " ++ purpose ++ nl
      ++ "---" ++ nl
      ++ py_str code ++ nl
      ++ repeat_string "=" 30).

Fixpoint format_chunks (i total_chunks : nat) (chunks : list pydict)
  : result (list string) :=
  match chunks with
  | [] => Ok []
  | chunk :: rest =>
      block ← format_chunk i total_chunks chunk;
      blocks ← format_chunks (S i) total_chunks rest;
      Ok (block :: blocks)
  end.

Definition _format_context (chunks : list pydict) : result string :=
  formatted ← format_chunks 1 (length chunks) chunks;
  Ok (join (nl ++ nl) formatted).

Definition build_prompt (context question : string) : string :=
  join nl
    [ "You are an expert assistant for the Ultralytics YOLO codebase. Your role is to help developers understand and use YOLO by analyzing source code.";
      "";
      "INSTRUCTIONS:";
      "1. Answer ONLY using the provided code context below";
      "2. Provide working code examples when applicableAlso cite specific files and line numbers when referencing code";
      "3. If the context doesn't fully answer the question, say so explicitly";
      "4. For standard YOLO questions, prefer basic implementations over specialized variants";
      "";
      "CODE CONTEXT:";
      context;
      "";
      "QUESTION: " ++ question;
      "";
      "RESPONSE FORMAT:";
      "- Start with a direct answer in few sentences";
      "- Provide a minimal working example if applicable";
      "- Explain implementation details with code references";
      "- Note any caveats or limitations" ].

(** One turn of the logging loop over the retrieved chunks. *)
Definition log_chunk (i : nat) (chunk : pydict) : logged unit :=
  name ← lift (getitem chunk "name");
  type ← lift (getitem chunk "type");
  file_path ← lift (getitem chunk "file_path");
  lineno ← lift (getitem chunk "lineno");
  tell DEBUG ("[" ++ string_of_nat i ++ "] " ++ py_str name
              ++ " (" ++ py_str type ++ ") - " ++ py_str file_path
              ++ ":" ++ py_str lineno).

Fixpoint log_chunks (i : nat) (chunks : list pydict) : logged unit :=
  match chunks with
  | [] => mret tt
  | chunk :: rest => log_chunk i chunk ;; log_chunks (S i) rest
  end.

(** [{self.api_key}] in an f-string. *)
Definition format_api_key : string :=
  match api_key with
  | Some k => k
  | None => "None"
  end.

Definition make_headers : list (string * string) :=
  [ ("Authorization", "Bearer " ++ format_api_key);
    ("HTTP-Referer", "http://localhost:8501");
    ("X-Title", "YOLO Code Assistant");
    ("Content-Type", "application/json") ].

Definition make_payload (prompt : string) : pyval :=
  VDict (<["model" := VStr model]>
        (<["messages" :=
             VList [VDict (<["role" := VStr "user"]>
                          (<["content" := VStr prompt]> ∅))]]>
        (<["temperature" := VFloat temperature]>
        (<["max_tokens" := VInt 1000]> ∅)))).

(** The arguments of the one [requests.post] call. *)
Definition make_request (payload : pyval) (headers : list (string * string))
  : request :=
  {| url := base_url; json := payload; headers := headers; timeout := 60 |}.

(** The keys [_format_context] reads with [chunk[...]]. *)
Definition required_keys : list string :=
  ["file_path"; "name"; "type"; "lineno"; "code"].

(** The test that opens the [try]: the key is missing, empty, or the
    text [None]. *)
Definition api_key_missing : bool :=
  match api_key with
  | None => true
  | Some k => String.eqb k "" || String.eqb k "None"
  end.

(** The token report, made when the payload has a ['usage'] entry. *)
Definition log_usage (data : pyval) : logged unit :=
  has_usage ← lift (contains "usage" data);
  if has_usage : bool then
    usage ← lift (subscript data "usage");
    prompt_tokens ← lift (method_get usage "prompt_tokens" (VStr "N/A"));
    completion_tokens ←
      lift (method_get usage "completion_tokens" (VStr "N/A"));
    total_tokens ← lift (method_get usage "total_tokens" (VStr "N/A"));
    tell INFO ("Token usage - Prompt: " ++ py_str prompt_tokens
               ++ ", Completion: " ++ py_str completion_tokens
               ++ ", Total: " ++ py_str total_tokens)
  else mret tt.

(** The body of the [try] in [generate]. *)
Definition generate_body (payload : pyval) (headers : list (string * string))
  : logged pyval :=
  raise_if api_key_missing
           (ValueError "OPENROUTER_API_KEY not found in .env file!") ;;
  tell DEBUG ("Using API Key: " ++ string_take 20 format_api_key ++ "...") ;;
  tell INFO ("Model: " ++ model) ;;
  let req := make_request payload headers in
  response ← calling (Post req) (requests_post req);
  tell DEBUG ("Response Status: "
              ++ string_of_Z (resp_status_code response)) ;;
  tell DEBUG ("Response Headers: "
              ++ py_repr (VDict (resp_headers response))) ;;
  tell DEBUG ("Raw Response: " ++ string_take 500 (resp_text response)
              ++ "...") ;;
  raise_if (negb (resp_status_code response =? 200))
           (Exception ("API returned "
                       ++ string_of_Z (resp_status_code response)
                       ++ ": " ++ resp_text response)) ;;
  data ← lift (resp_json response);
  raise_if (negb (truthy data)) (ValueError "Empty response from API") ;;
  has_choices ← lift (contains "choices" data);
  raise_if (negb has_choices)
           (ValueError ("No 'choices' in response. Got: " ++ py_str data)) ;;
  choices ← lift (subscript data "choices");
  raise_if (negb (truthy choices))
           (ValueError "Empty 'choices' array in response") ;;
  choice ← lift (first_item choices);
  has_message ← lift (contains "message" choice);
  raise_if (negb has_message)
           (ValueError ("No 'message' in choice. Got: " ++ py_str choice)) ;;
  message ← lift (subscript choice "message");
  has_content ← lift (contains "content" message);
  raise_if (negb has_content)
           (ValueError ("No 'content' in message. Got: "
                        ++ py_str message)) ;;
  answer ← lift (subscript message "content");
  tell INFO "LLM response received successfully" ;;
  preview ← lift (head_slice 200 answer);
  tell DEBUG ("Response preview: " ++ py_str preview ++ "...") ;;
  log_usage data ;;
  mret answer.

Definition generate (question : string) (context_chunks : list pydict)
  : logged pyval :=
  context ← lift (_format_context context_chunks);
  let prompt := build_prompt context question in
  tell DEBUG (repeat_string "=" 80) ;;
  tell DEBUG "RESPONSE GENERATION" ;;
  tell DEBUG (repeat_string "=" 80) ;;
  tell DEBUG ("QUESTION: " ++ question) ;;
  tell DEBUG "RETRIEVED CODE CHUNKS:" ;;
  log_chunks 1 context_chunks ;;
  tell INFO "Calling OpenRouter API..." ;;
  let headers := make_headers in
  let payload := make_payload prompt in
  try_except (generate_body payload headers) cException
    (fun e =>
       let error_msg := "Error generating response: " ++ str_exn e in
       tell ERROR error_msg ;;
       mret (VStr error_msg)).

End Generator.

End ResponseGenerator.

(** ** [embedder.py] *)

Module Embedder.

Section Encoder.

(** [self.model.encode(text).tolist()] on one text and on a batch. *)
Variable model_encode : string -> result vector.
Variable model_encode_batch : list pyval -> result (list vector).

Definition encode (text : string) : logged vector :=
  calling (ModelEncode text) (model_encode text).

Definition encode_batch (texts : list pyval) : logged (list vector) :=
  calling (ModelEncodeBatch texts) (model_encode_batch texts).

End Encoder.

End Embedder.

(** ** [database.py] *)

Module VectorDB.

(** The stored documents of [self.collection]. *)
Definition collection := list pydict.

Definition search_pipeline (query_vector : vector) (top_k : Z) : pipeline :=
  {| vs_index := "code_vector_index";
     vs_path := "embedding";
     vs_queryVector := query_vector;
     vs_numCandidates := 100;
     vs_limit := top_k;
     project := [ ("_id", VInt 0); ("file_path", VInt 1); ("name", VInt 1);
                  ("type", VInt 1); ("code", VInt 1); ("docstring", VInt 1);
                  ("lineno", VInt 1);
                  ("score", VDict {[ "$meta" := VStr "vectorSearchScore" ]}) ]
  |}.

Section Search.

(** [list(self.collection.aggregate(pipeline))] *)
Variable aggregate : pipeline -> result (list pydict).

Definition search (query_vector : vector) (top_k : Z)
  : logged (list pydict) :=
  let p := search_pipeline query_vector top_k in
  calling (Aggregate p) (aggregate p).

End Search.

(** [insert_chunks]: nothing is sent for an empty list. *)
Definition insert_chunks (chunks : list pydict) (coll : collection)
  : log * collection :=
  match chunks with
  | [] => ([], coll)
  | _ => ([Called (InsertMany chunks)], (coll ++ chunks)%list)
  end.

(** [clear_collection]: [delete_many({})] removes every document. *)
Definition clear_collection (coll : collection) : log * collection :=
  ([Called DeleteMany], []).

End VectorDB.

(** ** [main.py] *)

Module Main.

Record QuestionRequest := {
  question : string;
  top_k : Z
}.

Record AnswerResponse := {
  answer_question : string;
  answer : string;
  sources : list pydict
}.

(** What the framework sends back: the status of an [HTTPException] that
    leaves the handler, 200 for a returned model, 500 for anything else. *)
Definition http_status {A} (r : result A) : Z :=
  match r with
  | Ok _ => 200
  | Raise (HTTPException status _) => status
  | Raise _ => 500
  end.

Section App.

Variable model_encode : string -> result vector.
Variable aggregate : pipeline -> result (list pydict).
Variable api_key : option string.
Variable model : string.
Variable py_repr : pyval -> string.
Variable requests_post : request -> result response.

(** One element of the [sources] comprehension. *)
Definition make_source (r : pydict) : result pydict :=
  file ← getitem r "file_path";
  name ← getitem r "name";
  type ← getitem r "type";
  line ← getitem r "lineno";
  Ok (<["file" := file]> (<["name" := name]>
     (<["type" := type]> (<["line" := line]> ∅)))).

Fixpoint make_sources (results : list pydict) : result (list pydict) :=
  match results with
  | [] => Ok []
  | r :: rest =>
      src ← make_source r;
      srcs ← make_sources rest;
      Ok (src :: srcs)
  end.

(** [AnswerResponse(...)]: the model checks that [answer] is a string. *)
Definition make_AnswerResponse (q : string) (a : pyval)
    (srcs : list pydict) : result AnswerResponse :=
  match a with
  | VStr text =>
      Ok {| answer_question := q; answer := text; sources := srcs |}
  | _ =>
      Raise (LibraryError "ValidationError"
               "1 validation error for AnswerResponse")
  end.

(** The body of the [try] in [ask_question]. *)
Definition ask_question_body (request : QuestionRequest)
  : logged AnswerResponse :=
  query_vector ← Embedder.encode model_encode (question request);
  results ← VectorDB.search aggregate query_vector (top_k request);
  raise_if (match results with [] => true | _ => false end)
           (HTTPException 404 "No relevant code found") ;;
  a ← ResponseGenerator.generate api_key model py_repr requests_post
        (question request) results;
  srcs ← lift (make_sources results);
  lift (make_AnswerResponse (question request) a srcs).

Definition ask_question (request : QuestionRequest)
  : logged AnswerResponse :=
  try_except (ask_question_body request) cException
    (fun e => raise (HTTPException 500 (str_exn e))).

End App.

End Main.

(** ** [scripts/setup_index.py] *)

Module SetupIndex.

Section Script.

Variable ast_parse : string -> result node.
Variable fs : filesystem.
Variable model_encode_batch : list pyval -> result (list vector).
(** The path typed at the prompt. *)
Variable YOLO_SOURCE : path.

(** [[chunk["text_for_embedding"] for chunk in chunks]] *)
Fixpoint texts_of (chunks : list pydict) : result (list pyval) :=
  match chunks with
  | [] => Ok []
  | chunk :: rest =>
      t ← getitem chunk "text_for_embedding";
      ts ← texts_of rest;
      Ok (t :: ts)
  end.

(** [del chunk[key]] *)
Definition delitem (chunk : pydict) (key : string) : result pydict :=
  match chunk !! key with
  | Some _ => Ok (delete key chunk)
  | None => Raise (KeyError (KStr key))
  end.

(** The loop over [zip(chunks, embeddings)]: it stops with the shorter
    list, and the chunks it does not reach stay as they were. *)
Fixpoint add_embeddings (chunks : list pydict) (embeddings : list vector)
  : result (list pydict) :=
  match chunks, embeddings with
  | chunk :: cs, embedding :: es =>
      chunk' ← delitem (<["embedding" := VVector embedding]> chunk)
                       "text_for_embedding";
      rest ← add_embeddings cs es;
      Ok (chunk' :: rest)
  | _, _ => Ok chunks
  end.

(** The script up to the upload: the chunks as they are handed over. *)
Definition prepare : logged (list pydict) :=
  print "Step 1: Extracting code chunks..." ;;
  chunks ← CodeIndexer.extract_code_chunks ast_parse fs YOLO_SOURCE;
  print ("Found " ++ string_of_nat (length chunks) ++ " code chunks") ;;
  print (nl ++ "Step 2: Generating embeddings...") ;;
  texts ← lift (texts_of chunks);
  embeddings ← Embedder.encode_batch model_encode_batch texts;
  chunks' ← lift (add_embeddings chunks embeddings);
  print (nl ++ "Step 3: Uploading to MongoDB...") ;;
  mret chunks'.

Definition next_steps : log :=
  [ Printed (nl ++ "NEXT STEPS:");
    Printed "1. Create vector search index in MongoDB Atlas:";
    Printed "   - Index name: code_vector_index";
    Printed "   - Field: embedding";
    Printed "   - Dimensions: 384";
    Printed "   - Similarity: cosine";
    Printed "2. Run: uvicorn src.main:app --reload" ].

(** [main], started on a store that holds [coll]: what it leaves
    behind, the store afterwards, and how it ends.  The prompt of
    [input] and the construction of the encoder and of the store client
    are left out. *)
Definition main (coll : VectorDB.collection)
  : log * VectorDB.collection * result unit :=
  if negb (path_exists fs YOLO_SOURCE) then
    ([Printed ("Error: Directory " ++ str_path YOLO_SOURCE ++ " not found")],
     coll, Ok tt)
  else
    match prepare with
    | (l1, Raise e) => (l1, coll, Raise e)
    | (l1, Ok chunks) =>
        let '(l2, coll2) := VectorDB.clear_collection coll in
        let '(l3, coll3) := VectorDB.insert_chunks chunks coll2 in
        ((l1 ++ l2 ++ l3
          ++ [Printed (nl ++ "Success! Indexed "
                       ++ string_of_nat (length chunks) ++ " code chunks")]
          ++ next_steps)%list,
         coll3, Ok tt)
    end.

(** What one turn of the loop makes of a chunk and its embedding. *)
Definition stored_record (chunk : pydict) (embedding : vector) : pydict :=
  delete "text_for_embedding" (<["embedding" := VVector embedding]> chunk).

(** The text handed to the encoder is the name, the documentation string
    and the code of the chunk, one after the other with a newline between
    them. *)
Definition embedding_text_ok (chunk : pydict) : Prop :=
  exists name docstring code,
    chunk !! "name" = Some (VStr name)
    /\ chunk !! "docstring" = Some (VStr docstring)
    /\ chunk !! "code" = Some (VStr code)
    /\ chunk !! "text_for_embedding"
       = Some (VStr (name ++ nl ++ docstring ++ nl ++ code)).

(** [chunk["text_for_embedding"]], [None] standing for a missing key. *)
Definition embedding_text (chunk : pydict) : pyval :=
  match chunk !! "text_for_embedding" with
  | Some t => t
  | None => VNone
  end.

End Script.

End SetupIndex.

(** ** Sample inputs *)

Module Sample.

Fixpoint path_eqb (p q : path) : bool :=
  match p, q with
  | [], [] => true
  | a :: p', b :: q' => String.eqb a b && path_eqb p' q'
  | _, _ => false
  end.

Definition leaf (cls : string) : node := Node (OtherNode cls) [].

(** The file of the scenario and the tree the parser gives for it. *)
Definition add_source : string := "def add(a, b): return a + b".

Definition add_def : node :=
  Node (FunctionDef {| name := "add"; lineno := 1; end_lineno := Some 1;
                       get_docstring := None |})
    [ Node (OtherNode "arguments") [leaf "arg"; leaf "arg"];
      Node (OtherNode "Return")
        [ Node (OtherNode "BinOp")
            [ Node (OtherNode "Name") [leaf "Load"];
              leaf "Add";
              Node (OtherNode "Name") [leaf "Load"] ] ] ].

Definition add_tree : node := Node (OtherNode "Module") [add_def].

(** The chunk of [add] in a file [models/add.py]. *)
Definition add_chunk : pydict :=
  <["file_path" := VStr "models/add.py"]>
  (<["name" := VStr "add"]>
  (<["type" := VStr "function"]>
  (<["code" := VStr add_source]>
  (<["docstring" := VStr ""]>
  (<["lineno" := VInt 1]>
  (<["text_for_embedding" :=
       VStr ("add" ++ nl ++ "" ++ nl ++ add_source)]> ∅)))))).

(** A file the parser rejects. *)
Definition bad_source : string := "def broken(:".

(** A coroutine with a nested function, and a class with a method. *)
Definition mixed_source : string :=
  join nl [ "async def fetch(url):";
            "    def parse(raw):";
            "        return raw";
            "    return parse(url)";
            "class Box:";
            "    def size(self):";
            "        return 0" ].

Definition parse_def : node :=
  Node (FunctionDef {| name := "parse"; lineno := 2; end_lineno := Some 3;
                       get_docstring := None |})
    [ Node (OtherNode "arguments") [leaf "arg"];
      Node (OtherNode "Return") [Node (OtherNode "Name") [leaf "Load"]] ].

Definition fetch_def : node :=
  Node (AsyncFunctionDef {| name := "fetch"; lineno := 1;
                            end_lineno := Some 4; get_docstring := None |})
    [ Node (OtherNode "arguments") [leaf "arg"];
      parse_def;
      Node (OtherNode "Return")
        [ Node (OtherNode "Call")
            [ Node (OtherNode "Name") [leaf "Load"];
              Node (OtherNode "Name") [leaf "Load"] ] ] ].

Definition size_def : node :=
  Node (FunctionDef {| name := "size"; lineno := 6; end_lineno := Some 7;
                       get_docstring := None |})
    [ Node (OtherNode "arguments") [leaf "arg"];
      Node (OtherNode "Return") [leaf "Constant"] ].

Definition box_def : node :=
  Node (ClassDef {| name := "Box"; lineno := 5; end_lineno := Some 7;
                    get_docstring := None |})
    [size_def].

Definition mixed_tree : node :=
  Node (OtherNode "Module") [fetch_def; box_def].

(** A function with a documentation string of three lines. *)
Definition documented_source : string :=
  join nl [ "def area(w, h):";
            "    '''Area of a rectangle.";
            "";
            "    Both sides are in metres.'''";
            "    return w * h" ].

Definition area_doc : string :=
  join nl ["Area of a rectangle."; ""; "Both sides are in metres."].

Definition area_def : node :=
  Node (FunctionDef {| name := "area"; lineno := 1; end_lineno := Some 5;
                       get_docstring := Some area_doc |})
    [ Node (OtherNode "arguments") [leaf "arg"; leaf "arg"];
      Node (OtherNode "Expr") [leaf "Constant"];
      Node (OtherNode "Return")
        [ Node (OtherNode "BinOp")
            [ Node (OtherNode "Name") [leaf "Load"];
              leaf "Mult";
              Node (OtherNode "Name") [leaf "Load"] ] ] ].

Definition area_tree : node := Node (OtherNode "Module") [area_def].

(** A parser that knows the sample files and rejects everything else. *)
Definition ast_parse (source : string) : result node :=
  if String.eqb source add_source then Ok add_tree
  else if String.eqb source mixed_source then Ok mixed_tree
  else if String.eqb source documented_source then Ok area_tree
  else Raise (SyntaxError (Some 1) "invalid syntax").

Definition root : path := ["ultralytics"].

Definition models : path := path_div root "models".

(** A tree of files: [models/] holds the listed files, the other target
    directories do not exist. *)
Definition fs_with (files : list (string * string)) : filesystem :=
  let contents (p : path) : result string :=
    match find (fun f => path_eqb p (path_div models f.1)) files with
    | Some f => Ok f.2
    | None => Raise (LibraryError "FileNotFoundError" "No such file")
    end in
  {| path_exists := fun p => path_eqb p root || path_eqb p models;
     rglob_py := fun p =>
       if path_eqb p models
       then map (fun f : string * string => path_div models f.1) files
       else [];
     read_utf8 := contents;
     read_latin1 := contents |}.

Definition fs_add : filesystem := fs_with [("add.py", add_source)].

Definition fs_bad_then_add : filesystem :=
  fs_with [("bad.py", bad_source); ("add.py", add_source)].

Definition fs_mixed : filesystem := fs_with [("mixed.py", mixed_source)].

Definition fs_empty : filesystem := fs_with [].

(** Collaborators for the question pipeline: an encoder that always
    answers, a store that rejects a limit below 1 and otherwise holds
    [docs], an endpoint that always answers [reply]. *)
Definition model_encode (text : string) : result vector :=
  Ok [Float64 0; Float64 0x3FF0000000000000].

Definition store (docs : list pydict) (p : pipeline) : result (list pydict) :=
  if vs_limit p <? 1 then
    Raise (LibraryError "OperationFailure" "limit must be positive")
  else Ok (take (Z.to_nat (vs_limit p)) docs).

(** A stored record without any key. *)
Definition bare_chunk : pydict := ∅.

(** A stored record as [search] projects it. *)
Definition found_chunk : pydict :=
  delete "text_for_embedding" add_chunk.

Definition py_repr (v : pyval) : string :=
  match v with
  | VNone => "None"
  | VBool true => "True"
  | VBool false => "False"
  | VInt z => string_of_Z z
  | VStr s => "'" ++ s ++ "'"
  | VFloat _ => "<float>"
  | VList _ => "[...]"
  | VDict _ => "{...}"
  end.

Definition reply (status : Z) (body : string) (payload : result pyval)
  : request -> result response :=
  fun _ => Ok {| resp_status_code := status; resp_text := body;
                 resp_headers := ∅; resp_json := payload |}.

Definition rate_limited : request -> result response :=
  reply 429 "{'error': 'rate limited'}"
    (Ok (VDict {[ "error" := VStr "rate limited" ]})).

(** An endpoint that answers with one choice. *)
Definition answered : request -> result response :=
  reply 200 "{'choices': [...]}"
    (Ok (VDict {[ "choices" :=
                    VList [VDict {[ "message" :=
                                      VDict {[ "content" :=
                                                 VStr "Call add(a, b)." ]} ]}]
               ]})).

(** A tree of files whose one file is not UTF-8 but reads as latin-1. *)
Definition fs_latin1 : filesystem :=
  {| path_exists := fun p => path_eqb p root || path_eqb p models;
     rglob_py := fun p =>
       if path_eqb p models then [path_div models "add.py"] else [];
     read_utf8 := fun _ =>
       Raise (UnicodeDecodeError "invalid start byte");
     read_latin1 := fun _ => Ok add_source |}.

Definition api_key : option string := Some "sk-or-v1-0123456789".

Definition model : string := "nvidia/nemotron-3-nano-30b-a3b:free".

(** An encoder that gives every text of a batch the same vector. *)
Definition model_encode_batch (texts : list pyval) : result (list vector) :=
  Ok (map (fun _ => [Float64 0; Float64 0x3FF0000000000000]) texts).

(** Records left in the store by an earlier build. *)
Definition old_collection : list pydict := [found_chunk; found_chunk].

(** The chunk of [area] in a file [models/area.py]. *)
Definition area_path : path := path_div models "area.py".

Definition area_chunk : pydict :=
  <["file_path" := VStr "models/area.py"]>
  (<["name" := VStr "area"]>
  (<["type" := VStr "function"]>
  (<["code" := VStr documented_source]>
  (<["docstring" := VStr area_doc]>
  (<["lineno" := VInt 1]>
  (<["text_for_embedding" :=
       VStr ("area" ++ nl ++ area_doc ++ nl ++ documented_source)]> ∅)))))).

(** The context block of [found_chunk] when it is the only one. *)
Definition found_context : string :=
  join nl [ "=== CODE CHUNK [1/1] ===";
            "File: models/add.py";
            "Function/Class: add (function)";
            "Lines: 1";
            "Purpose: No description";
            "---";
            "def add(a, b): return a + b";
            "==============================" ].

Definition embedding_of_any : vector :=
  [Float64 0; Float64 0x3FF0000000000000].

End Sample.

(** ** Reading what a run left behind *)

(** The calls on collaborators among the entries, in order. *)
Definition calls_of (l : log) : list call :=
  omap (fun e => match e with
                 | Called c => Some c
                 | _ => None
                 end) l.

(** The entries a logger wrote. *)
Definition is_logged (e : entry) : bool :=
  match e with
  | Logged _ _ => true
  | _ => false
  end.

(** ** Lines of a text *)

Fixpoint has_newline (s : string) : bool :=
  match s with
  | EmptyString => false
  | String c rest => Ascii.eqb c (ascii_of_nat 10) || has_newline rest
  end.

(** ** The extractor, seen from outside *)

Module IndexerView.

(** The keys of a chunk as [_extract_node] builds it. *)
Definition chunk_keys : gset string :=
  {[ "file_path"; "name"; "type"; "code"; "docstring"; "lineno";
     "text_for_embedding" ]}.

(** The entry a handler of [extract_code_chunks] writes for a file whose
    parsing ended in [e]: the first clause that matches writes it. *)
Definition skip_entry (py_file : path) (e : exn) : entry :=
  let line (lv : level) (what : string) :=
    Logged lv (what ++ str_path py_file ++ ": " ++ str_exn e
               ++ ". Skipping file.") in
  if isinstance e cSyntaxError then line WARNING "Syntax error in "
  else if isinstance e cUnicodeDecodeError then
    line WARNING "Encoding error in "
  else line ERROR "Unexpected error parsing ".

(** The line a missing target directory leaves. *)
Definition missing_entry (source_dir : path) (target_dir : string) : entry :=
  Logged WARNING ("Directory not found: "
                  ++ str_path (path_div source_dir target_dir)
                  ++ ". Skipping...").

End IndexerView.

(** Entries written by loggers only: no line printed, no collaborator
    called. *)
Definition only_logged (l : log) : Prop :=
  Forall (fun e => is_logged e = true) l.

(** ** The prompt, seen from outside *)

Module PromptView.

(** The purpose line of a documentation string: its first line, or the
    placeholder when it is empty. *)
Definition purpose_of (docstring : string) : string :=
  if String.eqb docstring "" then "No description"
  else match split_lines docstring with
       | first :: _ => first
       | [] => ""
       end.

(** The first line of a block, with its newline. *)
Definition header_line (i total : nat) : string :=
  "=== CODE CHUNK [" ++ string_of_nat i ++ "/" ++ string_of_nat total
  ++ "] ===" ++ nl.

(** A block of the context, from the texts that fill it. *)
Definition block (i total : nat)
    (file_path name type lineno purpose code : string) : string :=
  "=== CODE CHUNK [" ++ string_of_nat i ++ "/" ++ string_of_nat total
  ++ "] ===" ++ nl
  ++ "File: " ++ file_path ++ nl
  ++ "Function/Class: " ++ name ++ " (" ++ type ++ ")" ++ nl
  ++ "Lines: " ++ lineno ++ nl
  ++ "Purpose: " ++ purpose ++ nl
  ++ "---" ++ nl
  ++ code ++ nl
  ++ "==============================".

(** The keys a search asks the store to return from a record. *)
Definition retrieved_keys : list string :=
  ["file_path"; "name"; "type"; "code"; "docstring"; "lineno"].

(** [r] carries, under those keys, what [record] has under them. *)
Definition retrieved_from (record r : pydict) : Prop :=
  forall key, key ∈ retrieved_keys -> r !! key = record !! key.

(** Values that can be neither sliced nor searched. *)
Definition scalar (v : pyval) : bool :=
  match v with
  | VNone | VBool _ | VInt _ | VFloat _ => true
  | VStr _ | VList _ | VDict _ => false
  end.

End PromptView.

(** ** More sample inputs *)

Module Cases.

(** A root without any of the target directories. *)
Definition fs_bare : filesystem :=
  {| path_exists := fun p => Sample.path_eqb p Sample.root;
     rglob_py := fun _ => [];
     read_utf8 := fun _ =>
       Raise (LibraryError "FileNotFoundError" "No such file");
     read_latin1 := fun _ =>
       Raise (LibraryError "FileNotFoundError" "No such file") |}.

(** [models/] with a file that no encoding reads, before [add.py]. *)
Definition locked_path : path := path_div Sample.models "locked.py".

Definition fs_locked : filesystem :=
  {| path_exists := fun p =>
       Sample.path_eqb p Sample.root || Sample.path_eqb p Sample.models;
     rglob_py := fun p =>
       if Sample.path_eqb p Sample.models
       then [locked_path; path_div Sample.models "add.py"]
       else [];
     read_utf8 := fun p =>
       if Sample.path_eqb p locked_path
       then Raise (UnicodeDecodeError "invalid start byte")
       else Ok Sample.add_source;
     read_latin1 := fun _ =>
       Raise (LibraryError "PermissionError" "Permission denied") |}.

(** The method [size] of [Sample.mixed_source] as an older parser would
    give it, without its last line. *)
Definition size_def_without_end : node :=
  Node (FunctionDef {| name := "size"; lineno := 6; end_lineno := None;
                       get_docstring := None |})
    [].

Definition mixed_path : path := path_div Sample.models "mixed.py".

(** The payload of a reply that holds an answer, and its parts. *)
Definition message_part : pydict := {[ "content" := VStr "Call add(a, b)." ]}.

Definition choice_part : pydict := {[ "message" := VDict message_part ]}.

Definition payload_part : pydict :=
  {[ "choices" := VList [VDict choice_part] ]}.

Definition answered_response : response :=
  {| resp_status_code := 200; resp_text := "{'choices': [...]}";
     resp_headers := ∅; resp_json := Ok (VDict payload_part) |}.

(** The same reply with a token report that is a null. *)
Definition payload_null_usage : pydict :=
  <["usage" := VNone]> payload_part.

Definition null_usage_response : response :=
  {| resp_status_code := 200; resp_text := "{'choices': [...]}";
     resp_headers := ∅; resp_json := Ok (VDict payload_null_usage) |}.

(** A reply whose content is a null. *)
Definition null_message : pydict := {[ "content" := VNone ]}.

Definition null_choice : pydict := {[ "message" := VDict null_message ]}.

Definition payload_null_content : pydict :=
  {[ "choices" := VList [VDict null_choice] ]}.

Definition null_content_response : response :=
  {| resp_status_code := 200; resp_text := "{'choices': [...]}";
     resp_headers := ∅; resp_json := Ok (VDict payload_null_content) |}.

(** An endpoint that does not answer in time. *)
Definition timed_out : request -> result response :=
  fun _ => Raise (LibraryError "ReadTimeout" "Read timed out.").

End Cases.

(** ** Sample inputs for the handler *)

Module Asked.

(** An encoder that fails. *)
Definition failing_encode (text : string) : result vector :=
  Raise (LibraryError "RuntimeError" "CUDA out of memory").

Definition request : Main.QuestionRequest :=
  {| Main.question := "how do I add?"; Main.top_k := 5 |}.

(** The source entry of [Sample.found_chunk]. *)
Definition found_source : pydict :=
  <["file" := VStr "models/add.py"]>
  (<["name" := VStr "add"]>
  (<["type" := VStr "function"]>
  (<["line" := VInt 1]> ∅))).

(** What a search returns for the record of [area]. *)
Definition area_record : pydict :=
  <["score" := VFloat (Float64 0x3FE8000000000000)]>
  (delete "text_for_embedding" Sample.area_chunk).

End Asked.

(** ** Sample inputs for the build script *)

Module Built.

(** An encoder that fails on every batch. *)
Definition failing_encode_batch (texts : list pyval)
  : result (list vector) :=
  Raise (LibraryError "RuntimeError" "CUDA out of memory").

(** An encoder that answers every batch with one vector. *)
Definition short_encode_batch (texts : list pyval) : result (list vector) :=
  Ok [Sample.embedding_of_any].

End Built.

(** ** [config.py] *)

Module Config.

(** The module's constants once it has loaded. *)
Record settings := {
  MONGODB_URI : option string;
  OPENROUTER_API_KEY : option string;
  DATABASE_NAME : string;
  COLLECTION_NAME : string;
  EMBEDDING_MODEL : string;
  LLM_MODEL : string;
  TOP_K_RESULTS : Z
}.

(** [c.lower()] and [s.lower()], for the letters A to Z. *)
Definition lower_ascii (c : ascii) : ascii :=
  let n := nat_of_ascii c in
  if (65 <=? n)%nat && (n <=? 90)%nat then ascii_of_nat (n + 32) else c.

Fixpoint lower (s : string) : string :=
  match s with
  | EmptyString => EmptyString
  | String c rest => String (lower_ascii c) (lower rest)
  end.

(** [bool(x)] for the result of [os.getenv]: neither [None] nor the
    empty string. *)
Definition present (value : option string) : bool :=
  match value with
  | Some s => negb (String.eqb s "")
  | None => false
  end.

(** [x[:n] if x else 'NOT FOUND'] *)
Definition shown (value : option string) (n : nat) : string :=
  match value with
  | Some s => if String.eqb s "" then "NOT FOUND" else string_take n s
  | None => "NOT FOUND"
  end.

Section Load.

(** [os.environ] once [load_dotenv] has run. *)
Variable environ : gmap string string.
(** [int(text)] *)
Variable py_int : string -> result Z.
(** [str(env_path)] and [env_path.exists()] *)
Variable env_path : string.
Variable env_exists : bool.

(** [os.getenv(key)] and [os.getenv(key, default)] *)
Definition getenv (key : string) : option string := environ !! key.

Definition getenv_or (key default : string) : string :=
  match environ !! key with
  | Some value => value
  | None => default
  end.

Definition debug : bool :=
  String.eqb (lower (getenv_or "DEBUG" "false")) "true".

(** The module body, from the first test of [DEBUG] to the last line. *)
Definition load : logged settings :=
  (if debug then
     tell DEBUG ("Looking for .env at: " ++ env_path) ;;
     tell DEBUG (".env exists: " ++ (if env_exists then "True" else "False"))
   else mret tt) ;;
  let uri := getenv "MONGODB_URI" in
  let key := getenv "OPENROUTER_API_KEY" in
  let database := getenv_or "DATABASE_NAME" "yolo_assistant" in
  let collection := getenv_or "COLLECTION_NAME" "code_chunks" in
  (if debug then
     tell DEBUG ("MONGODB_URI loaded: " ++ shown uri 30 ++ "...") ;;
     tell DEBUG ("OPENROUTER_API_KEY loaded: " ++ shown key 20 ++ "...")
   else mret tt) ;;
  let embedding := "sentence-transformers/all-MiniLM-L6-v2" in
  let llm := getenv_or "LLM_MODEL" "nvidia/nemotron-3-nano-30b-a3b:free" in
  top_k ← lift (py_int (getenv_or "TOP_K_RESULTS" "5"));
  raise_if (negb (present key))
    (ValueError "OPENROUTER_API_KEY not found! Check your .env file.") ;;
  raise_if (negb (present uri))
    (ValueError "MONGODB_URI not found! Check your .env file.") ;;
  tell INFO ("Configuration loaded: Model=" ++ llm ++ ", Database="
             ++ database) ;;
  mret {| MONGODB_URI := uri;
          OPENROUTER_API_KEY := key;
          DATABASE_NAME := database;
          COLLECTION_NAME := collection;
          EMBEDDING_MODEL := embedding;
          LLM_MODEL := llm;
          TOP_K_RESULTS := top_k |}.

End Load.

End Config.

(** ** [frontend/app.py] *)

Module Frontend.

(** [s.split(sep)] for a separator of one character. *)
Fixpoint split_on (sep : ascii) (s : string) : list string :=
  match s with
  | EmptyString => [""]
  | String c rest =>
      if Ascii.eqb c sep then "" :: split_on sep rest
      else match split_on sep rest with
           | [] => [String c ""]
           | l :: ls => String c l :: ls
           end
  end.

(** [sep in s] for a separator of one character. *)
Fixpoint has_char (sep : ascii) (s : string) : bool :=
  match s with
  | EmptyString => false
  | String c rest => Ascii.eqb c sep || has_char sep rest
  end.

(** [l[-1]] of a list that is not empty. *)
Definition last_part (l : list string) : string := List.last l "".

Definition slash : ascii := ascii_of_nat 47.

(** The name of the model as the sidebar shows it: the part after the
    last slash, cut to twelve characters and three dots when it is longer
    than fifteen. *)
Definition display_name (model_name : string) : string :=
  let display_name :=
    if has_char slash model_name
    then last_part (split_on slash model_name)
    else model_name in
  if (15 <? String.length display_name)%nat
  then string_take 12 display_name ++ "..."
  else display_name.

End Frontend.

(** ** Sample inputs for the configuration *)

Module Configured.

(** [int] on the numerals the samples use. *)
Definition py_int (text : string) : result Z :=
  if String.eqb text "5" then Ok 5
  else if String.eqb text "3" then Ok 3
  else Raise (ValueError ("invalid literal for int() with base 10: '"
                          ++ text ++ "'")).

Definition env_path : string := "/srv/yolo/backend/.env".

(** An environment with both secrets. *)
Definition environ : gmap string string :=
  {[ "OPENROUTER_API_KEY" := "sk-or-v1-0123456789";
     "MONGODB_URI" := "mongodb+srv://cluster0.example.net";
     "TOP_K_RESULTS" := "3" ]}.

(** An environment without secrets. *)
Definition bare_environ : gmap string string := {[ "DEBUG" := "True" ]}.

End Configured.

(** * Properties *)

(** ** Strings and slices *)

Example split_lines_ex :
  split_lines ("a" ++ nl ++ "bc" ++ nl) = ["a"; "bc"; ""].
Proof. reflexivity. Qed.

Example slice_ex : slice [1; 2; 3; 4] 1 3 = [2; 3].
Proof. reflexivity. Qed.

Example string_of_Z_ex : string_of_Z 404 = "404" /\ string_of_Z (-7) = "-7".
Proof. split; reflexivity. Qed.

(** ** Exceptions *)

(** Every modelled exception is an [Exception]: an [except Exception]
    clause lets none of them through. *)
Lemma isinstance_Exception (e : exn) : isinstance e cException = true.
Proof. destruct e; reflexivity. Qed.

(** ** The tree walk *)

Lemma node_size_pos (n : node) : (0 < node_size n)%nat.
Proof. destruct n; simpl; lia. Qed.

Lemma queue_size_app (a b : list node) :
  queue_size (a ++ b)%list = (queue_size a + queue_size b)%nat.
Proof. unfold queue_size. now rewrite map_app, list_sum_app. Qed.

(** With fuel for every queued node and all below them, the queue loop
    yields each of those nodes once. *)
Lemma walk_loop_complete (fuel : nat) : forall todo : list node,
  (queue_size todo <= fuel)%nat ->
  walk_loop fuel todo ≡ₚ flat_map descendants todo.
Proof.
  induction fuel as [|k IH]; intros todo Hfuel.
  - destruct todo as [|n rest]; [reflexivity|].
    unfold queue_size in Hfuel; simpl in Hfuel.
    pose proof (node_size_pos n); lia.
  - destruct todo as [|[c children] rest]; [reflexivity|].
    cbn [walk_loop iter_child_nodes flat_map descendants].
    rewrite IH.
    + rewrite flat_map_app. simpl. constructor.
      apply Permutation_app_comm.
    + rewrite queue_size_app.
      unfold queue_size in *. simpl in Hfuel. lia.
Qed.

Lemma walk_complete (tree : node) : walk tree ≡ₚ descendants tree.
Proof.
  unfold walk. rewrite walk_loop_complete.
  - simpl. now rewrite app_nil_r.
  - unfold queue_size. simpl. lia.
Qed.

Lemma walk_elem_of (tree n : node) : n ∈ walk tree <-> n ∈ descendants tree.
Proof. now rewrite walk_complete. Qed.

(** ** The extractor *)

(** Membership in a log put together with [++] and [::]. *)
Ltac in_log := rewrite ?elem_of_app, ?elem_of_cons in *; tauto.

Section IndexerFacts.

Variable ast_parse : string -> result node.
Variable fs : filesystem.
Variable source_dir : path.

Local Abbreviation extract_node_body :=
  (CodeIndexer.extract_node_body source_dir).
Local Abbreviation _extract_node := (CodeIndexer._extract_node source_dir).
Local Abbreviation collect_chunks := (CodeIndexer.collect_chunks source_dir).
Local Abbreviation read_source := (CodeIndexer.read_source fs).
Local Abbreviation parse_source := (CodeIndexer.parse_source ast_parse).
Local Abbreviation _parse_file :=
  (CodeIndexer._parse_file ast_parse fs source_dir).
Local Abbreviation index_files :=
  (CodeIndexer.index_files ast_parse fs source_dir).
Local Abbreviation index_dirs :=
  (CodeIndexer.index_dirs ast_parse fs source_dir).
Local Abbreviation extract_code_chunks :=
  (CodeIndexer.extract_code_chunks ast_parse fs source_dir).
Local Abbreviation chunk_of := (CodeIndexer.chunk_of source_dir).
Local Abbreviation chunks_of_file :=
  (CodeIndexer.chunks_of_file ast_parse fs source_dir).
Local Abbreviation listing := (CodeIndexer.listing fs source_dir).
Local Abbreviation eligible_files :=
  (CodeIndexer.eligible_files fs source_dir).

Lemma extract_node_body_fields n source file_path chunk :
  extract_node_body n source file_path = Ok chunk ->
  exists a rel code,
    node_attrs n = Ok a
    /\ strip_prefix file_path source_dir = Some rel
    /\ code = join nl (slice (split_lines source) (lineno a - 1)
                         (match end_lineno a with
                          | Some e => e
                          | None => lineno a - 1 + 10
                          end))
    /\ chunk !! "file_path" = Some (VStr (str_path rel))
    /\ chunk !! "name" = Some (VStr (name a))
    /\ chunk !! "type"
       = Some (VStr (if is_class n then "class" else "function"))
    /\ chunk !! "code" = Some (VStr code)
    /\ chunk !! "docstring" = Some (VStr (or_empty (get_docstring a)))
    /\ chunk !! "lineno" = Some (VInt (lineno a))
    /\ chunk !! "text_for_embedding"
       = Some (VStr (name a ++ nl ++ or_empty (get_docstring a)
                     ++ nl ++ code))
    /\ dict_truthy chunk = true.
Proof.
  unfold CodeIndexer.extract_node_body.
  intros H. destruct (node_attrs n) as [a|e] eqn:Ha; [|discriminate].
  simpl in H. unfold relative_to in H.
  destruct (strip_prefix file_path source_dir) as [rel|] eqn:Hrel;
    [|discriminate].
  simpl in H. injection H as <-.
  exists a, rel. eexists.
  split; [reflexivity|]. split; [reflexivity|]. split; [reflexivity|].
  repeat split; by simplify_map_eq.
Qed.

Lemma _extract_node_Some n source file_path l chunk :
  _extract_node n source file_path = (l, Some chunk) ->
  extract_node_body n source file_path = Ok chunk.
Proof.
  unfold CodeIndexer._extract_node.
  destruct (CodeIndexer.extract_node_body _ _ _ _) as [c|e].
  - now intros [= _ ->].
  - destruct (isinstance e cException); discriminate.
Qed.

Lemma chunk_of_truthy source file_path n chunk :
  chunk_of source file_path n = Some chunk -> dict_truthy chunk = true.
Proof.
  unfold CodeIndexer.chunk_of. destruct (_extract_node n source file_path) as [l o] eqn:E.
  simpl. intros ->. apply _extract_node_Some in E.
  apply extract_node_body_fields in E.
  destruct E as (a & rel & code & H). apply H.
Qed.

(** The loop of [_parse_file] keeps, in walk order, the chunk of every
    node that passes the class test and that [_extract_node] accepts. *)
Lemma collect_chunks_omap nodes source file_path :
  (collect_chunks nodes source file_path).2
  = omap (chunk_of source file_path)
      (List.filter is_function_or_class nodes).
Proof.
  induction nodes as [|n rest IH]; [reflexivity|].
  cbn [CodeIndexer.collect_chunks List.filter].
  destruct (is_function_or_class n); [|exact IH].
  cbn [omap list_omap].
  pose proof (chunk_of_truthy source file_path n) as Ht.
  unfold CodeIndexer.chunk_of in *.
  destruct (CodeIndexer._extract_node source_dir n source file_path)
    as [l1 chunk].
  destruct (CodeIndexer.collect_chunks source_dir rest source file_path)
    as [l2 chunks].
  simpl in *. subst chunks.
  destruct chunk as [c|]; [|reflexivity].
  now rewrite (Ht c eq_refl).
Qed.

Lemma index_files_result files : forall acc,
  (index_files files acc).2
  = Ok (acc ++ flat_map chunks_of_file files)%list.
Proof.
  induction files as [|f rest IH]; intros acc.
  - simpl. now rewrite app_nil_r.
  - cbn [CodeIndexer.index_files flat_map]. unfold CodeIndexer.chunks_of_file at 1.
    destruct (CodeIndexer._parse_file ast_parse fs source_dir f)
      as [l1 [cs|e]]; cbn [snd].
    + specialize (IH (acc ++ cs)%list).
      destruct (CodeIndexer.index_files _ _ _ rest (acc ++ cs)%list)
        as [l2 r].
      simpl in *. now rewrite IH, app_assoc.
    + specialize (IH acc).
      destruct (CodeIndexer.index_files _ _ _ rest acc) as [l2 r].
      rewrite (isinstance_Exception e).
      simpl in *. subst r.
      destruct (isinstance e cSyntaxError);
        [|destruct (isinstance e cUnicodeDecodeError)]; reflexivity.
Qed.

(** A file that ends in a [SyntaxError] leaves a warning that names the
    file and carries the text of the exception. *)
Lemma index_files_syntax_warning files f l1 e : forall acc,
  f ∈ files ->
  _parse_file f = (l1, Raise e) ->
  isinstance e cSyntaxError = true ->
  Logged WARNING ("Syntax error in " ++ str_path f ++ ": " ++ str_exn e
                  ++ ". Skipping file.")
  ∈ (index_files files acc).1.
Proof.
  induction files as [|g rest IH]; intros acc Hin Hf He.
  - inversion Hin.
  - cbn [CodeIndexer.index_files].
    apply elem_of_cons in Hin as [<-|Hin].
    + rewrite Hf, He.
      destruct (CodeIndexer.index_files _ _ _ rest acc) as [l2 r].
      cbn [fst]. unfold say. set_solver.
    + destruct (CodeIndexer._parse_file ast_parse fs source_dir g)
        as [lg [cs|eg]].
      * specialize (IH (acc ++ cs)%list Hin Hf He).
        destruct (CodeIndexer.index_files _ _ _ rest (acc ++ cs)%list)
          as [l2 r].
        cbn [fst] in *. set_solver.
      * specialize (IH acc Hin Hf He).
        destruct (CodeIndexer.index_files _ _ _ rest acc) as [l2 r].
        rewrite (isinstance_Exception eg).
        cbn [fst] in *.
        destruct (isinstance eg cSyntaxError);
          [|destruct (isinstance eg cUnicodeDecodeError)];
          cbn [fst]; set_solver.
Qed.

Lemma index_dirs_result dirs : forall acc,
  (index_dirs dirs acc).2
  = Ok (acc ++ flat_map chunks_of_file (flat_map listing dirs))%list.
Proof.
  induction dirs as [|d rest IH]; intros acc.
  - simpl. now rewrite app_nil_r.
  - cbn [CodeIndexer.index_dirs flat_map]. unfold CodeIndexer.listing at 1.
    destruct (path_exists fs (path_div source_dir d)); cbn [negb].
    + pose proof (index_files_result (rglob_py fs (path_div source_dir d))
                    acc) as Hf.
      destruct (CodeIndexer.index_files _ _ _ _ acc) as [l1 r1].
      cbn [snd] in Hf. subst r1.
      specialize (IH (acc ++ flat_map chunks_of_file
                               (rglob_py fs (path_div source_dir d)))%list).
      destruct (CodeIndexer.index_dirs _ _ _ rest _) as [l2 r].
      cbn [snd] in *. rewrite IH, flat_map_app. now rewrite app_assoc.
    + specialize (IH acc).
      destruct (CodeIndexer.index_dirs _ _ _ rest acc) as [l2 r].
      exact IH.
Qed.

Lemma index_dirs_syntax_warning dirs f l1 e : forall acc,
  f ∈ flat_map listing dirs ->
  _parse_file f = (l1, Raise e) ->
  isinstance e cSyntaxError = true ->
  Logged WARNING ("Syntax error in " ++ str_path f ++ ": " ++ str_exn e
                  ++ ". Skipping file.")
  ∈ (index_dirs dirs acc).1.
Proof.
  induction dirs as [|d rest IH]; intros acc Hin Hf He.
  - inversion Hin.
  - cbn [CodeIndexer.index_dirs flat_map] in *. unfold CodeIndexer.listing at 1 in Hin.
    destruct (path_exists fs (path_div source_dir d)); cbn [negb].
    + pose proof (index_files_result (rglob_py fs (path_div source_dir d))
                    acc) as Hr.
      pose proof (fun H => index_files_syntax_warning
                    (rglob_py fs (path_div source_dir d)) f l1 e acc
                    H Hf He) as Hw.
      destruct (CodeIndexer.index_files _ _ _ _ acc) as [lf r1].
      cbn [fst snd] in *. subst r1.
      apply elem_of_app in Hin as [Hin|Hin].
      * destruct (CodeIndexer.index_dirs _ _ _ rest _) as [l2 r].
        cbn [fst]. specialize (Hw Hin). set_solver.
      * specialize (IH (acc ++ flat_map chunks_of_file
                                 (rglob_py fs (path_div source_dir d)))%list
                      Hin Hf He).
        destruct (CodeIndexer.index_dirs _ _ _ rest _) as [l2 r].
        cbn [fst] in *. in_log.
    + specialize (IH acc Hin Hf He).
      destruct (CodeIndexer.index_dirs _ _ _ rest acc) as [l2 r].
      cbn [fst] in *. in_log.
Qed.

(** The run returns, and returns what the files add, file by file. *)
Lemma extract_code_chunks_result :
  (CodeIndexer.extract_code_chunks ast_parse fs source_dir).2
  = Ok (flat_map chunks_of_file eligible_files).
Proof.
  unfold CodeIndexer.extract_code_chunks, CodeIndexer.eligible_files.
  pose proof (index_dirs_result CodeIndexer.target_dirs []) as H.
  destruct (CodeIndexer.index_dirs _ _ _ CodeIndexer.target_dirs [])
    as [l r].
  cbn [snd] in H. subst r. rewrite app_nil_l.
  now destruct (flat_map chunks_of_file _).
Qed.

Lemma extract_code_chunks_log_incl :
  forall x, x ∈ (index_dirs CodeIndexer.target_dirs []).1 ->
            x ∈ (CodeIndexer.extract_code_chunks ast_parse fs source_dir).1.
Proof.
  intros x. unfold CodeIndexer.extract_code_chunks.
  pose proof (index_dirs_result CodeIndexer.target_dirs []) as H.
  destruct (CodeIndexer.index_dirs _ _ _ CodeIndexer.target_dirs [])
    as [l r].
  cbn [fst snd] in *. subst r.
  destruct (_ ++ _)%list; cbn [fst]; set_solver.
Qed.

Lemma _parse_file_syntax_error file_path l1 source lineno msg :
  read_source file_path = (l1, Ok source) ->
  ast_parse source = Raise (SyntaxError lineno msg) ->
  _parse_file file_path
  = (l1, Raise (SyntaxError None
                  ("Invalid Python syntax at line " ++ format_lineno lineno
                   ++ ": " ++ msg))).
Proof.
  intros Hread Hparse. unfold CodeIndexer._parse_file.
  rewrite Hread. unfold CodeIndexer.parse_source. now rewrite Hparse.
Qed.

Lemma _parse_file_parsed file_path l1 source tree :
  read_source file_path = (l1, Ok source) ->
  ast_parse source = Ok tree ->
  (_parse_file file_path).2
  = Ok (omap (chunk_of source file_path) (CodeIndexer.extracted_nodes tree)).
Proof.
  intros Hread Hparse. unfold CodeIndexer._parse_file.
  rewrite Hread. unfold CodeIndexer.parse_source. rewrite Hparse.
  pose proof (collect_chunks_omap (walk tree) source file_path) as H.
  destruct (collect_chunks (walk tree) source file_path) as [l2 chunks].
  cbn [snd] in *. now subst chunks.
Qed.

Lemma extracted_nodes_spec tree n :
  n ∈ CodeIndexer.extracted_nodes tree
  <-> n ∈ descendants tree
      /\ exists a, node_cls n = FunctionDef a \/ node_cls n = ClassDef a.
Proof.
  unfold CodeIndexer.extracted_nodes.
  rewrite list_elem_of_In, filter_In, <- list_elem_of_In, walk_elem_of.
  unfold is_function_or_class.
  split; intros [Hd Hc]; (split; [exact Hd|]).
  - destruct (node_cls n) as [a|a|a|cls]; try discriminate; eauto.
  - destruct Hc as [a [-> | ->]]; reflexivity.
Qed.

(** C4: a file with a syntax error is skipped alone.  The run returns,
    for any tree of files, exactly the chunks of the files that parse, in
    order; a file that the parser rejects with a [SyntaxError] adds no
    chunk and leaves a warning carrying the offending line and the
    parser's message, and the files before and after it still add theirs. *)
Theorem syntax_error_skips_only_that_file :
  exists l,
    extract_code_chunks = (l, Ok (flat_map chunks_of_file eligible_files))
    /\ (forall f chunks,
          (_parse_file f).2 = Ok chunks -> chunks_of_file f = chunks)
    /\ (forall f l1 source lineno msg,
          f ∈ eligible_files ->
          read_source f = (l1, Ok source) ->
          ast_parse source = Raise (SyntaxError lineno msg) ->
          chunks_of_file f = []
          /\ Logged WARNING
               ("Syntax error in " ++ str_path f ++ ": "
                ++ ("Invalid Python syntax at line " ++ format_lineno lineno
                    ++ ": " ++ msg)
                ++ ". Skipping file.") ∈ l).
Proof.
  exists extract_code_chunks.1. split; [|split].
  - rewrite <- extract_code_chunks_result. now destruct extract_code_chunks.
  - intros f chunks H. unfold CodeIndexer.chunks_of_file. now rewrite H.
  - intros f l1 source lineno msg Hin Hread Hparse.
    pose proof (_parse_file_syntax_error f l1 source lineno msg Hread Hparse)
      as Hf.
    split.
    + unfold CodeIndexer.chunks_of_file. now rewrite Hf.
    + apply extract_code_chunks_log_incl.
      apply (index_dirs_syntax_warning _ f l1 _ [] Hin Hf). reflexivity.
Qed.

(** C9: only synchronous function definitions and class definitions
    become chunks.  The chunks of a parsed file are those of the nodes
    handed to [_extract_node]; these are the [FunctionDef] and [ClassDef]
    nodes of the tree at every depth, each on its own, and never an
    [AsyncFunctionDef] node. *)
Theorem only_sync_defs_and_classes_become_chunks file_path l1 source tree :
  read_source file_path = (l1, Ok source) ->
  ast_parse source = Ok tree ->
  (_parse_file file_path).2
  = Ok (omap (chunk_of source file_path) (CodeIndexer.extracted_nodes tree))
  /\ (forall n,
        n ∈ CodeIndexer.extracted_nodes tree
        <-> n ∈ descendants tree
            /\ exists a, node_cls n = FunctionDef a \/ node_cls n = ClassDef a)
  /\ (forall n a,
        node_cls n = AsyncFunctionDef a ->
        n ∉ CodeIndexer.extracted_nodes tree)
  /\ (forall n chunk,
        n ∈ descendants tree ->
        is_function_or_class n = true ->
        chunk_of source file_path n = Some chunk ->
        chunk ∈ omap (chunk_of source file_path)
                  (CodeIndexer.extracted_nodes tree)).
Proof.
  intros Hread Hparse. split; [|split; [|split]].
  - exact (_parse_file_parsed file_path l1 source tree Hread Hparse).
  - apply extracted_nodes_spec.
  - intros n a Ha Hin. apply extracted_nodes_spec in Hin as [_ [b [H|H]]];
      congruence.
  - intros n chunk Hd Hc Hchunk. apply list_elem_of_omap.
    exists n. split; [|exact Hchunk].
    apply extracted_nodes_spec. split; [exact Hd|].
    unfold is_function_or_class in Hc.
    destruct (node_cls n) as [a|a|a|cls]; try discriminate; eauto.
Qed.

Lemma read_source_utf8 file_path source :
  read_utf8 fs file_path = Ok source ->
  read_source file_path = ([], Ok source).
Proof. intros H. unfold CodeIndexer.read_source. now rewrite H. Qed.

(** C7: one eligible file holding [def add(a, b): return a + b] gives
    exactly one chunk, named [add], of type [function], at line 1 (with
    the whole line as its code and an empty documentation string). *)
Theorem single_add_function_yields_one_chunk file rel :
  eligible_files = [file] ->
  read_utf8 fs file = Ok Sample.add_source ->
  strip_prefix file source_dir = Some rel ->
  ast_parse Sample.add_source = Ok Sample.add_tree ->
  exists l chunk,
    extract_code_chunks = (l, Ok [chunk])
    /\ chunk !! "name" = Some (VStr "add")
    /\ chunk !! "type" = Some (VStr "function")
    /\ chunk !! "lineno" = Some (VInt 1)
    /\ chunk !! "code" = Some (VStr Sample.add_source)
    /\ chunk !! "docstring" = Some (VStr "")
    /\ chunk !! "file_path" = Some (VStr (str_path rel)).
Proof.
  intros Hfiles Hread Hrel Hparse.
  pose proof extract_code_chunks_result as Hres.
  rewrite Hfiles in Hres. cbn [flat_map] in Hres. rewrite app_nil_r in Hres.
  unfold CodeIndexer.chunks_of_file in Hres.
  rewrite (_parse_file_parsed file [] _ _ (read_source_utf8 _ _ Hread) Hparse)
    in Hres.
  change (CodeIndexer.extracted_nodes Sample.add_tree)
    with [Sample.add_def] in Hres.
  cbn [omap list_omap] in Hres.
  unfold CodeIndexer.chunk_of, CodeIndexer._extract_node,
    CodeIndexer.extract_node_body in Hres.
  cbn [Sample.add_def node_attrs node_cls mbind result_bind] in Hres.
  unfold relative_to in Hres. rewrite Hrel in Hres.
  cbn [snd] in Hres.
  destruct extract_code_chunks as [l r]. cbn [snd] in Hres. subst r.
  eexists l, _. split; [reflexivity|].
  repeat split; by simplify_map_eq.
Qed.

(** C6, as the code has it: the ['docstring'] entry of a chunk is the
    whole documentation string of the unit, every line of it, and the
    empty string when the unit has none. *)
Theorem docstring_field_is_whole_docstring n source file_path l chunk :
  _extract_node n source file_path = (l, Some chunk) ->
  exists a,
    node_attrs n = Ok a
    /\ chunk !! "docstring" = Some (VStr (or_empty (get_docstring a))).
Proof.
  intros H. apply _extract_node_Some, extract_node_body_fields in H.
  destruct H as (a & rel & code & Ha & _ & _ & _ & _ & _ & _ & Hd & _).
  exists a. split; assumption.
Qed.

End IndexerFacts.

(** ** The extractor on the sample trees *)

(** A rejected file before a good one: the good one is indexed, the
    rejected one is named in a warning. *)
Lemma syntax_error_skips_only_that_file_witness :
  exists l,
    CodeIndexer.extract_code_chunks Sample.ast_parse Sample.fs_bad_then_add
      Sample.root
    = (l, Ok [Sample.add_chunk])
    /\ Logged WARNING
         ("Syntax error in ultralytics/models/bad.py: "
          ++ "Invalid Python syntax at line 1: invalid syntax"
          ++ ". Skipping file.") ∈ l.
Proof.
  destruct (syntax_error_skips_only_that_file Sample.ast_parse
              Sample.fs_bad_then_add Sample.root) as (l & Hrun & _ & Hbad).
  exists l. split.
  - rewrite Hrun. reflexivity.
  - apply (Hbad (path_div Sample.models "bad.py") [] Sample.bad_source
             (Some 1) "invalid syntax").
    + vm_compute. apply list_elem_of_here.
    + reflexivity.
    + reflexivity.
Defined.

(** The scenario of the single [add] function, with the sample parser. *)
Lemma single_add_function_yields_one_chunk_witness :
  CodeIndexer.eligible_files Sample.fs_add Sample.root
  = [path_div Sample.models "add.py"]
  /\ read_utf8 Sample.fs_add (path_div Sample.models "add.py")
     = Ok Sample.add_source
  /\ strip_prefix (path_div Sample.models "add.py") Sample.root
     = Some ["models"; "add.py"]
  /\ Sample.ast_parse Sample.add_source = Ok Sample.add_tree
  /\ exists l chunk,
       CodeIndexer.extract_code_chunks Sample.ast_parse Sample.fs_add
         Sample.root
       = (l, Ok [chunk])
       /\ chunk !! "name" = Some (VStr "add")
       /\ chunk !! "type" = Some (VStr "function")
       /\ chunk !! "lineno" = Some (VInt 1)
       /\ chunk !! "code" = Some (VStr Sample.add_source)
       /\ chunk !! "docstring" = Some (VStr "")
       /\ chunk !! "file_path" = Some (VStr "models/add.py").
Proof.
  split; [reflexivity|]. split; [reflexivity|].
  split; [reflexivity|]. split; [reflexivity|].
  apply (single_add_function_yields_one_chunk Sample.ast_parse Sample.fs_add
           Sample.root (path_div Sample.models "add.py") ["models"; "add.py"]);
    reflexivity.
Defined.

(** A coroutine, a function nested in it, a class and its method. *)
Lemma only_sync_defs_and_classes_become_chunks_witness :
  CodeIndexer.read_source Sample.fs_mixed (path_div Sample.models "mixed.py")
  = ([], Ok Sample.mixed_source)
  /\ Sample.ast_parse Sample.mixed_source = Ok Sample.mixed_tree
  /\ CodeIndexer.extracted_nodes Sample.mixed_tree
     = [Sample.box_def; Sample.parse_def; Sample.size_def]
  /\ (Sample.fetch_def ∉ CodeIndexer.extracted_nodes Sample.mixed_tree)
  /\ (CodeIndexer._parse_file Sample.ast_parse Sample.fs_mixed Sample.root
        (path_div Sample.models "mixed.py")).2
     = Ok (omap (CodeIndexer.chunk_of Sample.root Sample.mixed_source
                   (path_div Sample.models "mixed.py"))
             [Sample.box_def; Sample.parse_def; Sample.size_def]).
Proof.
  split; [reflexivity|]. split; [reflexivity|]. split; [reflexivity|].
  destruct (only_sync_defs_and_classes_become_chunks Sample.ast_parse
              Sample.fs_mixed Sample.root (path_div Sample.models "mixed.py")
              [] Sample.mixed_source Sample.mixed_tree eq_refl eq_refl)
    as (Hchunks & _ & Hasync & _).
  split.
  - apply (Hasync Sample.fetch_def
             {| name := "fetch"; lineno := 1; end_lineno := Some 4;
                get_docstring := None |}).
    reflexivity.
  - exact Hchunks.
Defined.

(** ** Code that logs: how it ends *)

Lemma logged_bind_snd {A B} (m : logged A) (k : A -> logged B) :
  (m ≫= k).2 = match m.2 with
               | Ok a => (k a).2
               | Raise e => Raise e
               end.
Proof.
  destruct m as [l [a|e]]; [|reflexivity].
  unfold mbind, logged_bind. cbn [snd]. destruct (k a). reflexivity.
Qed.

Lemma logged_bind_fst {A B} (m : logged A) (k : A -> logged B) :
  (m ≫= k).1 = (m.1 ++ match m.2 with
                       | Ok a => (k a).1
                       | Raise _ => []
                       end)%list.
Proof.
  destruct m as [l [a|e]].
  - unfold mbind, logged_bind. cbn [fst snd]. destruct (k a). reflexivity.
  - cbn. now rewrite app_nil_r.
Qed.

(** What the body of a [try] leaves behind stays, whatever the handler
    adds. *)
Lemma try_except_fst {A} (body : logged A) cls handler :
  (try_except body cls handler).1
  = (body.1 ++ match body.2 with
               | Ok _ => []
               | Raise e => if isinstance e cls then (handler e).1 else []
               end)%list.
Proof.
  destruct body as [l [a|e]]; cbn [try_except fst snd].
  - now rewrite app_nil_r.
  - destruct (isinstance e cls).
    + destruct (handler e). reflexivity.
    + cbn. now rewrite app_nil_r.
Qed.

(** An [except Exception] clause always takes over. *)
Lemma try_except_Exception_snd {A} (body : logged A) handler :
  (try_except body cException handler).2
  = match body.2 with
    | Ok a => Ok a
    | Raise e => (handler e).2
    end.
Proof.
  destruct body as [l [a|e]]; [reflexivity|].
  unfold try_except. rewrite isinstance_Exception. cbn [snd].
  destruct (handler e). reflexivity.
Qed.

(** One step through a chain of binds, looking at how it ends. *)
Ltac logged_step :=
  rewrite logged_bind_snd;
  cbn [snd negb tell say lift calling raise raise_if mret logged_ret].

(** ** The synthesizer *)

Section GeneratorFacts.

Variable api_key : option string.
Variable model : string.
Variable py_repr : pyval -> string.
Variable requests_post : request -> result response.

Local Abbreviation format_chunk := (ResponseGenerator.format_chunk py_repr).
Local Abbreviation format_chunks := (ResponseGenerator.format_chunks py_repr).
Local Abbreviation _format_context :=
  (ResponseGenerator._format_context py_repr).
Local Abbreviation log_chunk := (ResponseGenerator.log_chunk py_repr).
Local Abbreviation log_chunks := (ResponseGenerator.log_chunks py_repr).
Local Abbreviation generate_body :=
  (ResponseGenerator.generate_body api_key model py_repr requests_post).
Local Abbreviation generate :=
  (ResponseGenerator.generate api_key model py_repr requests_post).
Local Abbreviation make_payload := (ResponseGenerator.make_payload model).
Local Abbreviation make_headers := (ResponseGenerator.make_headers api_key).

Lemma format_chunk_Ok_keys i total chunk block :
  format_chunk i total chunk = Ok block ->
  forall key, key ∈ ResponseGenerator.required_keys ->
              is_Some (chunk !! key).
Proof.
  unfold ResponseGenerator.format_chunk, getitem. intros H key Hkey.
  destruct (if truthy _ then _ else _) as [purpose|e]; [|discriminate].
  cbn [mbind result_bind] in H.
  destruct (chunk !! "file_path") eqn:E1; [|discriminate].
  cbn [mbind result_bind] in H.
  destruct (chunk !! "name") eqn:E2; [|discriminate].
  cbn [mbind result_bind] in H.
  destruct (chunk !! "type") eqn:E3; [|discriminate].
  cbn [mbind result_bind] in H.
  destruct (chunk !! "lineno") eqn:E4; [|discriminate].
  cbn [mbind result_bind] in H.
  destruct (chunk !! "code") eqn:E5; [|discriminate].
  unfold ResponseGenerator.required_keys in Hkey.
  repeat (apply elem_of_cons in Hkey as [->|Hkey]; [eauto|]).
  inversion Hkey.
Qed.

Lemma format_chunk_missing_key i total chunk key :
  key ∈ ResponseGenerator.required_keys ->
  chunk !! key = None ->
  exists e, format_chunk i total chunk = Raise e.
Proof.
  intros Hkey Hnone.
  destruct (format_chunk i total chunk) as [block|e] eqn:E; [|eauto].
  destruct (format_chunk_Ok_keys _ _ _ _ E key Hkey) as [v Hv]. congruence.
Qed.

Lemma format_chunks_missing_key chunks chunk key total :
  chunk ∈ chunks ->
  key ∈ ResponseGenerator.required_keys ->
  chunk !! key = None ->
  forall i, exists e, format_chunks i total chunks = Raise e.
Proof.
  intros Hin Hkey Hnone.
  induction chunks as [|c rest IH]; intros i; [inversion Hin|].
  cbn [ResponseGenerator.format_chunks].
  destruct (format_chunk i total c) as [block|e] eqn:E.
  - apply elem_of_cons in Hin as [<-|Hin].
    + destruct (format_chunk_missing_key i total chunk key Hkey Hnone)
        as [e He]. congruence.
    + destruct (IH Hin (S i)) as [e He].
      cbn [mbind result_bind]. rewrite He. eauto.
  - eauto.
Qed.

Lemma log_chunk_Ok i chunk :
  (forall key, key ∈ ResponseGenerator.required_keys ->
               is_Some (chunk !! key)) ->
  (log_chunk i chunk).2 = Ok tt.
Proof.
  intros Hkeys. unfold ResponseGenerator.log_chunk, getitem.
  destruct (Hkeys "name") as [v1 ->]; [set_solver|].
  destruct (Hkeys "type") as [v2 ->]; [set_solver|].
  destruct (Hkeys "file_path") as [v3 ->]; [set_solver|].
  destruct (Hkeys "lineno") as [v4 ->]; [set_solver|].
  reflexivity.
Qed.

Lemma log_chunks_Ok chunks total : forall i j blocks,
  format_chunks i total chunks = Ok blocks ->
  (log_chunks j chunks).2 = Ok tt.
Proof.
  induction chunks as [|c rest IH]; intros i j blocks H; [reflexivity|].
  cbn [ResponseGenerator.format_chunks ResponseGenerator.log_chunks] in *.
  destruct (format_chunk i total c) as [block|e] eqn:E; [|discriminate].
  cbn [mbind result_bind] in H.
  destruct (format_chunks (S i) total rest) as [bs|e] eqn:E'; [|discriminate].
  rewrite logged_bind_snd.
  rewrite (log_chunk_Ok j c (format_chunk_Ok_keys _ _ _ _ E)).
  exact (IH (S i) (S j) bs E').
Qed.

(** Past the formatting of the context, [generate] ends as its guarded
    part ends, with every exception turned into a string. *)
Lemma generate_after_format question chunks context :
  _format_context chunks = Ok context ->
  (generate question chunks).2
  = match (generate_body
             (make_payload (ResponseGenerator.build_prompt context question))
             make_headers).2 with
    | Ok a => Ok a
    | Raise e => Ok (VStr ("Error generating response: " ++ str_exn e))
    end.
Proof.
  intros Hfmt. unfold ResponseGenerator.generate. rewrite Hfmt.
  assert ((log_chunks 1 chunks).2 = Ok tt) as Hlog.
  { unfold ResponseGenerator._format_context in Hfmt.
    destruct (format_chunks 1 (length chunks) chunks) as [bs|e] eqn:E;
      [|discriminate].
    exact (log_chunks_Ok _ _ _ _ _ E). }
  do 6 logged_step. rewrite logged_bind_snd, Hlog. logged_step.
  rewrite try_except_Exception_snd.
  destruct (generate_body _ _).2 as [a|e]; [reflexivity|].
  logged_step. reflexivity.
Qed.

Local Abbreviation py_str := (ResponseGenerator.py_str py_repr).

(** The guarded part up to the status test, once the key is there and the
    endpoint has answered. *)
Lemma generate_body_answered payload headers response :
  ResponseGenerator.api_key_missing api_key = false ->
  requests_post (ResponseGenerator.make_request payload headers)
  = Ok response ->
  (generate_body payload headers).2
  = if negb (resp_status_code response =? 200) then
      Raise (Exception ("API returned "
                        ++ string_of_Z (resp_status_code response)
                        ++ ": " ++ resp_text response))
    else
      (data ← lift (resp_json response);
       raise_if (negb (truthy data)) (ValueError "Empty response from API") ;;
       has_choices ← lift (contains "choices" data);
       raise_if (negb has_choices)
         (ValueError ("No 'choices' in response. Got: " ++ py_str data)) ;;
       choices ← lift (subscript data "choices");
       raise_if (negb (truthy choices))
         (ValueError "Empty 'choices' array in response") ;;
       choice ← lift (first_item choices);
       has_message ← lift (contains "message" choice);
       raise_if (negb has_message)
         (ValueError ("No 'message' in choice. Got: " ++ py_str choice)) ;;
       message ← lift (subscript choice "message");
       has_content ← lift (contains "content" message);
       raise_if (negb has_content)
         (ValueError ("No 'content' in message. Got: " ++ py_str message)) ;;
       answer ← lift (subscript message "content");
       tell INFO "LLM response received successfully" ;;
       preview ← lift (head_slice 200 answer);
       tell DEBUG ("Response preview: " ++ py_str preview ++ "...") ;;
       ResponseGenerator.log_usage py_repr data ;;
       mret answer).2.
Proof.
  intros Hkey Hpost. unfold ResponseGenerator.generate_body.
  rewrite Hkey. do 3 logged_step.
  rewrite logged_bind_snd. cbn [snd calling]. rewrite Hpost.
  do 4 logged_step.
  destruct (negb (resp_status_code response =? 200)); reflexivity.
Qed.

(** C5: a failure of the remote call comes back as the answer.  Once the
    context is formatted, [generate] returns a value whatever the
    endpoint does.  When the endpoint answers with a status other than
    200, that value is the string made of the fixed prefix, the status
    code and the body of the response as received; an empty payload, a
    payload without ['choices'], an empty ['choices'], a choice without
    ['message'] and a message without ['content'] each give a string that
    names the defect. *)
Theorem remote_failure_becomes_answer_string question chunks context :
  _format_context chunks = Ok context ->
  (exists answer, (generate question chunks).2 = Ok answer)
  /\ forall response,
       ResponseGenerator.api_key_missing api_key = false ->
       requests_post
         (ResponseGenerator.make_request
            (make_payload (ResponseGenerator.build_prompt context question))
            make_headers)
       = Ok response ->
       (resp_status_code response <> 200 ->
        (generate question chunks).2
        = Ok (VStr ("Error generating response: "
                    ++ ("API returned "
                        ++ string_of_Z (resp_status_code response)
                        ++ ": " ++ resp_text response))))
       /\ (resp_status_code response = 200 ->
           forall data, resp_json response = Ok data ->
           (truthy data = false ->
            (generate question chunks).2
            = Ok (VStr ("Error generating response: "
                        ++ "Empty response from API")))
           /\ (forall d, data = VDict d -> truthy data = true ->
               (d !! "choices" = None ->
                (generate question chunks).2
                = Ok (VStr ("Error generating response: "
                            ++ ("No 'choices' in response. Got: "
                                ++ py_str data))))
               /\ (forall choices,
                     d !! "choices" = Some choices ->
                     truthy choices = false ->
                     (generate question chunks).2
                     = Ok (VStr ("Error generating response: "
                                 ++ "Empty 'choices' array in response")))
               /\ (forall c rest,
                     d !! "choices" = Some (VList (VDict c :: rest)) ->
                     (c !! "message" = None ->
                      (generate question chunks).2
                      = Ok (VStr ("Error generating response: "
                                  ++ ("No 'message' in choice. Got: "
                                      ++ py_str (VDict c)))))
                     /\ (forall m,
                           c !! "message" = Some (VDict m) ->
                           m !! "content" = None ->
                           (generate question chunks).2
                           = Ok (VStr ("Error generating response: "
                                       ++ ("No 'content' in message. Got: "
                                           ++ py_str (VDict m)))))))).
Proof.
  intros Hfmt. rewrite (generate_after_format question chunks context Hfmt).
  split.
  { destruct (generate_body _ _).2; eauto. }
  intros response Hkey Hpost.
  rewrite (generate_body_answered _ _ response Hkey Hpost).
  split.
  { intros Hstatus. apply Z.eqb_neq in Hstatus. now rewrite Hstatus. }
  intros Hstatus data Hdata. rewrite Hstatus, Hdata. cbn [Z.eqb Pos.eqb negb].
  split.
  { intros Hempty. repeat logged_step. rewrite Hempty. reflexivity. }
  intros d -> Htrue. repeat logged_step. rewrite Htrue.
  repeat logged_step. cbn [contains].
  split.
  { intros Hnone. rewrite Hnone. repeat logged_step. reflexivity. }
  split.
  { intros choices Hchoices Hfalse. rewrite Hchoices.
    repeat logged_step. cbn [subscript]. unfold getitem. rewrite Hchoices.
    repeat logged_step. rewrite Hfalse. reflexivity. }
  intros c rest Hchoices. rewrite Hchoices.
  repeat logged_step. cbn [subscript]. unfold getitem. rewrite Hchoices.
  repeat logged_step. cbn [truthy first_item contains]. repeat logged_step.
  cbn [first_item contains]. 
  split.
  { intros Hnone. rewrite Hnone. repeat logged_step. reflexivity. }
  intros m Hmessage Hnone. rewrite Hmessage.
  repeat logged_step. cbn [subscript]. unfold getitem. rewrite Hmessage.
  repeat logged_step. cbn [contains]. rewrite Hnone.
  repeat logged_step. reflexivity.
Qed.

(** C10: a chunk without one of the keys the formatter reads makes
    [generate] raise: it ends in an exception, with nothing logged and no
    call made, because the context is formatted before the guarded part
    is entered. *)
Theorem generate_raises_on_missing_key question chunks chunk key :
  chunk ∈ chunks ->
  key ∈ ResponseGenerator.required_keys ->
  chunk !! key = None ->
  exists e, generate question chunks = ([], Raise e).
Proof.
  intros Hin Hkey Hnone.
  destruct (format_chunks_missing_key chunks chunk key (length chunks)
              Hin Hkey Hnone 1%nat) as [e He].
  exists e. unfold ResponseGenerator.generate,
    ResponseGenerator._format_context.
  rewrite He. reflexivity.
Qed.

End GeneratorFacts.

(** ** The question handler *)

Section AppFacts.

Variable model_encode : string -> result vector.
Variable aggregate : pipeline -> result (list pydict).
Variable api_key : option string.
Variable model : string.
Variable py_repr : pyval -> string.
Variable requests_post : request -> result response.

Local Abbreviation ask_question_body :=
  (Main.ask_question_body model_encode aggregate api_key model py_repr
     requests_post).
Local Abbreviation ask_question :=
  (Main.ask_question model_encode aggregate api_key model py_repr
     requests_post).

(** C1 (where the code departs from the claim): when the store returns no
    record, the handler raises its 404 inside its own [try]; the
    [except Exception] clause catches it, as it catches every exception,
    and raises a 500 whose detail is the text of the 404.  The caller
    gets status 500. *)
Theorem empty_retrieval_answers_500 request query_vector :
  model_encode (Main.question request) = Ok query_vector ->
  aggregate (VectorDB.search_pipeline query_vector (Main.top_k request))
  = Ok [] ->
  ask_question request
  = ([ Called (ModelEncode (Main.question request));
       Called (Aggregate (VectorDB.search_pipeline query_vector
                            (Main.top_k request))) ],
     Raise (HTTPException 500 "404: No relevant code found"))
  /\ Main.http_status (ask_question request).2 = 500.
Proof.
  intros Henc Hagg.
  assert (ask_question request
          = ([ Called (ModelEncode (Main.question request));
               Called (Aggregate (VectorDB.search_pipeline query_vector
                                    (Main.top_k request))) ],
             Raise (HTTPException 500 "404: No relevant code found"))) as H.
  { unfold Main.ask_question, Main.ask_question_body, Embedder.encode,
      VectorDB.search, calling.
    rewrite Henc. cbn [mbind logged_bind]. rewrite Hagg. reflexivity. }
  split; [exact H|]. rewrite H. reflexivity.
Qed.

(** C3, as the code has it: the handler does not look at [top_k].  For
    every request it calls the encoder on the question and then, when the
    encoder answers, the store, with the limit of the search set to the
    [top_k] it received; an exception the store raises comes back as a
    status 500 carrying the text of that exception. *)
Theorem top_k_reaches_the_store_unchecked request query_vector :
  model_encode (Main.question request) = Ok query_vector ->
  let p := VectorDB.search_pipeline query_vector (Main.top_k request) in
  vs_limit p = Main.top_k request
  /\ (exists rest,
        (ask_question request).1
        = Called (ModelEncode (Main.question request))
          :: Called (Aggregate p) :: rest)
  /\ (forall e,
        aggregate p = Raise e ->
        ask_question request
        = ([Called (ModelEncode (Main.question request)); Called (Aggregate p)],
           Raise (HTTPException 500 (str_exn e)))).
Proof.
  intros Henc p. split; [reflexivity|]. split.
  - unfold Main.ask_question. rewrite try_except_fst.
    unfold Main.ask_question_body, Embedder.encode, VectorDB.search, calling.
    rewrite Henc. rewrite logged_bind_fst. cbn [fst snd].
    rewrite logged_bind_fst. cbn [fst snd]. fold p.
    eexists. reflexivity.
  - intros e Hagg.
    unfold Main.ask_question, Main.ask_question_body, Embedder.encode,
      VectorDB.search, calling.
    rewrite Henc. cbn [mbind logged_bind]. fold p. rewrite Hagg.
    unfold try_except. now rewrite isinstance_Exception.
Qed.

End AppFacts.

(** ** The build script *)

Section ScriptFacts.

Variable ast_parse : string -> result node.
Variable fs : filesystem.
Variable model_encode_batch : list pyval -> result (list vector).
Variable YOLO_SOURCE : path.

Local Abbreviation extract_code_chunks :=
  (CodeIndexer.extract_code_chunks ast_parse fs YOLO_SOURCE).
Local Abbreviation prepare :=
  (SetupIndex.prepare ast_parse fs model_encode_batch YOLO_SOURCE).
Local Abbreviation main :=
  (SetupIndex.main ast_parse fs model_encode_batch YOLO_SOURCE).

Lemma extracted_chunk_embedding_text n source file_path chunk :
  CodeIndexer.extract_node_body YOLO_SOURCE n source file_path = Ok chunk ->
  SetupIndex.embedding_text_ok chunk.
Proof.
  intros H. apply extract_node_body_fields in H.
  destruct H as (a & rel & code & _ & _ & _ & _ & Hn & _ & Hc & Hd & _ & Ht
                 & _).
  exists (name a), (or_empty (get_docstring a)), code. auto.
Qed.

Lemma parsed_chunks_embedding_text file_path l chunks :
  CodeIndexer._parse_file ast_parse fs YOLO_SOURCE file_path = (l, Ok chunks) ->
  Forall SetupIndex.embedding_text_ok chunks.
Proof.
  unfold CodeIndexer._parse_file.
  destruct (CodeIndexer.read_source fs file_path) as [l1 [source|e]];
    [|discriminate].
  destruct (CodeIndexer.parse_source ast_parse source) as [tree|e];
    [|discriminate].
  pose proof (collect_chunks_omap YOLO_SOURCE (walk tree) source file_path)
    as Hc.
  destruct (CodeIndexer.collect_chunks _ _ _ _) as [l2 cs].
  cbn [snd] in Hc. intros [= _ <-]. subst cs.
  apply Forall_forall. intros chunk Hin.
  apply list_elem_of_omap in Hin as (n & _ & Hn).
  unfold CodeIndexer.chunk_of in Hn.
  destruct (CodeIndexer._extract_node _ _ _ _) as [ln o] eqn:E.
  cbn [snd] in Hn. subst o. apply _extract_node_Some in E.
  exact (extracted_chunk_embedding_text _ _ _ _ E).
Qed.

Lemma extracted_chunks_embedding_text chunks :
  extract_code_chunks.2 = Ok chunks ->
  Forall SetupIndex.embedding_text_ok chunks.
Proof.
  rewrite extract_code_chunks_result. intros [= <-].
  apply Forall_flat_map, Forall_forall. intros f _.
  unfold CodeIndexer.chunks_of_file.
  destruct (CodeIndexer._parse_file ast_parse fs YOLO_SOURCE f)
    as [l [cs|e]] eqn:E; cbn [snd]; [|constructor].
  exact (parsed_chunks_embedding_text _ _ _ E).
Qed.

Lemma texts_of_Ok chunks :
  Forall SetupIndex.embedding_text_ok chunks ->
  SetupIndex.texts_of chunks = Ok (map SetupIndex.embedding_text chunks).
Proof.
  induction 1 as [|c cs (n & d & code & _ & _ & _ & Ht) _ IH]; [reflexivity|].
  cbn [SetupIndex.texts_of map]. unfold getitem, SetupIndex.embedding_text.
  rewrite Ht. cbn [mbind result_bind]. rewrite IH. reflexivity.
Qed.

Lemma add_embeddings_Ok chunks : forall embeddings,
  Forall SetupIndex.embedding_text_ok chunks ->
  length embeddings = length chunks ->
  SetupIndex.add_embeddings chunks embeddings
  = Ok (zip_with SetupIndex.stored_record chunks embeddings).
Proof.
  induction chunks as [|c cs IH]; intros [|e es] Hwf Hlen; try discriminate;
    [reflexivity|].
  inversion Hwf as [|? ? (n & d & code & _ & _ & _ & Ht) Hcs]; subst.
  cbn [SetupIndex.add_embeddings zip_with]. unfold SetupIndex.delitem.
  rewrite lookup_insert_ne by discriminate. rewrite Ht.
  cbn [mbind result_bind]. rewrite IH; [reflexivity|exact Hcs|].
  simpl in Hlen. lia.
Qed.

(** How [prepare] ends when the encoder answers the batch of texts. *)
Lemma prepare_Ok chunks embeddings :
  extract_code_chunks.2 = Ok chunks ->
  model_encode_batch (map SetupIndex.embedding_text chunks) = Ok embeddings ->
  length embeddings = length chunks ->
  prepare.2 = Ok (zip_with SetupIndex.stored_record chunks embeddings)
  /\ Called (ModelEncodeBatch (map SetupIndex.embedding_text chunks))
     ∈ prepare.1.
Proof.
  intros Hchunks Henc Hlen.
  pose proof (extracted_chunks_embedding_text chunks Hchunks) as Hwf.
  unfold SetupIndex.prepare, Embedder.encode_batch. split.
  - logged_step. rewrite logged_bind_snd, Hchunks. do 3 logged_step.
    rewrite (texts_of_Ok chunks Hwf). logged_step. rewrite Henc.
    logged_step. rewrite (add_embeddings_Ok chunks embeddings Hwf Hlen).
    logged_step. reflexivity.
  - rewrite logged_bind_fst. cbn [fst snd print].
    rewrite logged_bind_fst, Hchunks.
    rewrite logged_bind_fst. cbn [fst snd print].
    rewrite logged_bind_fst. cbn [fst snd print lift].
    rewrite logged_bind_fst. cbn [fst snd lift].
    rewrite (texts_of_Ok chunks Hwf).
    rewrite logged_bind_fst. cbn [fst snd calling].
    in_log.
Qed.

Lemma stored_record_fields chunk embedding :
  SetupIndex.stored_record chunk embedding !! "text_for_embedding" = None
  /\ SetupIndex.stored_record chunk embedding !! "embedding"
     = Some (VVector embedding)
  /\ forall key,
       key <> "text_for_embedding" -> key <> "embedding" ->
       SetupIndex.stored_record chunk embedding !! key = chunk !! key.
Proof.
  unfold SetupIndex.stored_record. split; [|split].
  - apply lookup_delete_eq.
  - rewrite lookup_delete_ne by discriminate. apply lookup_insert_eq.
  - intros key H1 H2. rewrite lookup_delete_ne by congruence.
    apply lookup_insert_ne. congruence.
Qed.

(** C8: the embedding text is used once and not stored.  When the
    encoder returns one vector per text, the script ends normally and the
    store then holds, whatever it held before, one record per extracted
    chunk, in order.  The text given to the encoder for a chunk is its
    name, its documentation string and its code joined by newlines; the
    record of a chunk has no ['text_for_embedding'] key, has the vector
    under ['embedding'], and agrees with the chunk on every other key. *)
Theorem embedding_text_is_consumed_not_stored coll chunks embeddings :
  path_exists fs YOLO_SOURCE = true ->
  extract_code_chunks.2 = Ok chunks ->
  model_encode_batch (map SetupIndex.embedding_text chunks) = Ok embeddings ->
  length embeddings = length chunks ->
  exists l,
    main coll
    = (l, zip_with SetupIndex.stored_record chunks embeddings, Ok tt)
    /\ length (zip_with SetupIndex.stored_record chunks embeddings)
       = length chunks
    /\ Called (ModelEncodeBatch (map SetupIndex.embedding_text chunks)) ∈ l
    /\ Forall SetupIndex.embedding_text_ok chunks
    /\ forall chunk embedding,
         SetupIndex.stored_record chunk embedding !! "text_for_embedding"
         = None
         /\ SetupIndex.stored_record chunk embedding !! "embedding"
            = Some (VVector embedding)
         /\ forall key,
              key <> "text_for_embedding" -> key <> "embedding" ->
              SetupIndex.stored_record chunk embedding !! key = chunk !! key.
Proof.
  intros Hroot Hchunks Henc Hlen.
  destruct (prepare_Ok chunks embeddings Hchunks Henc Hlen) as [Hdocs Hcall].
  unfold SetupIndex.main. rewrite Hroot. cbn [negb].
  destruct prepare as [l1 r]. cbn [fst snd] in *. subst r.
  unfold VectorDB.clear_collection.
  set (docs := zip_with SetupIndex.stored_record chunks embeddings).
  assert ((VectorDB.insert_chunks docs []).2 = docs) as Hins
    by now destruct docs.
  destruct (VectorDB.insert_chunks docs []) as [l3 coll3].
  cbn [snd] in Hins. subst coll3.
  eexists. split; [reflexivity|]. split.
  { subst docs. rewrite length_zip_with. lia. }
  split; [in_log|]. split.
  { exact (extracted_chunks_embedding_text chunks Hchunks). }
  apply stored_record_fields.
Qed.

(** C2, as the code has it: a run without chunks leaves an error-level
    message and returns the empty list; the script then goes on.  With
    the root in place and the encoder answering the empty batch, it
    clears the store, sends no record, and prints that it indexed 0
    chunks. *)
Theorem zero_chunks_is_logged_and_the_build_goes_on coll l embeddings :
  extract_code_chunks = (l, Ok []) ->
  (exists l0,
     l = (l0 ++ [Logged ERROR
                   ("No code chunks found! Verify that "
                    ++ str_path YOLO_SOURCE ++ " contains Python files in "
                    ++ "['models', 'engine', 'data']")])%list)
  /\ (path_exists fs YOLO_SOURCE = true ->
      model_encode_batch [] = Ok embeddings ->
      main coll
      = ((Printed "Step 1: Extracting code chunks..." :: l
          ++ [ Printed "Found 0 code chunks";
               Printed (nl ++ "Step 2: Generating embeddings...");
               Called (ModelEncodeBatch []);
               Printed (nl ++ "Step 3: Uploading to MongoDB...");
               Called DeleteMany;
               Printed (nl ++ "Success! Indexed 0 code chunks") ]
          ++ SetupIndex.next_steps)%list,
         [], Ok tt)).
Proof.
  intros Hrun. split.
  - unfold CodeIndexer.extract_code_chunks in Hrun.
    destruct (CodeIndexer.index_dirs _ _ _ _ _) as [l0 [chunks|e]];
      [|discriminate].
    destruct chunks; [|discriminate].
    injection Hrun as <-. exists l0. reflexivity.
  - intros Hroot Henc. unfold SetupIndex.main. rewrite Hroot. cbn [negb].
    unfold SetupIndex.prepare, Embedder.encode_batch, calling.
    rewrite Hrun. cbn. rewrite Henc. cbn.
    rewrite <- !app_assoc. reflexivity.
Qed.

End ScriptFacts.

(** ** The claims on the sample inputs *)

(** The three-line documentation string of [area] is stored whole. *)
Lemma docstring_field_is_whole_docstring_witness :
  CodeIndexer._extract_node Sample.root Sample.area_def
    Sample.documented_source Sample.area_path
  = ([], Some Sample.area_chunk)
  /\ exists a,
       node_attrs Sample.area_def = Ok a
       /\ Sample.area_chunk !! "docstring"
          = Some (VStr (or_empty (get_docstring a))).
Proof.
  split; [reflexivity|].
  apply (docstring_field_is_whole_docstring Sample.root Sample.area_def
           Sample.documented_source Sample.area_path []).
  reflexivity.
Defined.

(** The claim C6 fails on a documentation string of more than one line:
    the stored entry is the whole string, not its first line. *)
Lemma doc_summary_is_not_the_first_line :
  CodeIndexer.chunk_of Sample.root Sample.documented_source
    Sample.area_path Sample.area_def
  = Some Sample.area_chunk
  /\ (exists a, node_attrs Sample.area_def = Ok a
                /\ get_docstring a = Some Sample.area_doc)
  /\ split_lines Sample.area_doc
     = ["Area of a rectangle."; ""; "Both sides are in metres."]
  /\ Sample.area_chunk !! "docstring" = Some (VStr Sample.area_doc)
  /\ Sample.area_chunk !! "docstring" <> Some (VStr "Area of a rectangle.").
Proof.
  split; [reflexivity|]. split; [eexists; split; reflexivity|].
  split; [reflexivity|].
  assert (Sample.area_chunk !! "docstring" = Some (VStr Sample.area_doc))
    as H by (unfold Sample.area_chunk; by simplify_map_eq).
  split; [exact H|]. rewrite H. discriminate.
Defined.

(** A question put to an empty store. *)
Lemma empty_retrieval_answers_500_witness :
  let request := {| Main.question := "how do I train a model?";
                    Main.top_k := 5 |} in
  Sample.model_encode (Main.question request) = Ok Sample.embedding_of_any
  /\ Sample.store [] (VectorDB.search_pipeline Sample.embedding_of_any 5)
     = Ok []
  /\ Main.ask_question Sample.model_encode (Sample.store []) Sample.api_key
       Sample.model Sample.py_repr Sample.rate_limited request
     = ([ Called (ModelEncode "how do I train a model?");
          Called (Aggregate (VectorDB.search_pipeline
                               Sample.embedding_of_any 5)) ],
        Raise (HTTPException 500 "404: No relevant code found"))
  /\ Main.http_status
       (Main.ask_question Sample.model_encode (Sample.store [])
          Sample.api_key Sample.model Sample.py_repr Sample.rate_limited
          request).2
     = 500.
Proof.
  intros request. split; [reflexivity|]. split; [reflexivity|].
  apply (empty_retrieval_answers_500 Sample.model_encode (Sample.store [])
           Sample.api_key Sample.model Sample.py_repr Sample.rate_limited
           request Sample.embedding_of_any); reflexivity.
Defined.

(** The claim C3 fails at [top_k = 0]: the encoder and the store are both
    called, and it is the store that turns the request down. *)
Lemma non_positive_top_k_still_calls_out :
  Main.ask_question Sample.model_encode (Sample.store [Sample.found_chunk])
    Sample.api_key Sample.model Sample.py_repr Sample.rate_limited
    {| Main.question := "how do I add?"; Main.top_k := 0 |}
  = ([ Called (ModelEncode "how do I add?");
       Called (Aggregate (VectorDB.search_pipeline
                            Sample.embedding_of_any 0)) ],
     Raise (HTTPException 500 "limit must be positive")).
Proof. reflexivity. Defined.

(** A negative [top_k] travels to the store as it is. *)
Lemma top_k_reaches_the_store_unchecked_witness :
  let request := {| Main.question := "how do I add?"; Main.top_k := -3 |} in
  let p := VectorDB.search_pipeline Sample.embedding_of_any (-3) in
  Sample.model_encode (Main.question request) = Ok Sample.embedding_of_any
  /\ vs_limit p = -3
  /\ (exists rest,
        (Main.ask_question Sample.model_encode
           (Sample.store [Sample.found_chunk]) Sample.api_key Sample.model
           Sample.py_repr Sample.rate_limited request).1
        = Called (ModelEncode "how do I add?") :: Called (Aggregate p) :: rest)
  /\ Main.ask_question Sample.model_encode
       (Sample.store [Sample.found_chunk]) Sample.api_key Sample.model
       Sample.py_repr Sample.rate_limited request
     = ([Called (ModelEncode "how do I add?"); Called (Aggregate p)],
        Raise (HTTPException 500 "limit must be positive")).
Proof.
  intros request p. split; [reflexivity|].
  destruct (top_k_reaches_the_store_unchecked Sample.model_encode
              (Sample.store [Sample.found_chunk]) Sample.api_key Sample.model
              Sample.py_repr Sample.rate_limited request
              Sample.embedding_of_any eq_refl) as (Hlimit & Hlog & Hfail).
  split; [exact Hlimit|]. split; [exact Hlog|].
  apply (Hfail (LibraryError "OperationFailure" "limit must be positive")).
  reflexivity.
Defined.

(** An endpoint that answers 429. *)
Lemma remote_failure_becomes_answer_string_witness :
  ResponseGenerator._format_context Sample.py_repr [Sample.found_chunk]
  = Ok Sample.found_context
  /\ (ResponseGenerator.generate Sample.api_key Sample.model Sample.py_repr
        Sample.rate_limited "how do I add?" [Sample.found_chunk]).2
     = Ok (VStr ("Error generating response: "
                 ++ "API returned 429: {'error': 'rate limited'}")).
Proof.
  split; [reflexivity|].
  destruct (remote_failure_becomes_answer_string Sample.api_key Sample.model
              Sample.py_repr Sample.rate_limited "how do I add?"
              [Sample.found_chunk] Sample.found_context eq_refl)
    as [_ Hremote].
  destruct (Hremote {| resp_status_code := 429;
                       resp_text := "{'error': 'rate limited'}";
                       resp_headers := ∅;
                       resp_json :=
                         Ok (VDict {[ "error" := VStr "rate limited" ]}) |}
              eq_refl eq_refl) as [Hstatus _].
  apply Hstatus. discriminate.
Defined.

(** A record without keys among the retrieved ones. *)
Lemma generate_raises_on_missing_key_witness :
  Sample.bare_chunk ∈ [Sample.found_chunk; Sample.bare_chunk]
  /\ "name" ∈ ResponseGenerator.required_keys
  /\ Sample.bare_chunk !! "name" = None
  /\ exists e,
       ResponseGenerator.generate Sample.api_key Sample.model Sample.py_repr
         Sample.rate_limited "how do I add?"
         [Sample.found_chunk; Sample.bare_chunk]
       = ([], Raise e).
Proof.
  assert (Sample.bare_chunk ∈ [Sample.found_chunk; Sample.bare_chunk]) as Hin
    by (apply list_elem_of_further, list_elem_of_here).
  assert ("name" ∈ ResponseGenerator.required_keys) as Hkey
    by (apply list_elem_of_further, list_elem_of_here).
  split; [exact Hin|]. split; [exact Hkey|]. split; [reflexivity|].
  exact (generate_raises_on_missing_key Sample.api_key Sample.model
           Sample.py_repr Sample.rate_limited "how do I add?"
           [Sample.found_chunk; Sample.bare_chunk] Sample.bare_chunk "name"
           Hin Hkey eq_refl).
Defined.

(** The claim C2 fails on a tree without Python files: the run returns
    the empty list, and the script clears the store and reports success. *)
Lemma zero_chunks_build_reports_success :
  (CodeIndexer.extract_code_chunks Sample.ast_parse Sample.fs_empty
     Sample.root).2
  = Ok []
  /\ exists l,
       SetupIndex.main Sample.ast_parse Sample.fs_empty
         Sample.model_encode_batch Sample.root Sample.old_collection
       = (l, [], Ok tt)
       /\ Printed (nl ++ "Success! Indexed 0 code chunks") ∈ l.
Proof.
  split; [reflexivity|]. eexists. split; [reflexivity|].
  do 10 apply list_elem_of_further. apply list_elem_of_here.
Defined.

(** The build over a tree without Python files. *)
Lemma zero_chunks_is_logged_and_the_build_goes_on_witness :
  exists l,
    CodeIndexer.extract_code_chunks Sample.ast_parse Sample.fs_empty
      Sample.root
    = (l, Ok [])
    /\ (exists l0,
          l = (l0 ++ [Logged ERROR
                        ("No code chunks found! Verify that ultralytics"
                         ++ " contains Python files in "
                         ++ "['models', 'engine', 'data']")])%list)
    /\ exists l',
         SetupIndex.main Sample.ast_parse Sample.fs_empty
           Sample.model_encode_batch Sample.root Sample.old_collection
         = (l', [], Ok tt).
Proof.
  eexists. split; [reflexivity|].
  destruct (zero_chunks_is_logged_and_the_build_goes_on Sample.ast_parse
              Sample.fs_empty Sample.model_encode_batch Sample.root
              Sample.old_collection _ [] eq_refl) as [Hlog Hmain].
  split; [exact Hlog|].
  eexists. apply Hmain; reflexivity.
Defined.

(** The build over the tree that holds [add.py]. *)
Lemma embedding_text_is_consumed_not_stored_witness :
  path_exists Sample.fs_add Sample.root = true
  /\ (CodeIndexer.extract_code_chunks Sample.ast_parse Sample.fs_add
        Sample.root).2
     = Ok [Sample.add_chunk]
  /\ Sample.model_encode_batch
       (map SetupIndex.embedding_text [Sample.add_chunk])
     = Ok [Sample.embedding_of_any]
  /\ exists l,
       SetupIndex.main Sample.ast_parse Sample.fs_add
         Sample.model_encode_batch Sample.root Sample.old_collection
       = (l, [SetupIndex.stored_record Sample.add_chunk
                Sample.embedding_of_any], Ok tt)
       /\ SetupIndex.embedding_text Sample.add_chunk
          = VStr ("add" ++ nl ++ "" ++ nl ++ "def add(a, b): return a + b")
       /\ SetupIndex.stored_record Sample.add_chunk Sample.embedding_of_any
          !! "text_for_embedding" = None.
Proof.
  split; [reflexivity|]. split; [reflexivity|]. split; [reflexivity|].
  destruct (embedding_text_is_consumed_not_stored Sample.ast_parse
              Sample.fs_add Sample.model_encode_batch Sample.root
              Sample.old_collection [Sample.add_chunk]
              [Sample.embedding_of_any] eq_refl eq_refl eq_refl eq_refl)
    as (l & Hmain & _ & _ & _ & Hrec).
  exists l. split; [exact Hmain|]. split; [reflexivity|].
  apply (Hrec Sample.add_chunk Sample.embedding_of_any).
Defined.

(** ** The pipelines at work *)

(** The nested function and the method are chunks of their own, after
    the class that the walk meets first; the coroutine is none. *)
Example extract_mixed_names :
  match (CodeIndexer.extract_code_chunks Sample.ast_parse Sample.fs_mixed
           Sample.root).2 with
  | Ok chunks => map (fun c : pydict => c !! "name") chunks
  | Raise _ => []
  end
  = [Some (VStr "Box"); Some (VStr "parse"); Some (VStr "size")].
Proof. reflexivity. Qed.

(** A file that is not UTF-8 is read again as latin-1 and indexed. *)
Example extract_latin1 :
  CodeIndexer.extract_code_chunks Sample.ast_parse Sample.fs_latin1
    Sample.root
  = ([ Logged INFO "Indexing directory: ultralytics/models";
       Logged WARNING
         ("Could not decode ultralytics/models/add.py with UTF-8. "
          ++ "Trying latin-1...");
       Logged WARNING "Directory not found: ultralytics/engine. Skipping...";
       Logged WARNING "Directory not found: ultralytics/data. Skipping...";
       Logged INFO "Successfully extracted 1 code chunks" ],
     Ok [Sample.add_chunk]).
Proof. reflexivity. Qed.

(** A well-formed reply is handed back as the answer. *)
Example generate_answer :
  (ResponseGenerator.generate Sample.api_key Sample.model Sample.py_repr
     Sample.answered "how do I add?" [Sample.found_chunk]).2
  = Ok (VStr "Call add(a, b).").
Proof. reflexivity. Qed.

(** Without a key no call is made, and the failure is the answer. *)
Example generate_without_key :
  (ResponseGenerator.generate None Sample.model Sample.py_repr
     Sample.answered "how do I add?" [Sample.found_chunk]).2
  = Ok (VStr ("Error generating response: "
              ++ "OPENROUTER_API_KEY not found in .env file!")).
Proof. reflexivity. Qed.

(** A question with one record found: status 200, one source. *)
Example ask_question_answered :
  let r := (Main.ask_question Sample.model_encode
              (Sample.store [Sample.found_chunk]) Sample.api_key Sample.model
              Sample.py_repr Sample.answered
              {| Main.question := "how do I add?"; Main.top_k := 5 |}).2 in
  Main.http_status r = 200
  /\ r = Ok {| Main.answer_question := "how do I add?";
               Main.answer := "Call add(a, b).";
               Main.sources :=
                 [ <["file" := VStr "models/add.py"]>
                   (<["name" := VStr "add"]>
                   (<["type" := VStr "function"]>
                   (<["line" := VInt 1]> ∅))) ] |}.
Proof. split; reflexivity. Qed.

(** A failed synthesis is a status 200 whose answer is the failure text:
    not the status an empty retrieval gets. *)
Example ask_question_degraded :
  let r := (Main.ask_question Sample.model_encode
              (Sample.store [Sample.found_chunk]) Sample.api_key Sample.model
              Sample.py_repr Sample.rate_limited
              {| Main.question := "how do I add?"; Main.top_k := 5 |}).2 in
  Main.http_status r = 200
  /\ Main.answer <$> (match r with Ok a => Some a | Raise _ => None end)
     = Some ("Error generating response: "
             ++ "API returned 429: {'error': 'rate limited'}").
Proof. split; reflexivity. Qed.

(** A record without keys, once retrieved, is a status 500: the
    [KeyError] leaves [generate] and is caught by the handler. *)
Example ask_question_bare_chunk :
  (Main.ask_question Sample.model_encode (Sample.store [Sample.bare_chunk])
     Sample.api_key Sample.model Sample.py_repr Sample.answered
     {| Main.question := "how do I add?"; Main.top_k := 5 |}).2
  = Raise (HTTPException 500 "'file_path'").
Proof. reflexivity. Qed.

(** * More of the code *)

(** ** The extractor: what it writes and what it skips *)

Lemma only_logged_app (a b : log) :
  only_logged a -> only_logged b -> only_logged (a ++ b)%list.
Proof. intros Ha Hb. apply Forall_app. split; assumption. Qed.

Lemma only_logged_say lv message : only_logged (say lv message).
Proof. repeat constructor. Qed.

Lemma only_logged_nil : only_logged [].
Proof. constructor. Qed.

Lemma only_logged_calls (l : log) : only_logged l -> calls_of l = [].
Proof.
  induction 1 as [|e l He _ IH]; [reflexivity|].
  destruct e; try discriminate. exact IH.
Qed.

Lemma only_logged_no_print (l : log) line :
  only_logged l -> Printed line ∉ l.
Proof.
  intros H Hin. unfold only_logged in H. rewrite Forall_forall in H.
  specialize (H _ Hin). discriminate.
Qed.

Ltac logged_only :=
  repeat first
    [ apply only_logged_nil
    | apply only_logged_say
    | apply only_logged_app
    | assumption ].

Section IndexerMore.

Variable ast_parse : string -> result node.
Variable fs : filesystem.
Variable source_dir : path.

Local Abbreviation _extract_node := (CodeIndexer._extract_node source_dir).
Local Abbreviation collect_chunks := (CodeIndexer.collect_chunks source_dir).
Local Abbreviation read_source := (CodeIndexer.read_source fs).
Local Abbreviation _parse_file :=
  (CodeIndexer._parse_file ast_parse fs source_dir).
Local Abbreviation index_files :=
  (CodeIndexer.index_files ast_parse fs source_dir).
Local Abbreviation index_dirs :=
  (CodeIndexer.index_dirs ast_parse fs source_dir).
Local Abbreviation extract_code_chunks :=
  (CodeIndexer.extract_code_chunks ast_parse fs source_dir).
Local Abbreviation chunk_of := (CodeIndexer.chunk_of source_dir).
Local Abbreviation chunks_of_file :=
  (CodeIndexer.chunks_of_file ast_parse fs source_dir).
Local Abbreviation listing := (CodeIndexer.listing fs source_dir).
Local Abbreviation eligible_files :=
  (CodeIndexer.eligible_files fs source_dir).

Lemma _extract_node_only_logged n source file_path :
  only_logged (_extract_node n source file_path).1.
Proof.
  unfold CodeIndexer._extract_node.
  destruct (CodeIndexer.extract_node_body _ _ _ _) as [c|e]; cbn [fst].
  - logged_only.
  - destruct (isinstance e cException); cbn [fst]; logged_only.
Qed.

Lemma collect_chunks_only_logged nodes source file_path :
  only_logged (collect_chunks nodes source file_path).1.
Proof.
  induction nodes as [|n rest IH]; [constructor|].
  cbn [CodeIndexer.collect_chunks].
  destruct (is_function_or_class n); [|exact IH].
  pose proof (_extract_node_only_logged n source file_path) as Hn.
  destruct (_extract_node n source file_path) as [l1 chunk].
  destruct (collect_chunks rest source file_path) as [l2 chunks].
  cbn [fst] in *.
  destruct chunk as [c|]; [destruct (dict_truthy c)|]; cbn [fst];
    logged_only.
Qed.

Lemma read_source_only_logged file_path :
  only_logged (read_source file_path).1.
Proof.
  unfold CodeIndexer.read_source.
  destruct (read_utf8 fs file_path) as [s|e]; cbn [fst]; [logged_only|].
  destruct (isinstance e cUnicodeDecodeError); cbn [fst]; [|logged_only].
  destruct (read_latin1 fs file_path) as [s|e']; cbn [fst]; [logged_only|].
  destruct (isinstance e' cException); cbn [fst]; logged_only.
Qed.

Lemma _parse_file_only_logged file_path :
  only_logged (_parse_file file_path).1.
Proof.
  unfold CodeIndexer._parse_file.
  pose proof (read_source_only_logged file_path) as Hr.
  destruct (read_source file_path) as [l1 [source|e]]; cbn [fst] in *;
    [|exact Hr].
  destruct (CodeIndexer.parse_source ast_parse source) as [tree|e];
    cbn [fst]; [|exact Hr].
  pose proof (collect_chunks_only_logged (walk tree) source file_path) as Hc.
  destruct (collect_chunks (walk tree) source file_path) as [l2 chunks].
  cbn [fst] in *. logged_only.
Qed.

Lemma index_files_only_logged files : forall acc,
  only_logged (index_files files acc).1.
Proof.
  induction files as [|f rest IH]; intros acc; [constructor|].
  cbn [CodeIndexer.index_files].
  pose proof (_parse_file_only_logged f) as Hf.
  destruct (_parse_file f) as [l1 [cs|e]]; cbn [fst] in Hf.
  - specialize (IH (acc ++ cs)%list).
    destruct (index_files rest (acc ++ cs)%list) as [l2 r].
    cbn [fst] in *. logged_only.
  - specialize (IH acc). destruct (index_files rest acc) as [l2 r].
    cbn [fst] in IH.
    destruct (isinstance e cSyntaxError);
      [|destruct (isinstance e cUnicodeDecodeError);
        [|destruct (isinstance e cException)]];
      cbn [fst]; logged_only.
Qed.

Lemma index_dirs_only_logged dirs : forall acc,
  only_logged (index_dirs dirs acc).1.
Proof.
  induction dirs as [|d rest IH]; intros acc; [constructor|].
  cbn [CodeIndexer.index_dirs].
  destruct (path_exists fs (path_div source_dir d)); cbn [negb].
  - pose proof (index_files_only_logged
                  (rglob_py fs (path_div source_dir d)) acc) as Hf.
    destruct (index_files _ acc) as [l1 [cs|e]]; cbn [fst] in Hf.
    + specialize (IH cs). destruct (index_dirs rest cs) as [l2 r].
      cbn [fst] in *. logged_only.
    + cbn [fst]. logged_only.
  - specialize (IH acc). destruct (index_dirs rest acc) as [l2 r].
    cbn [fst] in *. logged_only.
Qed.

(** The run only writes to its logger. *)
Lemma extract_code_chunks_only_logged : only_logged extract_code_chunks.1.
Proof.
  unfold CodeIndexer.extract_code_chunks.
  pose proof (index_dirs_only_logged CodeIndexer.target_dirs []) as H.
  destruct (index_dirs CodeIndexer.target_dirs []) as [l [chunks|e]];
    cbn [fst] in H; [|exact H].
  destruct chunks; cbn [fst]; logged_only.
Qed.


Lemma index_files_skip_entry files f l1 e : forall acc,
  f ∈ files ->
  _parse_file f = (l1, Raise e) ->
  IndexerView.skip_entry f e ∈ (index_files files acc).1
  /\ forall x, x ∈ l1 -> x ∈ (index_files files acc).1.
Proof.
  induction files as [|g rest IH]; intros acc Hin Hf; [inversion Hin|].
  cbn [CodeIndexer.index_files].
  apply elem_of_cons in Hin as [<-|Hin].
  - rewrite Hf. destruct (index_files rest acc) as [l2 r].
    unfold IndexerView.skip_entry. rewrite (isinstance_Exception e).
    destruct (isinstance e cSyntaxError);
      [|destruct (isinstance e cUnicodeDecodeError)];
      cbn [fst]; unfold say; (split; [|intros x Hx]); in_log.
  - destruct (_parse_file g) as [lg [cs|eg]].
    + destruct (IH (acc ++ cs)%list Hin Hf) as [H1 H2].
      destruct (index_files rest (acc ++ cs)%list) as [l2 r].
      cbn [fst] in *. split; [|intros x Hx; specialize (H2 x Hx)]; in_log.
    + destruct (IH acc Hin Hf) as [H1 H2].
      destruct (index_files rest acc) as [l2 r].
      rewrite (isinstance_Exception eg). cbn [fst] in *.
      destruct (isinstance eg cSyntaxError);
        [|destruct (isinstance eg cUnicodeDecodeError)];
        cbn [fst]; (split; [|intros x Hx; specialize (H2 x Hx)]); in_log.
Qed.

Lemma index_dirs_skip_entry dirs f l1 e : forall acc,
  f ∈ flat_map listing dirs ->
  _parse_file f = (l1, Raise e) ->
  IndexerView.skip_entry f e ∈ (index_dirs dirs acc).1
  /\ forall x, x ∈ l1 -> x ∈ (index_dirs dirs acc).1.
Proof.
  induction dirs as [|d rest IH]; intros acc Hin Hf; [inversion Hin|].
  cbn [CodeIndexer.index_dirs flat_map] in *.
  unfold CodeIndexer.listing at 1 in Hin.
  destruct (path_exists fs (path_div source_dir d)); cbn [negb].
  - pose proof (index_files_result ast_parse fs source_dir
                  (rglob_py fs (path_div source_dir d)) acc) as Hr.
    pose proof (fun H => index_files_skip_entry
                  (rglob_py fs (path_div source_dir d)) f l1 e acc H Hf)
      as Hw.
    destruct (index_files _ acc) as [lf r1]. cbn [fst snd] in *. subst r1.
    apply elem_of_app in Hin as [Hin|Hin].
    + destruct (index_dirs rest _) as [l2 r]. cbn [fst].
      destruct (Hw Hin) as [H1 H2].
      split; [|intros x Hx; specialize (H2 x Hx)]; in_log.
    + destruct (IH (acc ++ flat_map chunks_of_file
                             (rglob_py fs (path_div source_dir d)))%list
                  Hin Hf) as [H1 H2].
      destruct (index_dirs rest _) as [l2 r]. cbn [fst] in *.
      split; [|intros x Hx; specialize (H2 x Hx)]; in_log.
  - destruct (IH acc Hin Hf) as [H1 H2].
    destruct (index_dirs rest acc) as [l2 r]. cbn [fst] in *.
    split; [|intros x Hx; specialize (H2 x Hx)]; in_log.
Qed.

Lemma extract_code_chunks_skip_entry f l1 e :
  f ∈ eligible_files ->
  _parse_file f = (l1, Raise e) ->
  IndexerView.skip_entry f e ∈ extract_code_chunks.1
  /\ forall x, x ∈ l1 -> x ∈ extract_code_chunks.1.
Proof.
  intros Hin Hf.
  destruct (index_dirs_skip_entry CodeIndexer.target_dirs f l1 e [] Hin Hf)
    as [H1 H2].
  split; [|intros x Hx; specialize (H2 x Hx)];
    now apply extract_code_chunks_log_incl.
Qed.

(** X1: when none of the three target directories exists, the run reads
    no file: it leaves one warning per directory, in order, then the
    error line, and returns the empty list. *)
Theorem run_without_target_directories :
  (forall d, d ∈ CodeIndexer.target_dirs ->
             path_exists fs (path_div source_dir d) = false) ->
  extract_code_chunks
  = ([ IndexerView.missing_entry source_dir "models";
       IndexerView.missing_entry source_dir "engine";
       IndexerView.missing_entry source_dir "data";
       Logged ERROR ("No code chunks found! Verify that "
                     ++ str_path source_dir ++ " contains Python files in "
                     ++ "['models', 'engine', 'data']") ],
     Ok []).
Proof.
  intros H. unfold CodeIndexer.extract_code_chunks, CodeIndexer.target_dirs.
  cbn [CodeIndexer.index_dirs].
  rewrite !H by (unfold CodeIndexer.target_dirs; set_solver).
  reflexivity.
Qed.

(** X2: a file that can be read under neither encoding is skipped as an
    unexpected error.  The exception built in the fallback takes five
    arguments and gets one, so what leaves [_parse_file] is a [TypeError];
    the run logs it at the error level under "Unexpected error parsing",
    after the warning about UTF-8, adds no chunk for the file, and
    returns the chunks of the other files. *)
Theorem undecodable_file_is_logged_as_unexpected f e e' :
  f ∈ eligible_files ->
  read_utf8 fs f = Raise e ->
  isinstance e cUnicodeDecodeError = true ->
  read_latin1 fs f = Raise e' ->
  chunks_of_file f = []
  /\ extract_code_chunks.2 = Ok (flat_map chunks_of_file eligible_files)
  /\ Logged WARNING ("Could not decode " ++ str_path f
                     ++ " with UTF-8. Trying latin-1...")
     ∈ extract_code_chunks.1
  /\ Logged ERROR ("Unexpected error parsing " ++ str_path f ++ ": "
                   ++ "function takes exactly 5 arguments (1 given)"
                   ++ ". Skipping file.")
     ∈ extract_code_chunks.1.
Proof.
  intros Hin Hutf He Hlat.
  assert (_parse_file f
          = (say WARNING ("Could not decode " ++ str_path f
                          ++ " with UTF-8. Trying latin-1..."),
             Raise (TypeError
                      "function takes exactly 5 arguments (1 given)")))
    as Hf.
  { unfold CodeIndexer._parse_file, CodeIndexer.read_source.
    now rewrite Hutf, He, Hlat, (isinstance_Exception e'). }
  destruct (extract_code_chunks_skip_entry f _ _ Hin Hf) as [H1 H2].
  split; [|split; [|split]].
  - unfold CodeIndexer.chunks_of_file. now rewrite Hf.
  - apply extract_code_chunks_result.
  - apply H2. unfold say. apply list_elem_of_here.
  - exact H1.
Qed.

End IndexerMore.

(** ** Lines of a text *)

Lemma split_lines_nonempty (s : string) : split_lines s <> [].
Proof.
  induction s as [|c s IH]; [discriminate|].
  cbn [split_lines]. destruct (Ascii.eqb c _); [discriminate|].
  destruct (split_lines s); discriminate.
Qed.

Lemma split_lines_line (s : string) :
  has_newline s = false -> split_lines s = [s].
Proof.
  induction s as [|c s IH]; [reflexivity|].
  cbn [has_newline split_lines]. intros H.
  apply orb_false_iff in H as [Hc Hs]. rewrite Hc, (IH Hs). reflexivity.
Qed.

Lemma split_lines_app_nl (s t : string) :
  has_newline s = false ->
  split_lines (s ++ nl ++ t) = s :: split_lines t.
Proof.
  induction s as [|c s IH]; intros H; [reflexivity|].
  cbn [has_newline] in H. apply orb_false_iff in H as [Hc Hs].
  change (String c s ++ nl ++ t) with (String c (s ++ nl ++ t)).
  cbn [split_lines]. rewrite Hc, (IH Hs). reflexivity.
Qed.

(** Splitting what was joined gives the lines back. *)
Lemma split_lines_join (ls : list string) :
  ls <> [] ->
  Forall (fun l => has_newline l = false) ls ->
  split_lines (join nl ls) = ls.
Proof.
  induction ls as [|x rest IH]; [congruence|]. intros _ H.
  inversion H as [|? ? Hx Hrest]; subst.
  destruct rest as [|y rest].
  - exact (split_lines_line x Hx).
  - change (join nl (x :: y :: rest)) with (x ++ nl ++ join nl (y :: rest)).
    rewrite (split_lines_app_nl _ _ Hx), IH; [reflexivity|discriminate|].
    exact Hrest.
Qed.

Lemma split_lines_no_newline (s : string) :
  Forall (fun l => has_newline l = false) (split_lines s).
Proof.
  induction s as [|c s IH]; [repeat constructor|].
  cbn [split_lines]. destruct (Ascii.eqb c (ascii_of_nat 10)) eqn:Hc.
  - constructor; [reflexivity|exact IH].
  - destruct (split_lines s) as [|l ls]; [repeat constructor|].
    + cbn [has_newline]. now rewrite Hc.
    + inversion IH; subst. constructor; [|assumption].
      cbn [has_newline]. rewrite Hc. assumption.
Qed.

(** A slice that starts inside the list and may run past its end. *)
Lemma slice_from_inside {A} (l : list A) (start stop : Z) :
  0 <= start -> start <= stop ->
  slice l start stop
  = take (Z.to_nat (stop - start)) (drop (Z.to_nat start) l).
Proof.
  intros H0 H1. unfold slice, slice_bound.
  destruct (Z.ltb_spec start 0); [lia|].
  destruct (Z.ltb_spec stop 0); [lia|].
  set (len := Z.of_nat (length l)).
  destruct (Z.ltb_spec (Z.min start len) (Z.min stop len)) as [Hlt|Hge].
  - assert (start < len) by lia. rewrite (Z.min_l start) by lia.
    destruct (Z.le_gt_cases stop len).
    + now rewrite Z.min_l by lia.
    + rewrite Z.min_r by lia.
      rewrite !take_ge; [reflexivity| |]; rewrite length_drop; lia.
  - destruct (Z.le_gt_cases len start).
    + rewrite drop_ge by lia. now rewrite take_nil.
    + assert (stop = start) by lia. subst stop.
      now rewrite Z.sub_diag.
Qed.


(** ** The extractor: the shape of a chunk *)

Section ChunkFacts.

Variable ast_parse : string -> result node.
Variable fs : filesystem.
Variable source_dir : path.

Local Abbreviation _extract_node := (CodeIndexer._extract_node source_dir).
Local Abbreviation _parse_file :=
  (CodeIndexer._parse_file ast_parse fs source_dir).
Local Abbreviation read_source := (CodeIndexer.read_source fs).
Local Abbreviation extract_code_chunks :=
  (CodeIndexer.extract_code_chunks ast_parse fs source_dir).
Local Abbreviation chunk_of := (CodeIndexer.chunk_of source_dir).

Lemma chunk_code n source file_path l chunk a :
  _extract_node n source file_path = (l, Some chunk) ->
  node_attrs n = Ok a ->
  chunk !! "code"
  = Some (VStr (join nl (slice (split_lines source) (lineno a - 1)
                           (match end_lineno a with
                            | Some e => e
                            | None => lineno a - 1 + 10
                            end)))).
Proof.
  intros H Ha. apply _extract_node_Some, extract_node_body_fields in H.
  destruct H as (a' & rel & code & Ha' & _ & -> & _ & _ & _ & Hc & _).
  rewrite Ha in Ha'. injection Ha' as <-. exact Hc.
Qed.

(** X3: the code of a chunk is the lines of its definition.  For a
    definition whose first and last line lie in the file, the code of
    the chunk splits into exactly the lines from [lineno] to
    [end_lineno] of the source, both included. *)
Theorem chunk_code_is_the_span_of_the_definition
    n source file_path l chunk a stop :
  _extract_node n source file_path = (l, Some chunk) ->
  node_attrs n = Ok a ->
  end_lineno a = Some stop ->
  1 <= lineno a -> lineno a <= stop ->
  stop <= Z.of_nat (length (split_lines source)) ->
  exists code,
    chunk !! "code" = Some (VStr code)
    /\ split_lines code
       = take (Z.to_nat (stop - lineno a + 1))
           (drop (Z.to_nat (lineno a - 1)) (split_lines source))
    /\ Z.of_nat (length (split_lines code)) = stop - lineno a + 1.
Proof.
  intros H Ha Hstop H1 H2 H3.
  rewrite (chunk_code _ _ _ _ _ _ H Ha), Hstop.
  eexists. split; [reflexivity|].
  rewrite slice_from_inside by lia.
  replace (stop - (lineno a - 1)) with (stop - lineno a + 1) by lia.
  set (span := take _ (drop _ _)).
  assert (length span = Z.to_nat (stop - lineno a + 1)) as Hlen.
  { subst span. rewrite length_take, length_drop. lia. }
  assert (split_lines (join nl span) = span) as Hsplit.
  { apply split_lines_join.
    - intros E. rewrite E in Hlen. simpl in Hlen. lia.
    - subst span. apply Forall_take, Forall_drop, split_lines_no_newline. }
  rewrite Hsplit. split; [reflexivity|]. rewrite Hlen. lia.
Qed.

(** X4: without [end_lineno] the code is a window of ten lines.  For a
    definition that starts in the file and carries no last line, the
    code of the chunk is the ten lines from [lineno] on, or as many as
    the file still has. *)
Theorem chunk_code_without_end_is_ten_lines n source file_path l chunk a :
  _extract_node n source file_path = (l, Some chunk) ->
  node_attrs n = Ok a ->
  end_lineno a = None ->
  1 <= lineno a -> lineno a <= Z.of_nat (length (split_lines source)) ->
  exists code,
    chunk !! "code" = Some (VStr code)
    /\ split_lines code
       = take 10 (drop (Z.to_nat (lineno a - 1)) (split_lines source))
    /\ (1 <= length (split_lines code) <= 10)%nat.
Proof.
  intros H Ha Hstop H1 H2.
  rewrite (chunk_code _ _ _ _ _ _ H Ha), Hstop.
  eexists. split; [reflexivity|].
  rewrite slice_from_inside by lia.
  replace (Z.to_nat (lineno a - 1 + 10 - (lineno a - 1))) with 10%nat by lia.
  set (span := take _ (drop _ _)).
  assert (1 <= length span <= 10)%nat as Hlen.
  { subst span. rewrite length_take, length_drop. lia. }
  assert (split_lines (join nl span) = span) as Hsplit.
  { apply split_lines_join.
    - intros E. rewrite E in Hlen. simpl in Hlen. lia.
    - subst span. apply Forall_take, Forall_drop, split_lines_no_newline. }
  rewrite Hsplit. split; [reflexivity|exact Hlen].
Qed.

(** Where a chunk of a run comes from. *)
Lemma run_chunk_origin chunks chunk :
  extract_code_chunks.2 = Ok chunks ->
  chunk ∈ chunks ->
  exists f n source,
    f ∈ CodeIndexer.eligible_files fs source_dir
    /\ is_function_or_class n = true
    /\ CodeIndexer.extract_node_body source_dir n source f = Ok chunk.
Proof.
  rewrite extract_code_chunks_result. intros [= <-] Hin.
  apply list_elem_of_In, in_flat_map in Hin as (f & Hf & Hin).
  apply list_elem_of_In in Hf, Hin.
  exists f. unfold CodeIndexer.chunks_of_file, CodeIndexer._parse_file in Hin.
  destruct (read_source f) as [l1 [source|e]]; [|inversion Hin].
  destruct (CodeIndexer.parse_source ast_parse source) as [tree|e];
    [|inversion Hin].
  pose proof (collect_chunks_omap source_dir (walk tree) source f) as Hc.
  destruct (CodeIndexer.collect_chunks _ _ _ _) as [l2 cs].
  cbn [snd] in *. subst cs.
  apply list_elem_of_omap in Hin as (n & Hn & Hchunk).
  apply list_elem_of_In, filter_In in Hn as [_ Hn].
  exists n, source. split; [exact Hf|]. split; [exact Hn|].
  unfold CodeIndexer.chunk_of in Hchunk.
  destruct (_extract_node n source f) as [ln o] eqn:E.
  cbn [snd] in Hchunk. subst o. exact (_extract_node_Some _ _ _ _ _ _ E).
Qed.

(** X5: every chunk of a run has the same seven keys and no other: a
    relative path, a name, a type that is [class] or [function], the
    code, the documentation string, all of them strings, and the line
    number, an integer. *)
Theorem run_chunks_have_seven_keys chunks chunk :
  extract_code_chunks.2 = Ok chunks ->
  chunk ∈ chunks ->
  dom chunk = IndexerView.chunk_keys
  /\ (exists s, chunk !! "file_path" = Some (VStr s))
  /\ (exists s, chunk !! "name" = Some (VStr s))
  /\ (chunk !! "type" = Some (VStr "class")
      \/ chunk !! "type" = Some (VStr "function"))
  /\ (exists s, chunk !! "code" = Some (VStr s))
  /\ (exists s, chunk !! "docstring" = Some (VStr s))
  /\ (exists z, chunk !! "lineno" = Some (VInt z))
  /\ (exists s, chunk !! "text_for_embedding" = Some (VStr s)).
Proof.
  intros Hrun Hin.
  destruct (run_chunk_origin chunks chunk Hrun Hin)
    as (f & n & source & _ & _ & Hbody).
  pose proof (extract_node_body_fields _ _ _ _ _ Hbody)
    as (a & rel & code & _ & _ & _ & H1 & H2 & H3 & H4 & H5 & H6 & H7 & _).
  split.
  { unfold CodeIndexer.extract_node_body in Hbody.
    destruct (node_attrs n) as [a'|e]; [|discriminate].
    cbn [mbind result_bind] in Hbody.
    destruct (relative_to f source_dir) as [rel'|e]; [|discriminate].
    cbn [mbind result_bind] in Hbody. injection Hbody as <-.
    unfold IndexerView.chunk_keys. rewrite !dom_insert_L, dom_empty_L.
    set_solver. }
  repeat split; eauto.
  destruct (is_class n); eauto.
Qed.


Lemma filter_Permutation_bool {A} (p : A -> bool) (l l' : list A) :
  l ≡ₚ l' -> List.filter p l ≡ₚ List.filter p l'.
Proof.
  induction 1 as [|x l l' _ IH|x y l|l l' l'' _ IH1 _ IH2]; cbn [List.filter].
  - reflexivity.
  - destruct (p x); [constructor|]; exact IH.
  - destruct (p x), (p y); try reflexivity. constructor.
  - etransitivity; eassumption.
Qed.

Lemma omap_total {A B} (f : A -> option B) (P : A -> B -> Prop)
    (l : list A) :
  Forall (fun x => exists y, f x = Some y /\ P x y) l ->
  Forall2 P l (omap f l).
Proof.
  induction 1 as [|x l (y & Hy & HP) _ IH]; [constructor|].
  cbn [omap list_omap]. rewrite Hy. constructor; assumption.
Qed.

Lemma chunk_of_definition n source file_path rel :
  is_function_or_class n = true ->
  strip_prefix file_path source_dir = Some rel ->
  exists chunk,
    chunk_of source file_path n = Some chunk
    /\ chunk !! "name" = Some (VStr (node_name_or_unknown n))
    /\ chunk !! "file_path" = Some (VStr (str_path rel)).
Proof.
  intros Hn Hrel.
  unfold CodeIndexer.chunk_of, CodeIndexer._extract_node,
    CodeIndexer.extract_node_body, node_attrs, is_function_or_class,
    node_name_or_unknown, relative_to in *.
  rewrite Hrel.
  destruct (node_cls n) as [a|a|a|cls]; try discriminate;
    (eexists; split; [reflexivity|]; split; by simplify_map_eq).
Qed.

(** X6: one chunk per definition.  A file under the root that reads and
    parses gives as many chunks as its tree has function and class
    definitions, at every depth; the chunks come in the order of the
    walk, each with the name of its node and the path of the file
    relative to the root. *)
Theorem one_chunk_per_definition file_path l1 source tree rel :
  read_source file_path = (l1, Ok source) ->
  ast_parse source = Ok tree ->
  strip_prefix file_path source_dir = Some rel ->
  exists chunks,
    (_parse_file file_path).2 = Ok chunks
    /\ length chunks
       = length (List.filter is_function_or_class (descendants tree))
    /\ Forall2 (fun n chunk =>
                  chunk !! "name" = Some (VStr (node_name_or_unknown n))
                  /\ chunk !! "file_path" = Some (VStr (str_path rel)))
         (CodeIndexer.extracted_nodes tree) chunks.
Proof.
  intros Hread Hparse Hrel.
  eexists. split; [exact (_parse_file_parsed _ _ _ _ _ _ _ Hread Hparse)|].
  assert (Forall2 (fun n chunk =>
                     chunk !! "name" = Some (VStr (node_name_or_unknown n))
                     /\ chunk !! "file_path" = Some (VStr (str_path rel)))
            (CodeIndexer.extracted_nodes tree)
            (omap (chunk_of source file_path)
               (CodeIndexer.extracted_nodes tree))) as Hall.
  { apply omap_total, Forall_forall. intros n Hn.
    apply list_elem_of_In, filter_In in Hn as [_ Hn].
    exact (chunk_of_definition n source file_path rel Hn Hrel). }
  split; [|exact Hall].
  rewrite <- (Forall2_length _ _ _ Hall).
  unfold CodeIndexer.extracted_nodes.
  apply Permutation_length, filter_Permutation_bool, walk_complete.
Qed.

End ChunkFacts.

(** ** The synthesizer: calls and answers *)

Lemma calls_of_app (a b : log) :
  calls_of (a ++ b)%list = (calls_of a ++ calls_of b)%list.
Proof. apply omap_app. Qed.

Lemma calls_of_bind {A B} (m : logged A) (k : A -> logged B) :
  calls_of (m ≫= k).1
  = (calls_of m.1 ++ match m.2 with
                     | Ok a => calls_of (k a).1
                     | Raise _ => []
                     end)%list.
Proof.
  rewrite logged_bind_fst, calls_of_app. now destruct m.2.
Qed.

(** Binding after a computation that only logs. *)
Lemma calls_of_bind_quiet {A B} (m : logged A) (k : A -> logged B) :
  only_logged m.1 ->
  calls_of (m ≫= k).1 = match m.2 with
                        | Ok a => calls_of (k a).1
                        | Raise _ => []
                        end.
Proof.
  intros H. now rewrite calls_of_bind, (only_logged_calls _ H).
Qed.

Lemma only_logged_bind {A B} (m : logged A) (k : A -> logged B) :
  only_logged m.1 -> (forall a, only_logged (k a).1) ->
  only_logged (m ≫= k).1.
Proof.
  intros Hm Hk. rewrite logged_bind_fst. apply only_logged_app; [exact Hm|].
  destruct m.2; [apply Hk|constructor].
Qed.

Lemma only_logged_raise_if cond e : only_logged (raise_if cond e).1.
Proof. destruct cond; constructor. Qed.

(** Goals [only_logged m.1] for [m] made of binds over [tell], [lift],
    [raise_if] and [mret]. *)
Ltac quiet :=
  repeat first
    [ apply only_logged_raise_if
    | apply only_logged_say
    | apply only_logged_nil
    | apply only_logged_bind; [|intros ?]
    | match goal with
      | |- only_logged (if ?b then _ else _).1 => destruct b
      end ].

Section GeneratorMore.

Variable api_key : option string.
Variable model : string.
Variable py_repr : pyval -> string.
Variable requests_post : request -> result response.

Local Abbreviation format_chunk := (ResponseGenerator.format_chunk py_repr).
Local Abbreviation format_chunks := (ResponseGenerator.format_chunks py_repr).
Local Abbreviation _format_context :=
  (ResponseGenerator._format_context py_repr).
Local Abbreviation log_chunks := (ResponseGenerator.log_chunks py_repr).
Local Abbreviation generate_body :=
  (ResponseGenerator.generate_body api_key model py_repr requests_post).
Local Abbreviation generate :=
  (ResponseGenerator.generate api_key model py_repr requests_post).
Local Abbreviation make_payload := (ResponseGenerator.make_payload model).
Local Abbreviation make_headers := (ResponseGenerator.make_headers api_key).
Local Abbreviation py_str := (ResponseGenerator.py_str py_repr).
Local Abbreviation the_request question context :=
  (ResponseGenerator.make_request
     (make_payload (ResponseGenerator.build_prompt context question))
     make_headers).

Lemma log_chunks_only_logged chunks : forall i,
  only_logged (log_chunks i chunks).1.
Proof.
  induction chunks as [|c rest IH]; intros i; [constructor|].
  cbn [ResponseGenerator.log_chunks]. apply only_logged_bind; [|intros; apply IH].
  unfold ResponseGenerator.log_chunk. quiet.
Qed.

Lemma log_usage_only_logged data :
  only_logged (ResponseGenerator.log_usage py_repr data).1.
Proof. unfold ResponseGenerator.log_usage. quiet. Qed.

(** The guarded part calls the endpoint once when the key is there, and
    not at all when it is missing. *)
Lemma generate_body_calls payload headers :
  calls_of (generate_body payload headers).1
  = if ResponseGenerator.api_key_missing api_key then []
    else [Post (ResponseGenerator.make_request payload headers)].
Proof.
  unfold ResponseGenerator.generate_body.
  destruct (ResponseGenerator.api_key_missing api_key); [reflexivity|].
  rewrite calls_of_bind_quiet by quiet. cbn [snd raise_if mret logged_ret].
  rewrite calls_of_bind_quiet by quiet. cbn [snd tell].
  rewrite calls_of_bind_quiet by quiet. cbn [snd tell].
  rewrite calls_of_bind. cbn [fst snd calling calls_of omap list_omap].
  destruct (requests_post _) as [response|e]; [|reflexivity].
  rewrite (only_logged_calls (_ : log)); [reflexivity|].
  quiet; apply log_usage_only_logged.
Qed.

Lemma generate_calls question chunks :
  calls_of (generate question chunks).1
  = match _format_context chunks with
    | Ok context =>
        if ResponseGenerator.api_key_missing api_key then []
        else [Post (the_request question context)]
    | Raise _ => []
    end.
Proof.
  unfold ResponseGenerator.generate.
  destruct (_format_context chunks) as [context|e] eqn:Hfmt; [|reflexivity].
  assert ((log_chunks 1 chunks).2 = Ok tt) as Hlog.
  { unfold ResponseGenerator._format_context in Hfmt.
    destruct (format_chunks 1 (length chunks) chunks) as [bs|e] eqn:E;
      [|discriminate].
    exact (log_chunks_Ok _ _ _ _ _ _ E). }
  rewrite calls_of_bind_quiet by quiet. cbn [snd lift].
  do 5 (rewrite calls_of_bind_quiet by quiet; cbn [snd tell]).
  rewrite calls_of_bind_quiet by apply log_chunks_only_logged.
  rewrite Hlog.
  rewrite calls_of_bind_quiet by quiet. cbn [snd tell].
  rewrite try_except_fst, calls_of_app, generate_body_calls.
  rewrite (only_logged_calls (match _ with Ok _ => [] | Raise _ => _ end)).
  - now rewrite app_nil_r.
  - destruct (generate_body _ _).2 as [a|e]; [constructor|].
    rewrite isinstance_Exception. quiet.
Qed.


(** X7: no retry.  Whatever the endpoint does, [generate] calls it at
    most once, and the one call carries the prompt built from the
    formatted context and the question; when the context cannot be
    formatted or the key is missing, it is not called at all. *)
Theorem generate_posts_at_most_once question chunks :
  (length (calls_of (generate question chunks).1) <= 1)%nat
  /\ forall c,
       c ∈ calls_of (generate question chunks).1 ->
       exists context,
         _format_context chunks = Ok context
         /\ ResponseGenerator.api_key_missing api_key = false
         /\ c = Post (the_request question context).
Proof.
  rewrite generate_calls.
  destruct (_format_context chunks) as [context|e];
    [destruct (ResponseGenerator.api_key_missing api_key)|].
  - split; [simpl; lia|]. intros c Hc. inversion Hc.
  - split; [simpl; lia|]. intros c Hc.
    apply list_elem_of_singleton in Hc. eauto.
  - split; [simpl; lia|]. intros c Hc. inversion Hc.
Qed.

Lemma lookup_dict_truthy (d : pydict) key v :
  d !! key = Some v -> dict_truthy d = true.
Proof.
  intros H. unfold dict_truthy.
  destruct (Nat.eqb_spec (size d) 0) as [E|]; [|reflexivity].
  apply map_size_empty_inv in E. subst d. now rewrite lookup_empty in H.
Qed.

(** The guarded part on a payload that holds an answer, up to the token
    report. *)
Lemma generate_body_content payload headers response d c rest m answer :
  ResponseGenerator.api_key_missing api_key = false ->
  requests_post (ResponseGenerator.make_request payload headers)
  = Ok response ->
  resp_status_code response = 200 ->
  resp_json response = Ok (VDict d) ->
  d !! "choices" = Some (VList (VDict c :: rest)) ->
  c !! "message" = Some (VDict m) ->
  m !! "content" = Some answer ->
  (generate_body payload headers).2
  = (preview ← lift (head_slice 200 answer);
     tell DEBUG ("Response preview: " ++ py_str preview ++ "...") ;;
     ResponseGenerator.log_usage py_repr (VDict d) ;;
     mret answer).2.
Proof.
  intros Hkey Hpost Hstatus Hjson Hchoices Hmessage Hcontent.
  rewrite (generate_body_answered _ _ _ _ _ _ response Hkey Hpost).
  rewrite Hstatus, Hjson. cbn [Z.eqb Pos.eqb negb].
  logged_step. rewrite logged_bind_snd.
  cbn [truthy]. rewrite (lookup_dict_truthy d _ _ Hchoices).
  cbn [negb raise_if mret logged_ret snd].
  logged_step. cbn [contains]. rewrite Hchoices.
  do 2 logged_step. cbn [subscript]. unfold getitem. rewrite Hchoices.
  do 3 logged_step. cbn [truthy first_item contains]. rewrite Hmessage.
  do 2 logged_step. cbn [subscript]. unfold getitem. rewrite Hmessage.
  logged_step. cbn [contains]. rewrite Hcontent.
  do 2 logged_step. cbn [subscript]. unfold getitem. rewrite Hcontent.
  repeat logged_step. reflexivity.
Qed.

(** X8: a well-formed reply is the answer.  When the endpoint answers
    200 with a payload whose first choice holds a message with a string
    content, and the payload has no ['usage'] entry or one that is a
    dictionary, [generate] returns that string unchanged. *)
Theorem generate_returns_the_content
    question chunks context response d c rest m answer :
  _format_context chunks = Ok context ->
  ResponseGenerator.api_key_missing api_key = false ->
  requests_post (the_request question context) = Ok response ->
  resp_status_code response = 200 ->
  resp_json response = Ok (VDict d) ->
  d !! "choices" = Some (VList (VDict c :: rest)) ->
  c !! "message" = Some (VDict m) ->
  m !! "content" = Some (VStr answer) ->
  (d !! "usage" = None \/ exists u, d !! "usage" = Some (VDict u)) ->
  (generate question chunks).2 = Ok (VStr answer).
Proof.
  intros Hfmt Hkey Hpost Hstatus Hjson Hchoices Hmessage Hcontent Husage.
  rewrite (generate_after_format _ _ _ _ _ _ _ Hfmt).
  rewrite (generate_body_content _ _ _ _ _ _ _ _ Hkey Hpost Hstatus Hjson
             Hchoices Hmessage Hcontent).
  logged_step. cbn [head_slice]. repeat logged_step.
  unfold ResponseGenerator.log_usage. repeat logged_step. cbn [contains].
  destruct Husage as [Hnone|[u Hu]].
  - rewrite Hnone. repeat logged_step. reflexivity.
  - rewrite Hu. repeat logged_step. cbn [subscript]. unfold getitem.
    rewrite Hu. repeat logged_step. reflexivity.
Qed.

(** X9: a token report that is not a dictionary costs the answer.  With
    the same well-formed reply, a ['usage'] entry that is anything but a
    dictionary (a null, a number, a list, a string) makes [generate]
    return the text of the [AttributeError] in place of the content. *)
Theorem generate_loses_the_answer_to_a_bad_usage
    question chunks context response d c rest m answer usage :
  _format_context chunks = Ok context ->
  ResponseGenerator.api_key_missing api_key = false ->
  requests_post (the_request question context) = Ok response ->
  resp_status_code response = 200 ->
  resp_json response = Ok (VDict d) ->
  d !! "choices" = Some (VList (VDict c :: rest)) ->
  c !! "message" = Some (VDict m) ->
  m !! "content" = Some (VStr answer) ->
  d !! "usage" = Some usage ->
  (forall u, usage <> VDict u) ->
  (generate question chunks).2
  = Ok (VStr ("Error generating response: "
              ++ ("'" ++ type_name usage
                  ++ "' object has no attribute '" ++ "get" ++ "'"))).
Proof.
  intros Hfmt Hkey Hpost Hstatus Hjson Hchoices Hmessage Hcontent Husage Hu.
  rewrite (generate_after_format _ _ _ _ _ _ _ Hfmt).
  rewrite (generate_body_content _ _ _ _ _ _ _ _ Hkey Hpost Hstatus Hjson
             Hchoices Hmessage Hcontent).
  logged_step. cbn [head_slice]. repeat logged_step.
  unfold ResponseGenerator.log_usage. repeat logged_step. cbn [contains].
  rewrite Husage. repeat logged_step. cbn [subscript]. unfold getitem.
  rewrite Husage. repeat logged_step.
  destruct usage; try reflexivity. now destruct (Hu d0).
Qed.

(** X10: a content that is no text.  When the content of the message is
    a null, a boolean or a number, taking its preview fails and
    [generate] returns the text of that [TypeError]. *)
Theorem generate_rejects_a_scalar_content
    question chunks context response d c rest m content :
  _format_context chunks = Ok context ->
  ResponseGenerator.api_key_missing api_key = false ->
  requests_post (the_request question context) = Ok response ->
  resp_status_code response = 200 ->
  resp_json response = Ok (VDict d) ->
  d !! "choices" = Some (VList (VDict c :: rest)) ->
  c !! "message" = Some (VDict m) ->
  m !! "content" = Some content ->
  PromptView.scalar content = true ->
  (generate question chunks).2
  = Ok (VStr ("Error generating response: "
              ++ ("'" ++ type_name content
                  ++ "' object is not subscriptable"))).
Proof.
  intros Hfmt Hkey Hpost Hstatus Hjson Hchoices Hmessage Hcontent Hscalar.
  rewrite (generate_after_format _ _ _ _ _ _ _ Hfmt).
  rewrite (generate_body_content _ _ _ _ _ _ _ _ Hkey Hpost Hstatus Hjson
             Hchoices Hmessage Hcontent).
  logged_step. destruct content; try discriminate; reflexivity.
Qed.

(** X11: without a usable key nothing is sent.  When the key is unset,
    empty or the text [None], [generate] makes no call and returns the
    message that names the variable. *)
Theorem generate_without_key_makes_no_call question chunks context :
  _format_context chunks = Ok context ->
  ResponseGenerator.api_key_missing api_key = true ->
  (generate question chunks).2
  = Ok (VStr ("Error generating response: "
              ++ "OPENROUTER_API_KEY not found in .env file!"))
  /\ calls_of (generate question chunks).1 = [].
Proof.
  intros Hfmt Hkey. split.
  - rewrite (generate_after_format _ _ _ _ _ _ _ Hfmt).
    unfold ResponseGenerator.generate_body. now rewrite Hkey.
  - now rewrite generate_calls, Hfmt, Hkey.
Qed.

(** X12: a failed transport is the answer.  When the call itself raises
    (a timeout, a refused connection), [generate] returns the fixed
    prefix followed by the text of that exception. *)
Theorem generate_reports_a_failed_call question chunks context e :
  _format_context chunks = Ok context ->
  ResponseGenerator.api_key_missing api_key = false ->
  requests_post (the_request question context) = Raise e ->
  (generate question chunks).2
  = Ok (VStr ("Error generating response: " ++ str_exn e)).
Proof.
  intros Hfmt Hkey Hpost.
  rewrite (generate_after_format _ _ _ _ _ _ _ Hfmt).
  unfold ResponseGenerator.generate_body. rewrite Hkey.
  do 3 logged_step. rewrite logged_bind_snd. cbn [snd calling].
  now rewrite Hpost.
Qed.

End GeneratorMore.

(** ** More of the code on the sample inputs *)

(** A root that holds none of the three directories. *)
Lemma run_without_target_directories_witness :
  CodeIndexer.extract_code_chunks Sample.ast_parse Cases.fs_bare Sample.root
  = ([ Logged WARNING
         "Directory not found: ultralytics/models. Skipping...";
       Logged WARNING
         "Directory not found: ultralytics/engine. Skipping...";
       Logged WARNING "Directory not found: ultralytics/data. Skipping...";
       Logged ERROR
         ("No code chunks found! Verify that ultralytics"
          ++ " contains Python files in ['models', 'engine', 'data']") ],
     Ok []).
Proof.
  apply (run_without_target_directories Sample.ast_parse Cases.fs_bare
           Sample.root).
  intros d Hd. unfold CodeIndexer.target_dirs in Hd.
  repeat (apply elem_of_cons in Hd as [->|Hd]; [reflexivity|]).
  inversion Hd.
Defined.

(** A file that no encoding reads, before one that is indexed. *)
Lemma undecodable_file_is_logged_as_unexpected_witness :
  (CodeIndexer.extract_code_chunks Sample.ast_parse Cases.fs_locked
     Sample.root).2
  = Ok [Sample.add_chunk]
  /\ Logged ERROR
       ("Unexpected error parsing ultralytics/models/locked.py: "
        ++ "function takes exactly 5 arguments (1 given)"
        ++ ". Skipping file.")
     ∈ (CodeIndexer.extract_code_chunks Sample.ast_parse Cases.fs_locked
          Sample.root).1.
Proof.
  destruct (undecodable_file_is_logged_as_unexpected Sample.ast_parse
              Cases.fs_locked Sample.root Cases.locked_path
              (UnicodeDecodeError "invalid start byte")
              (LibraryError "PermissionError" "Permission denied"))
    as (_ & Hrun & _ & Herr); try reflexivity.
  { vm_compute. apply list_elem_of_here. }
  split; [reflexivity|exact Herr].
Defined.

(** The five lines of [area]. *)
Lemma chunk_code_is_the_span_of_the_definition_witness :
  exists code,
    Sample.area_chunk !! "code" = Some (VStr code)
    /\ split_lines code
       = take 5 (drop 0 (split_lines Sample.documented_source))
    /\ Z.of_nat (length (split_lines code)) = 5.
Proof.
  apply (chunk_code_is_the_span_of_the_definition Sample.root
           Sample.area_def Sample.documented_source Sample.area_path []
           Sample.area_chunk
           {| name := "area"; lineno := 1; end_lineno := Some 5;
              get_docstring := Some Sample.area_doc |} 5);
    try reflexivity; vm_compute; congruence.
Defined.

(** A method on line 6 of a file of seven lines, without its last line:
    the window stops with the file. *)
Lemma chunk_code_without_end_is_ten_lines_witness :
  exists chunk code,
    CodeIndexer._extract_node Sample.root Cases.size_def_without_end
      Sample.mixed_source Cases.mixed_path
    = ([], Some chunk)
    /\ chunk !! "code" = Some (VStr code)
    /\ split_lines code = ["    def size(self):"; "        return 0"].
Proof.
  eexists. 
  destruct (chunk_code_without_end_is_ten_lines Sample.root
              Cases.size_def_without_end Sample.mixed_source
              Cases.mixed_path [] _
              {| name := "size"; lineno := 6; end_lineno := None;
                 get_docstring := None |} eq_refl eq_refl eq_refl)
    as (code & Hcode & Hlines & _);
    [cbn; lia|vm_compute; congruence|].
  exists code. split; [reflexivity|]. split; [exact Hcode|exact Hlines].
Defined.

(** The three chunks of the mixed file. *)
Lemma run_chunks_have_seven_keys_witness :
  exists chunks chunk,
    (CodeIndexer.extract_code_chunks Sample.ast_parse Sample.fs_mixed
       Sample.root).2
    = Ok chunks
    /\ chunks !! 1%nat = Some chunk
    /\ dom chunk = IndexerView.chunk_keys
    /\ chunk !! "type" = Some (VStr "function").
Proof.
  eexists. eexists. split; [reflexivity|]. split; [reflexivity|].
  match goal with
  | |- dom ?c = _ /\ _ =>
      destruct (run_chunks_have_seven_keys Sample.ast_parse Sample.fs_mixed
                  Sample.root _ c eq_refl) as (Hdom & _)
  end.
  { apply list_elem_of_further, list_elem_of_here. }
  split; [exact Hdom|]. by simplify_map_eq.
Defined.

(** The mixed file: three definitions that count, three chunks. *)
Lemma one_chunk_per_definition_witness :
  exists chunks,
    (CodeIndexer._parse_file Sample.ast_parse Sample.fs_mixed Sample.root
       Cases.mixed_path).2
    = Ok chunks
    /\ length chunks = 3%nat.
Proof.
  destruct (one_chunk_per_definition Sample.ast_parse Sample.fs_mixed
              Sample.root Cases.mixed_path [] Sample.mixed_source
              Sample.mixed_tree ["models"; "mixed.py"] eq_refl eq_refl
              eq_refl) as (chunks & Hchunks & Hlen & _).
  exists chunks. split; [exact Hchunks|exact Hlen].
Defined.

(** A reply that holds an answer. *)
Lemma generate_returns_the_content_witness :
  (ResponseGenerator.generate Sample.api_key Sample.model Sample.py_repr
     (fun _ => Ok Cases.answered_response) "how do I add?"
     [Sample.found_chunk]).2
  = Ok (VStr "Call add(a, b).").
Proof.
  apply (generate_returns_the_content Sample.api_key Sample.model
           Sample.py_repr (fun _ => Ok Cases.answered_response)
           "how do I add?" [Sample.found_chunk] Sample.found_context
           Cases.answered_response Cases.payload_part Cases.choice_part []
           Cases.message_part "Call add(a, b).");
    try reflexivity.
  left. reflexivity.
Defined.

(** The same reply with a null token report. *)
Lemma generate_loses_the_answer_to_a_bad_usage_witness :
  (ResponseGenerator.generate Sample.api_key Sample.model Sample.py_repr
     (fun _ => Ok Cases.null_usage_response) "how do I add?"
     [Sample.found_chunk]).2
  = Ok (VStr ("Error generating response: "
              ++ "'NoneType' object has no attribute 'get'")).
Proof.
  apply (generate_loses_the_answer_to_a_bad_usage Sample.api_key
           Sample.model Sample.py_repr
           (fun _ => Ok Cases.null_usage_response) "how do I add?"
           [Sample.found_chunk] Sample.found_context
           Cases.null_usage_response Cases.payload_null_usage
           Cases.choice_part [] Cases.message_part "Call add(a, b)." VNone);
    try reflexivity.
  discriminate.
Defined.

(** A reply whose content is a null. *)
Lemma generate_rejects_a_scalar_content_witness :
  (ResponseGenerator.generate Sample.api_key Sample.model Sample.py_repr
     (fun _ => Ok Cases.null_content_response) "how do I add?"
     [Sample.found_chunk]).2
  = Ok (VStr ("Error generating response: "
              ++ "'NoneType' object is not subscriptable")).
Proof.
  apply (generate_rejects_a_scalar_content Sample.api_key Sample.model
           Sample.py_repr (fun _ => Ok Cases.null_content_response)
           "how do I add?" [Sample.found_chunk] Sample.found_context
           Cases.null_content_response Cases.payload_null_content
           Cases.null_choice [] Cases.null_message VNone);
    reflexivity.
Defined.

(** The key set to the text [None]. *)
Lemma generate_without_key_makes_no_call_witness :
  (ResponseGenerator.generate (Some "None") Sample.model Sample.py_repr
     Sample.answered "how do I add?" [Sample.found_chunk]).2
  = Ok (VStr ("Error generating response: "
              ++ "OPENROUTER_API_KEY not found in .env file!"))
  /\ calls_of
       (ResponseGenerator.generate (Some "None") Sample.model Sample.py_repr
          Sample.answered "how do I add?" [Sample.found_chunk]).1
     = [].
Proof.
  apply (generate_without_key_makes_no_call (Some "None") Sample.model
           Sample.py_repr Sample.answered "how do I add?"
           [Sample.found_chunk] Sample.found_context);
    reflexivity.
Defined.

(** An endpoint that times out. *)
Lemma generate_reports_a_failed_call_witness :
  (ResponseGenerator.generate Sample.api_key Sample.model Sample.py_repr
     Cases.timed_out "how do I add?" [Sample.found_chunk]).2
  = Ok (VStr ("Error generating response: " ++ "Read timed out.")).
Proof.
  apply (generate_reports_a_failed_call Sample.api_key Sample.model
           Sample.py_repr Cases.timed_out "how do I add?"
           [Sample.found_chunk] Sample.found_context
           (LibraryError "ReadTimeout" "Read timed out."));
    reflexivity.
Defined.

(** ** The context of the prompt *)

Lemma prefix_app (a b : string) : String.prefix a (a ++ b) = true.
Proof.
  induction a as [|x a IH]; [now destruct b|].
  change (String.prefix (String x a) (String x (a ++ b)) = true).
  cbn [String.prefix]. destruct (ascii_dec x x); [exact IH|congruence].
Qed.

Lemma prefix_app_l (a b c : string) :
  String.prefix b c = true -> String.prefix (a ++ b) (a ++ c) = true.
Proof.
  intros H. induction a as [|x a IH]; [exact H|].
  change (String.prefix (String x (a ++ b)) (String x (a ++ c)) = true).
  cbn [String.prefix]. destruct (ascii_dec x x); [exact IH|congruence].
Qed.

(** Membership in a list that is written out. *)
Ltac in_list :=
  repeat first [apply list_elem_of_here | apply list_elem_of_further].

Section PromptFacts.

Variable py_repr : pyval -> string.

Local Abbreviation format_chunk := (ResponseGenerator.format_chunk py_repr).
Local Abbreviation format_chunks := (ResponseGenerator.format_chunks py_repr).
Local Abbreviation _format_context :=
  (ResponseGenerator._format_context py_repr).
Local Abbreviation py_str := (ResponseGenerator.py_str py_repr).

(** The purpose line that [format_chunk] computes from a string. *)
Lemma purpose_of_docstring (docstring : string) :
  (if truthy (VStr docstring) then
     parts ← method_split (VStr docstring);
     match parts with
     | first :: _ => Ok first
     | [] => Raise (IndexError "list index out of range")
     end
   else Ok "No description")
  = Ok (PromptView.purpose_of docstring).
Proof.
  unfold PromptView.purpose_of. cbn [truthy method_split mbind result_bind].
  destruct (String.eqb docstring ""); [reflexivity|]. cbn [negb].
  pose proof (split_lines_nonempty docstring).
  destruct (split_lines docstring); [congruence|reflexivity].
Qed.

(** A record with its five keys and a documentation string that is a
    string, or none: the block. *)
Lemma format_chunk_block i total (r : pydict)
    file_path name type lineno code docstring :
  r !! "file_path" = Some file_path ->
  r !! "name" = Some name ->
  r !! "type" = Some type ->
  r !! "lineno" = Some lineno ->
  r !! "code" = Some code ->
  (r !! "docstring" = Some (VStr docstring)
   \/ (r !! "docstring" = None /\ docstring = "")) ->
  format_chunk i total r
  = Ok (PromptView.block i total (py_str file_path) (py_str name)
          (py_str type) (py_str lineno) (PromptView.purpose_of docstring)
          (py_str code)).
Proof.
  intros H1 H2 H3 H4 H5 Hdoc. unfold ResponseGenerator.format_chunk, getitem.
  rewrite H1, H2, H3, H4, H5.
  assert ((match r !! "docstring" with Some v => v | None => VStr "" end)
          = VStr docstring) as ->.
  { destruct Hdoc as [->|[-> ->]]; reflexivity. }
  rewrite purpose_of_docstring. reflexivity.
Qed.

Lemma block_starts_with_header i total file_path name type lineno purpose
    code :
  String.prefix (PromptView.header_line i total)
    (PromptView.block i total file_path name type lineno purpose code)
  = true.
Proof.
  unfold PromptView.block, PromptView.header_line.
  do 5 apply prefix_app_l. apply prefix_app.
Qed.

Lemma format_chunk_header i total chunk block :
  format_chunk i total chunk = Ok block ->
  String.prefix (PromptView.header_line i total) block = true.
Proof.
  intros H.
  pose proof (format_chunk_Ok_keys py_repr i total chunk block H) as Hkeys.
  destruct (Hkeys "file_path") as [v1 H1]; [in_list|].
  destruct (Hkeys "name") as [v2 H2]; [in_list|].
  destruct (Hkeys "type") as [v3 H3]; [in_list|].
  destruct (Hkeys "lineno") as [v4 H4]; [in_list|].
  destruct (Hkeys "code") as [v5 H5]; [in_list|].
  revert H. unfold ResponseGenerator.format_chunk, getitem.
  rewrite H1, H2, H3, H4, H5.
  destruct (if truthy _ then _ else _) as [purpose|e]; [|discriminate].
  cbn [mbind result_bind]. intros [= <-].
  exact (block_starts_with_header i total (py_str v1) (py_str v2)
           (py_str v3) (py_str v4) purpose (py_str v5)).
Qed.

Lemma format_chunks_numbered total chunks : forall i blocks,
  format_chunks i total chunks = Ok blocks ->
  length blocks = length chunks
  /\ forall j block,
       blocks !! j = Some block ->
       String.prefix (PromptView.header_line (i + j) total) block = true.
Proof.
  induction chunks as [|c rest IH]; intros i blocks H.
  - injection H as <-. split; [reflexivity|]. intros j b Hj. inversion Hj.
  - cbn [ResponseGenerator.format_chunks] in H.
    destruct (format_chunk i total c) as [block|e] eqn:E; [|discriminate].
    cbn [mbind result_bind] in H.
    destruct (format_chunks (S i) total rest) as [bs|e] eqn:E';
      [|discriminate].
    injection H as <-. destruct (IH (S i) bs E') as [Hlen Hnum].
    split; [simpl; now rewrite Hlen|].
    intros [|j] b Hj.
    + injection Hj as <-. rewrite Nat.add_0_r.
      exact (format_chunk_header _ _ _ _ E).
    + replace (i + S j)%nat with (S i + j)%nat by lia. exact (Hnum j b Hj).
Qed.

(** X13: the blocks of the context are numbered from 1.  A context that
    formats is the blocks of the chunks, one per chunk and in their
    order, joined by an empty line; the block of the chunk at position
    [j] starts with the header line that gives [j + 1] out of the number
    of chunks. *)
Theorem context_blocks_are_numbered chunks context :
  _format_context chunks = Ok context ->
  exists blocks,
    context = join (nl ++ nl) blocks
    /\ length blocks = length chunks
    /\ forall j block,
         blocks !! j = Some block ->
         String.prefix (PromptView.header_line (S j) (length chunks)) block
         = true.
Proof.
  unfold ResponseGenerator._format_context. intros H.
  destruct (format_chunks 1 (length chunks) chunks) as [blocks|e] eqn:E;
    [|discriminate].
  injection H as <-. exists blocks. split; [reflexivity|].
  exact (format_chunks_numbered _ _ _ _ E).
Qed.

(** X14: the purpose line is the first line of the documentation
    string.  A record that carries, under the keys a search returns,
    what the chunk of a definition has, formats as the block made of the
    path of the file relative to the root, the name and the kind of the
    definition, its line, its code, and as purpose the first line of its
    documentation string, or [No description] when it has none. *)
Theorem prompt_block_of_an_extracted_chunk
    source_dir n source file_path l chunk a r i total :
  CodeIndexer._extract_node source_dir n source file_path = (l, Some chunk) ->
  node_attrs n = Ok a ->
  PromptView.retrieved_from chunk r ->
  exists rel code,
    strip_prefix file_path source_dir = Some rel
    /\ chunk !! "code" = Some (VStr code)
    /\ format_chunk i total r
       = Ok (PromptView.block i total (str_path rel) (name a)
               (if is_class n then "class" else "function")
               (py_repr (VInt (lineno a)))
               (PromptView.purpose_of (or_empty (get_docstring a)))
               code).
Proof.
  intros H Ha Hr. apply _extract_node_Some, extract_node_body_fields in H.
  destruct H as (a' & rel & code & Ha' & Hrel & _ & H1 & H2 & H3 & H4 & H5
                 & H6 & _).
  rewrite Ha in Ha'. injection Ha' as <-.
  exists rel, code. split; [exact Hrel|]. split; [exact H4|].
  unfold PromptView.retrieved_from, PromptView.retrieved_keys in Hr.
  rewrite (format_chunk_block i total r (VStr (str_path rel))
             (VStr (name a))
             (VStr (if is_class n then "class" else "function"))
             (VInt (lineno a)) (VStr code) (or_empty (get_docstring a)));
    [reflexivity| | | | | |]; try (rewrite Hr by in_list; assumption).
  left. rewrite Hr by in_list. assumption.
Qed.

End PromptFacts.

(** ** From the build to the prompt *)

Section BuildToPrompt.

Variable ast_parse : string -> result node.
Variable fs : filesystem.
Variable source_dir : path.
Variable api_key : option string.
Variable model : string.
Variable py_repr : pyval -> string.
Variable requests_post : request -> result response.

Local Abbreviation format_chunk := (ResponseGenerator.format_chunk py_repr).
Local Abbreviation format_chunks := (ResponseGenerator.format_chunks py_repr).
Local Abbreviation _format_context :=
  (ResponseGenerator._format_context py_repr).
Local Abbreviation generate :=
  (ResponseGenerator.generate api_key model py_repr requests_post).
Local Abbreviation extract_code_chunks :=
  (CodeIndexer.extract_code_chunks ast_parse fs source_dir).

Lemma retrieved_record_formats n source f chunk embedding r i total :
  CodeIndexer.extract_node_body source_dir n source f = Ok chunk ->
  PromptView.retrieved_from (SetupIndex.stored_record chunk embedding) r ->
  exists block, format_chunk i total r = Ok block.
Proof.
  intros Hbody Hr. apply extract_node_body_fields in Hbody.
  destruct Hbody as (a & rel & code & _ & _ & _ & H1 & H2 & H3 & H4 & H5
                     & H6 & _).
  destruct (stored_record_fields chunk embedding) as (_ & _ & Hsame).
  assert (forall key, key ∈ PromptView.retrieved_keys ->
                      r !! key = chunk !! key) as Hkey.
  { intros key Hin. rewrite (Hr key Hin). unfold PromptView.retrieved_keys in Hin.
    apply Hsame; intros ->;
      repeat (apply elem_of_cons in Hin as [?|Hin]; [discriminate|]);
      inversion Hin. }
  assert (forall key v, key ∈ PromptView.retrieved_keys ->
                        chunk !! key = Some v -> r !! key = Some v) as Hget.
  { intros key v Hin Hv. now rewrite (Hkey key Hin). }
  unfold PromptView.retrieved_keys in Hget.
  eexists.
  apply (format_chunk_block py_repr i total r (VStr (str_path rel))
           (VStr (name a))
           (VStr (if is_class n then "class" else "function"))
           (VInt (lineno a)) (VStr code) (or_empty (get_docstring a)));
    [apply Hget; [in_list|assumption]..|].
  left. apply Hget; [in_list|assumption].
Qed.

Lemma format_chunks_Ok total results :
  Forall (fun r => forall i, exists block, format_chunk i total r = Ok block)
    results ->
  forall i, exists blocks, format_chunks i total results = Ok blocks.
Proof.
  induction 1 as [|r rest Hr _ IH]; intros i; [eexists; reflexivity|].
  cbn [ResponseGenerator.format_chunks].
  destruct (Hr i) as [block ->]. destruct (IH (S i)) as [blocks ->].
  eexists. reflexivity.
Qed.

(** X15: what the build stores can always be put in a prompt.  Records
    that carry, under the keys a search returns, what the build stored
    for chunks of a run, format into a context, so [generate] returns a
    value for them whatever the endpoint does: the missing-key exception
    cannot come from records of the build. *)
Theorem records_of_a_build_always_format chunks results question :
  extract_code_chunks.2 = Ok chunks ->
  Forall (fun r => exists chunk embedding,
            chunk ∈ chunks
            /\ PromptView.retrieved_from
                 (SetupIndex.stored_record chunk embedding) r)
    results ->
  (exists context, _format_context results = Ok context)
  /\ exists answer, (generate question results).2 = Ok answer.
Proof.
  intros Hrun Hresults.
  assert (exists context, _format_context results = Ok context) as [context H].
  { unfold ResponseGenerator._format_context.
    destruct (format_chunks_Ok (length results) results) with (i := 1%nat)
      as [blocks ->]; [|eexists; reflexivity].
    eapply Forall_impl; [exact Hresults|].
    intros r (chunk & embedding & Hin & Hr) i.
    destruct (run_chunk_origin ast_parse fs source_dir chunks chunk Hrun Hin)
      as (f & n & source & _ & _ & Hbody).
    exact (retrieved_record_formats _ _ _ _ _ _ _ _ Hbody Hr). }
  split; [eauto|].
  rewrite (generate_after_format api_key model py_repr requests_post
             question results context H).
  destruct (ResponseGenerator.generate_body _ _ _ _ _ _).2; eauto.
Qed.

End BuildToPrompt.

(** ** The question handler: its outcomes *)

Section AppMore.

Variable model_encode : string -> result vector.
Variable aggregate : pipeline -> result (list pydict).
Variable api_key : option string.
Variable model : string.
Variable py_repr : pyval -> string.
Variable requests_post : request -> result response.

Local Abbreviation ask_question_body :=
  (Main.ask_question_body model_encode aggregate api_key model py_repr
     requests_post).
Local Abbreviation ask_question :=
  (Main.ask_question model_encode aggregate api_key model py_repr
     requests_post).
Local Abbreviation generate :=
  (ResponseGenerator.generate api_key model py_repr requests_post).
Local Abbreviation _format_context :=
  (ResponseGenerator._format_context py_repr).
Local Abbreviation format_chunks := (ResponseGenerator.format_chunks py_repr).

(** X16: a failure of the encoder is a status 500 before any search.
    When encoding the question raises, the handler makes no other call
    and raises a 500 that carries the text of the exception. *)
Theorem encoder_failure_is_a_500_before_any_search request e :
  model_encode (Main.question request) = Raise e ->
  ask_question request
  = ([Called (ModelEncode (Main.question request))],
     Raise (HTTPException 500 (str_exn e))).
Proof.
  intros Henc.
  unfold Main.ask_question, Main.ask_question_body, Embedder.encode, calling.
  rewrite Henc. cbn [mbind logged_bind try_except].
  now rewrite isinstance_Exception.
Qed.

(** X17: the handler ends in a response or in a status 500.  Whatever
    the encoder, the store and the endpoint do, [ask_question] returns a
    response model or raises an [HTTPException] whose status is 500;
    nothing else leaves it. *)
Theorem ask_question_answers_200_or_500 request :
  ((exists a, (ask_question request).2 = Ok a)
   \/ exists detail,
        (ask_question request).2 = Raise (HTTPException 500 detail))
  /\ (Main.http_status (ask_question request).2 = 200
      \/ Main.http_status (ask_question request).2 = 500).
Proof.
  unfold Main.ask_question. rewrite try_except_Exception_snd.
  destruct (ask_question_body request).2 as [a|e]; cbn [raise snd].
  - split; [left; eauto|left; reflexivity].
  - split; [right; eauto|right; reflexivity].
Qed.

Lemma format_chunks_keys total results : forall i blocks,
  format_chunks i total results = Ok blocks ->
  Forall (fun r : pydict =>
            forall key, key ∈ ResponseGenerator.required_keys ->
                        is_Some (r !! key)) results.
Proof.
  induction results as [|r rest IH]; intros i blocks H; [constructor|].
  cbn [ResponseGenerator.format_chunks] in H.
  destruct (ResponseGenerator.format_chunk py_repr i total r)
    as [block|e] eqn:E; [|discriminate].
  cbn [mbind result_bind] in H.
  destruct (format_chunks (S i) total rest) as [bs|e] eqn:E'; [|discriminate].
  constructor; [|exact (IH _ _ E')].
  exact (format_chunk_Ok_keys py_repr _ _ _ _ E).
Qed.

(** The relation between a retrieved record and its source entry. *)
Lemma make_sources_Ok results :
  Forall (fun r : pydict =>
            forall key, key ∈ ResponseGenerator.required_keys ->
                        is_Some (r !! key)) results ->
  exists srcs,
    Main.make_sources results = Ok srcs
    /\ Forall2 (fun (r s : pydict) =>
                  dom s = ({[ "file"; "name"; "type"; "line" ]} : gset string)
                  /\ s !! "file" = r !! "file_path"
                  /\ s !! "name" = r !! "name"
                  /\ s !! "type" = r !! "type"
                  /\ s !! "line" = r !! "lineno")
         results srcs.
Proof.
  induction 1 as [|r rest Hr _ (srcs & IH & Hall)];
    [eexists; split; [reflexivity|constructor]|].
  cbn [Main.make_sources]. unfold Main.make_source, getitem.
  destruct (Hr "file_path") as [v1 H1]; [in_list|].
  destruct (Hr "name") as [v2 H2]; [in_list|].
  destruct (Hr "type") as [v3 H3]; [in_list|].
  destruct (Hr "lineno") as [v4 H4]; [in_list|].
  rewrite H1, H2, H3, H4. cbn [mbind result_bind]. rewrite IH.
  eexists. split; [reflexivity|]. constructor; [|exact Hall].
  split; [rewrite !dom_insert_L, dom_empty_L; set_solver|].
  repeat split; by simplify_map_eq.
Qed.

(** What the handler returns once [generate] has given a string. *)
Lemma ask_question_with_answer request query_vector results text :
  model_encode (Main.question request) = Ok query_vector ->
  aggregate (VectorDB.search_pipeline query_vector (Main.top_k request))
  = Ok results ->
  results <> [] ->
  (generate (Main.question request) results).2 = Ok (VStr text) ->
  exists srcs,
    (ask_question request).2
    = Ok {| Main.answer_question := Main.question request;
            Main.answer := text;
            Main.sources := srcs |}
    /\ Forall2 (fun (r s : pydict) =>
                  dom s = ({[ "file"; "name"; "type"; "line" ]} : gset string)
                  /\ s !! "file" = r !! "file_path"
                  /\ s !! "name" = r !! "name"
                  /\ s !! "type" = r !! "type"
                  /\ s !! "line" = r !! "lineno")
         results srcs.
Proof.
  intros Henc Hagg Hne Hgen.
  assert (Forall (fun r : pydict =>
                    forall key, key ∈ ResponseGenerator.required_keys ->
                                is_Some (r !! key)) results) as Hkeys.
  { unfold ResponseGenerator.generate in Hgen.
    unfold ResponseGenerator._format_context in Hgen.
    destruct (format_chunks 1 (length results) results) as [bs|e] eqn:E.
    - exact (format_chunks_keys _ _ _ _ E).
    - discriminate. }
  destruct (make_sources_Ok results Hkeys) as (srcs & Hsrcs & Hall).
  exists srcs. split; [|exact Hall].
  unfold Main.ask_question. rewrite try_except_Exception_snd.
  unfold Main.ask_question_body, Embedder.encode, VectorDB.search, calling.
  rewrite logged_bind_snd. cbn [snd]. rewrite Henc.
  rewrite logged_bind_snd. cbn [snd]. rewrite Hagg.
  rewrite logged_bind_snd.
  destruct results as [|r rest]; [congruence|].
  cbn [raise_if mret logged_ret snd].
  rewrite logged_bind_snd, Hgen.
  rewrite logged_bind_snd. cbn [snd lift]. rewrite Hsrcs.
  reflexivity.
Qed.

(** X18: the sources of an answer follow the retrieved records.  When
    the store returns records and [generate] returns a string, the
    response echoes the question, carries that string as its answer, and
    lists one source per record, in the order of the records; a source
    has the four keys [file], [name], [type] and [line] and nothing
    else of the record. *)
Theorem answer_lists_its_sources request query_vector results text :
  model_encode (Main.question request) = Ok query_vector ->
  aggregate (VectorDB.search_pipeline query_vector (Main.top_k request))
  = Ok results ->
  results <> [] ->
  (generate (Main.question request) results).2 = Ok (VStr text) ->
  exists srcs,
    (ask_question request).2
    = Ok {| Main.answer_question := Main.question request;
            Main.answer := text;
            Main.sources := srcs |}
    /\ length srcs = length results
    /\ Forall2 (fun (r s : pydict) =>
                  dom s = ({[ "file"; "name"; "type"; "line" ]} : gset string)
                  /\ s !! "file" = r !! "file_path"
                  /\ s !! "name" = r !! "name"
                  /\ s !! "type" = r !! "type"
                  /\ s !! "line" = r !! "lineno")
         results srcs.
Proof.
  intros Henc Hagg Hne Hgen.
  destruct (ask_question_with_answer request query_vector results text
              Henc Hagg Hne Hgen) as (srcs & Hres & Hall).
  exists srcs. split; [exact Hres|]. split; [|exact Hall].
  symmetry. exact (Forall2_length _ _ _ Hall).
Qed.

(** X19: a failed synthesis is still an answer.  When records were
    retrieved and format, and the endpoint answers with a status other
    than 200 or the call itself raises, the handler returns a response
    (status 200) whose answer is the failure text of [generate]. *)
Theorem failed_synthesis_is_a_200_with_the_failure_text
    request query_vector results context :
  model_encode (Main.question request) = Ok query_vector ->
  aggregate (VectorDB.search_pipeline query_vector (Main.top_k request))
  = Ok results ->
  results <> [] ->
  _format_context results = Ok context ->
  ResponseGenerator.api_key_missing api_key = false ->
  let req :=
    ResponseGenerator.make_request
      (ResponseGenerator.make_payload model
         (ResponseGenerator.build_prompt context (Main.question request)))
      (ResponseGenerator.make_headers api_key) in
  (forall response,
     requests_post req = Ok response ->
     resp_status_code response <> 200 ->
     exists srcs,
       (ask_question request).2
       = Ok {| Main.answer_question := Main.question request;
               Main.answer :=
                 "Error generating response: "
                 ++ ("API returned "
                     ++ string_of_Z (resp_status_code response)
                     ++ ": " ++ resp_text response);
               Main.sources := srcs |})
  /\ (forall e,
        requests_post req = Raise e ->
        exists srcs,
          (ask_question request).2
          = Ok {| Main.answer_question := Main.question request;
                  Main.answer := "Error generating response: " ++ str_exn e;
                  Main.sources := srcs |}).
Proof.
  intros Henc Hagg Hne Hfmt Hkey req. split.
  - intros response Hpost Hstatus.
    destruct (ask_question_with_answer request query_vector results
                ("Error generating response: "
                 ++ ("API returned "
                     ++ string_of_Z (resp_status_code response)
                     ++ ": " ++ resp_text response))
                Henc Hagg Hne) as (srcs & Hres & _); [|eauto].
    rewrite (generate_after_format _ _ _ _ _ _ _ Hfmt).
    rewrite (generate_body_answered _ _ _ _ _ _ response Hkey Hpost).
    apply Z.eqb_neq in Hstatus. now rewrite Hstatus.
  - intros e Hpost.
    destruct (ask_question_with_answer request query_vector results
                ("Error generating response: " ++ str_exn e)
                Henc Hagg Hne) as (srcs & Hres & _); [|eauto].
    rewrite (generate_after_format _ _ _ _ _ _ _ Hfmt).
    unfold ResponseGenerator.generate_body. rewrite Hkey.
    do 3 logged_step. rewrite logged_bind_snd. cbn [snd calling].
    fold req. now rewrite Hpost.
Qed.


End AppMore.

(** ** The build script: what reaches the store *)

Section ScriptMore.

Variable ast_parse : string -> result node.
Variable fs : filesystem.
Variable model_encode_batch : list pyval -> result (list vector).
Variable YOLO_SOURCE : path.

Local Abbreviation extract_code_chunks :=
  (CodeIndexer.extract_code_chunks ast_parse fs YOLO_SOURCE).
Local Abbreviation prepare :=
  (SetupIndex.prepare ast_parse fs model_encode_batch YOLO_SOURCE).
Local Abbreviation main :=
  (SetupIndex.main ast_parse fs model_encode_batch YOLO_SOURCE).

Lemma run_chunk_dom chunks chunk :
  extract_code_chunks.2 = Ok chunks ->
  chunk ∈ chunks ->
  dom chunk = IndexerView.chunk_keys.
Proof.
  intros Hrun Hin.
  destruct (run_chunk_origin ast_parse fs YOLO_SOURCE chunks chunk Hrun Hin)
    as (f & n & source & _ & _ & Hbody).
  unfold CodeIndexer.extract_node_body in Hbody.
  destruct (node_attrs n) as [a|e]; [|discriminate].
  cbn [mbind result_bind] in Hbody.
  destruct (relative_to f YOLO_SOURCE) as [rel|e]; [|discriminate].
  cbn [mbind result_bind] in Hbody. injection Hbody as <-.
  unfold IndexerView.chunk_keys. rewrite !dom_insert_L, dom_empty_L.
  set_solver.
Qed.

(** The only collaborator [prepare] calls is the encoder, once at most. *)
Lemma prepare_calls :
  calls_of prepare.1
  = match extract_code_chunks.2 with
    | Ok chunks =>
        match SetupIndex.texts_of chunks with
        | Ok texts => [ModelEncodeBatch texts]
        | Raise _ => []
        end
    | Raise _ => []
    end.
Proof.
  unfold SetupIndex.prepare, Embedder.encode_batch.
  rewrite calls_of_bind. cbn [fst snd print calls_of omap list_omap app].
  rewrite calls_of_bind.
  rewrite (only_logged_calls _
             (extract_code_chunks_only_logged ast_parse fs YOLO_SOURCE)).
  cbn [app]. destruct extract_code_chunks.2 as [chunks|e]; [|reflexivity].
  do 2 (rewrite calls_of_bind;
        cbn [fst snd print calls_of omap list_omap app]).
  rewrite calls_of_bind. cbn [fst snd lift calls_of omap list_omap app].
  destruct (SetupIndex.texts_of chunks) as [texts|e]; [|reflexivity].
  rewrite calls_of_bind. cbn [fst snd calling calls_of omap list_omap app].
  destruct (model_encode_batch texts) as [embeddings|e]; [|reflexivity].
  rewrite calls_of_bind. cbn [fst snd lift calls_of omap list_omap app].
  destruct (SetupIndex.add_embeddings chunks embeddings) as [docs|e];
    reflexivity.
Qed.

Lemma prepare_never_touches_the_store c :
  c ∈ calls_of prepare.1 -> exists texts, c = ModelEncodeBatch texts.
Proof.
  rewrite prepare_calls.
  destruct extract_code_chunks.2 as [chunks|e]; [|inversion 1].
  destruct (SetupIndex.texts_of chunks) as [texts|e]; [|inversion 1].
  intros H. apply list_elem_of_singleton in H. eauto.
Qed.

(** X21: the script touches the store only once the records are
    ready.  With a store whose [delete_many] and [insert_many] succeed,
    either the script leaves the store as it found it and has called
    neither of the two (the root is missing, or extraction, encoding
    or the attachment of the vectors raised), or it ends normally, the
    store holds exactly the prepared records, and the success line with
    their number was printed. *)
Theorem store_changes_only_on_success coll l coll' r :
  main coll = (l, coll', r) ->
  (coll' = coll
   /\ (DeleteMany ∉ calls_of l)
   /\ forall docs, InsertMany docs ∉ calls_of l)
  \/ (r = Ok tt
      /\ path_exists fs YOLO_SOURCE = true
      /\ prepare.2 = Ok coll'
      /\ DeleteMany ∈ calls_of l
      /\ Printed (nl ++ "Success! Indexed "
                  ++ string_of_nat (length coll') ++ " code chunks") ∈ l).
Proof.
  unfold SetupIndex.main.
  destruct (path_exists fs YOLO_SOURCE); cbn [negb].
  - pose proof prepare_never_touches_the_store as Hcalls.
    destruct prepare as [l1 [docs|e]]; cbn [fst snd] in *.
    + unfold VectorDB.clear_collection.
      assert ((VectorDB.insert_chunks docs []).2 = docs) as Hins
        by now destruct docs.
      destruct (VectorDB.insert_chunks docs []) as [l3 coll3].
      cbn [snd] in Hins. subst coll3. intros [= <- <- <-].
      right. split; [reflexivity|]. split; [reflexivity|].
      split; [reflexivity|]. split.
      * rewrite calls_of_app. apply elem_of_app. right.
        cbn [app calls_of omap list_omap]. apply list_elem_of_here.
      * repeat first [ apply list_elem_of_here
                     | apply list_elem_of_further
                     | apply elem_of_app; right ].
    + intros [= <- <- <-]. left. split; [reflexivity|].
      split; [|intros docs]; intros Hin;
        destruct (Hcalls _ Hin) as [texts Ht]; discriminate.
  - intros [= <- <- <-]. left. split; [reflexivity|].
    split; [|intros docs]; inversion 1.
Qed.

Lemma add_embeddings_general chunks : forall embeddings,
  Forall SetupIndex.embedding_text_ok chunks ->
  SetupIndex.add_embeddings chunks embeddings
  = Ok (zip_with SetupIndex.stored_record chunks embeddings
        ++ drop (length embeddings) chunks)%list.
Proof.
  induction chunks as [|c cs IH]; intros [|e es] Hwf; try reflexivity.
  inversion Hwf as [|? ? (n & d & code & _ & _ & _ & Ht) Hcs]; subst.
  cbn [SetupIndex.add_embeddings zip_with length drop app].
  unfold SetupIndex.delitem.
  rewrite lookup_insert_ne by discriminate. rewrite Ht.
  cbn [mbind result_bind]. rewrite (IH es Hcs). reflexivity.
Qed.

(** X22: the script does not compare the number of vectors with the
    number of chunks.  Whatever the length of the list the encoder
    returns, the script ends normally; the chunks that got a vector are
    stored as records, surplus vectors are dropped, and the chunks past
    the last vector are stored as they were extracted, with their
    ['text_for_embedding'] and without an ['embedding']. *)
Theorem unmatched_chunks_are_stored_unchanged coll chunks embeddings :
  path_exists fs YOLO_SOURCE = true ->
  extract_code_chunks.2 = Ok chunks ->
  model_encode_batch (map SetupIndex.embedding_text chunks) = Ok embeddings ->
  exists l docs,
    main coll = (l, docs, Ok tt)
    /\ docs = (zip_with SetupIndex.stored_record chunks embeddings
               ++ drop (length embeddings) chunks)%list
    /\ length docs = length chunks
    /\ forall i chunk,
         (length embeddings <= i)%nat ->
         chunks !! i = Some chunk ->
         docs !! i = Some chunk
         /\ is_Some (chunk !! "text_for_embedding")
         /\ chunk !! "embedding" = None.
Proof.
  intros Hroot Hchunks Henc.
  pose proof (extracted_chunks_embedding_text ast_parse fs YOLO_SOURCE
                chunks Hchunks) as Hwf.
  set (docs := (zip_with SetupIndex.stored_record chunks embeddings
                ++ drop (length embeddings) chunks)%list).
  assert (prepare.2 = Ok docs) as Hprep.
  { unfold SetupIndex.prepare, Embedder.encode_batch.
    logged_step. rewrite logged_bind_snd, Hchunks. do 3 logged_step.
    rewrite (texts_of_Ok chunks Hwf). logged_step. rewrite Henc.
    logged_step. rewrite (add_embeddings_general chunks embeddings Hwf).
    logged_step. reflexivity. }
  assert (length docs = length chunks) as Hlen.
  { subst docs. rewrite length_app, length_zip_with, length_drop. lia. }
  unfold SetupIndex.main. rewrite Hroot. cbn [negb].
  destruct prepare as [l1 r]. cbn [snd] in Hprep. subst r.
  unfold VectorDB.clear_collection.
  assert ((VectorDB.insert_chunks docs []).2 = docs) as Hins
    by now destruct docs.
  destruct (VectorDB.insert_chunks docs []) as [l3 coll3].
  cbn [snd] in Hins. subst coll3.
  eexists. exists docs. split; [reflexivity|]. split; [reflexivity|].
  split; [exact Hlen|].
  intros i chunk Hi Hchunk. split; [|split].
  - subst docs.
    assert (length (zip_with SetupIndex.stored_record chunks embeddings)
            = length embeddings) as Hz.
    { rewrite length_zip_with. apply lookup_lt_Some in Hchunk. lia. }
    etransitivity; [apply lookup_app_r; rewrite Hz; lia|].
    rewrite Hz, lookup_drop.
    replace (length embeddings + (i - length embeddings))%nat with i by lia.
    exact Hchunk.
  - rewrite Forall_forall in Hwf.
    destruct (Hwf chunk) as (n & d & code & _ & _ & _ & Ht);
      [eapply list_elem_of_lookup_2; eassumption|]. eauto.
  - assert (chunk ∈ chunks) as Hin
      by (eapply list_elem_of_lookup_2; eassumption).
    apply not_elem_of_dom.
    rewrite (run_chunk_dom chunks chunk Hchunks Hin).
    apply (bool_decide_unpack _). by vm_compute.
Qed.

End ScriptMore.

(** ** The configuration *)

Lemma present_Some value :
  Config.present value = true <-> exists s, value = Some s /\ s <> "".
Proof.
  unfold Config.present. destruct value as [s|].
  - destruct (String.eqb_spec s ""); cbn [negb]; split.
    + discriminate.
    + intros (s' & [= <-] & Hs). congruence.
    + eauto.
    + reflexivity.
  - split; [discriminate|]. intros (s & H & _). discriminate.
Qed.

Section ConfigFacts.

Variable environ : gmap string string.
Variable py_int : string -> result Z.
Variable env_path : string.
Variable env_exists : bool.

Local Abbreviation load := (Config.load environ py_int env_path env_exists).
Local Abbreviation getenv_or := (Config.getenv_or environ).

(** How the module body ends: the first failure in the order of the
    source decides. *)
Lemma load_outcome :
  load.2
  = match py_int (getenv_or "TOP_K_RESULTS" "5") with
    | Raise e => Raise e
    | Ok top_k =>
        if negb (Config.present (environ !! "OPENROUTER_API_KEY")) then
          Raise (ValueError
                   "OPENROUTER_API_KEY not found! Check your .env file.")
        else if negb (Config.present (environ !! "MONGODB_URI")) then
          Raise (ValueError "MONGODB_URI not found! Check your .env file.")
        else
          Ok {| Config.MONGODB_URI := environ !! "MONGODB_URI";
                Config.OPENROUTER_API_KEY := environ !! "OPENROUTER_API_KEY";
                Config.DATABASE_NAME :=
                  getenv_or "DATABASE_NAME" "yolo_assistant";
                Config.COLLECTION_NAME :=
                  getenv_or "COLLECTION_NAME" "code_chunks";
                Config.EMBEDDING_MODEL :=
                  "sentence-transformers/all-MiniLM-L6-v2";
                Config.LLM_MODEL :=
                  getenv_or "LLM_MODEL" "nvidia/nemotron-3-nano-30b-a3b:free";
                Config.TOP_K_RESULTS := top_k |}
    end.
Proof.
  unfold Config.load, Config.getenv.
  destruct (Config.debug environ);
    destruct (py_int _) as [top_k|e]; try reflexivity;
    destruct (Config.present (environ !! "OPENROUTER_API_KEY"));
    try reflexivity;
    destruct (Config.present (environ !! "MONGODB_URI")); reflexivity.
Qed.

(** The line at [INFO] level is the last thing the module body does. *)
Lemma load_info message :
  Logged INFO message ∈ load.1 ->
  exists cfg,
    load.2 = Ok cfg
    /\ message = "Configuration loaded: Model=" ++ Config.LLM_MODEL cfg
                 ++ ", Database=" ++ Config.DATABASE_NAME cfg.
Proof.
  unfold Config.load, Config.getenv.
  destruct (Config.debug environ);
    destruct (py_int _) as [top_k|e];
    try destruct (Config.present (environ !! "OPENROUTER_API_KEY"));
    try destruct (Config.present (environ !! "MONGODB_URI"));
    cbn; intros Hin;
    repeat match goal with
           | H : _ ∈ _ :: _ |- _ =>
               apply elem_of_cons in H as [H|H]; [try discriminate H|]
           | H : _ ∈ [] |- _ => inversion H
           end;
    injection Hin as ->; eexists; split; reflexivity.
Qed.

(** X23: a configuration that loaded has both secrets.  When the module
    body ends normally, the key and the connection string are the
    values of their variables and neither is empty, and [TOP_K_RESULTS]
    is the integer read from its variable or from ["5"]; the test for a
    missing key that opens [generate] can then fire only when the key
    is the text [None]. *)
Theorem loaded_settings_have_their_secrets cfg :
  load.2 = Ok cfg ->
  (exists key uri,
     Config.OPENROUTER_API_KEY cfg = Some key /\ key <> ""
     /\ environ !! "OPENROUTER_API_KEY" = Some key
     /\ Config.MONGODB_URI cfg = Some uri /\ uri <> ""
     /\ environ !! "MONGODB_URI" = Some uri
     /\ (ResponseGenerator.api_key_missing (Config.OPENROUTER_API_KEY cfg)
         = true <-> key = "None"))
  /\ py_int (getenv_or "TOP_K_RESULTS" "5") = Ok (Config.TOP_K_RESULTS cfg).
Proof.
  rewrite load_outcome.
  destruct (py_int _) as [top_k|e]; [|discriminate].
  destruct (Config.present (environ !! "OPENROUTER_API_KEY")) eqn:Hkey;
    cbn [negb]; [|discriminate].
  destruct (Config.present (environ !! "MONGODB_URI")) eqn:Huri;
    cbn [negb]; [|discriminate].
  intros [= <-]. cbn.
  apply present_Some in Hkey as (key & Hk & Hkne).
  apply present_Some in Huri as (uri & Hu & Hune).
  split; [|reflexivity].
  exists key, uri. rewrite Hk, Hu.
  repeat split; try assumption.
  - unfold ResponseGenerator.api_key_missing. intros H.
    apply orb_true_iff in H as [H|H]; apply String.eqb_eq in H; congruence.
  - intros ->. reflexivity.
Qed.

(** X24: the first failure decides how loading ends, and a failed
    loading never reports success.  A value of [TOP_K_RESULTS] that is
    no integer ends the loading with the exception of the conversion,
    whatever the secrets are; otherwise a missing or empty key ends it
    with the error that names the key, also when the connection string
    is missing too; otherwise a missing or empty connection string ends
    it with the error that names it.  In each of these cases no line at
    [INFO] level was logged. *)
Theorem loading_fails_on_the_first_missing_setting :
  (forall e,
     py_int (getenv_or "TOP_K_RESULTS" "5") = Raise e -> load.2 = Raise e)
  /\ (forall top_k,
        py_int (getenv_or "TOP_K_RESULTS" "5") = Ok top_k ->
        (Config.present (environ !! "OPENROUTER_API_KEY") = false ->
         load.2
         = Raise (ValueError
                    "OPENROUTER_API_KEY not found! Check your .env file."))
        /\ (Config.present (environ !! "OPENROUTER_API_KEY") = true ->
            Config.present (environ !! "MONGODB_URI") = false ->
            load.2
            = Raise (ValueError
                       "MONGODB_URI not found! Check your .env file.")))
  /\ (forall e message, load.2 = Raise e -> Logged INFO message ∉ load.1).
Proof.
  split; [|split].
  - rewrite load_outcome. intros e ->. reflexivity.
  - rewrite load_outcome. intros top_k ->. split.
    + intros ->. reflexivity.
    + intros -> ->. reflexivity.
  - intros e message Hfail Hin.
    destruct (load_info message Hin) as (cfg & Hok & _). congruence.
Qed.

End ConfigFacts.

(** ** The sidebar *)

Lemma string_take_length (n : nat) (s : string) :
  String.length (string_take n s) = Nat.min n (String.length s).
Proof.
  revert s. induction n as [|n IH]; intros [|c s]; try reflexivity.
  cbn [string_take String.length]. now rewrite IH.
Qed.

Lemma string_length_app (a b : string) :
  String.length (a ++ b) = (String.length a + String.length b)%nat.
Proof.
  induction a as [|c a IH]; [reflexivity|].
  change (String.length (String c (a ++ b))
          = S (String.length a + String.length b)).
  cbn [String.length]. now rewrite IH.
Qed.

Lemma has_char_app sep (a b : string) :
  Frontend.has_char sep (a ++ b)
  = Frontend.has_char sep a || Frontend.has_char sep b.
Proof.
  induction a as [|c a IH]; [reflexivity|].
  change (Frontend.has_char sep (String c (a ++ b))
          = Frontend.has_char sep (String c a) || Frontend.has_char sep b).
  cbn [Frontend.has_char]. rewrite IH. now rewrite orb_assoc.
Qed.

Lemma has_char_take sep n : forall s,
  Frontend.has_char sep s = false ->
  Frontend.has_char sep (string_take n s) = false.
Proof.
  induction n as [|n IH]; intros [|c s]; try reflexivity.
  cbn [string_take Frontend.has_char]. intros H.
  apply orb_false_iff in H as [-> H]. now rewrite (IH s H).
Qed.

(** A text without the separator is its own only part. *)
Lemma split_on_whole sep s :
  Frontend.has_char sep s = false -> Frontend.split_on sep s = [s].
Proof.
  induction s as [|c s IH]; [reflexivity|].
  cbn [Frontend.has_char Frontend.split_on]. intros H.
  apply orb_false_iff in H as [-> H]. now rewrite (IH H).
Qed.

(** No part holds the separator. *)
Lemma split_on_parts sep s :
  Forall (fun part => Frontend.has_char sep part = false)
         (Frontend.split_on sep s).
Proof.
  induction s as [|c s IH]; cbn [Frontend.split_on].
  - repeat constructor.
  - destruct (Ascii.eqb c sep) eqn:Hc.
    + constructor; [reflexivity|exact IH].
    + destruct (Frontend.split_on sep s) as [|l ls].
      * repeat constructor. cbn [Frontend.has_char]. now rewrite Hc.
      * inversion IH as [|? ? Hl Hls]; subst. constructor; [|exact Hls].
        cbn [Frontend.has_char]. now rewrite Hc, Hl.
Qed.

(** The parts of a text that ends in a separator and [rest] end in the
    parts of [rest]. *)
Lemma split_on_app sep rest : forall s,
  exists l ls,
    Frontend.split_on sep (s ++ String sep rest)
    = l :: (ls ++ Frontend.split_on sep rest)%list.
Proof.
  induction s as [|c s (l & ls & IH)].
  - exists "", []. change ("" ++ String sep rest) with (String sep rest).
    cbn [Frontend.split_on]. now rewrite Ascii.eqb_refl.
  - change (String c s ++ String sep rest)
      with (String c (s ++ String sep rest)).
    cbn [Frontend.split_on]. rewrite IH.
    destruct (Ascii.eqb c sep).
    + exists "", (l :: ls). reflexivity.
    + exists (String c l), ls. reflexivity.
Qed.

Lemma last_part_after sep s rest :
  Frontend.has_char sep rest = false ->
  Frontend.last_part (Frontend.split_on sep (s ++ String sep rest)) = rest.
Proof.
  intros Hrest. destruct (split_on_app sep rest s) as (l & ls & ->).
  rewrite (split_on_whole sep rest Hrest). unfold Frontend.last_part.
  change (l :: (ls ++ [rest])%list) with ((l :: ls) ++ [rest])%list.
  apply List.last_last.
Qed.

Lemma last_part_clean sep s :
  Frontend.has_char sep (Frontend.last_part (Frontend.split_on sep s))
  = false.
Proof.
  pose proof (split_on_parts sep s) as Hparts. unfold Frontend.last_part.
  induction Hparts as [|part [|part' parts] Hpart Hrest IH];
    [reflexivity|exact Hpart|exact IH].
Qed.

(** What the second statement makes of the name picked by the first. *)
Lemma display_name_shortens model_name :
  Frontend.display_name model_name
  = let picked :=
      if Frontend.has_char Frontend.slash model_name
      then Frontend.last_part (Frontend.split_on Frontend.slash model_name)
      else model_name in
    if (15 <? String.length picked)%nat
    then string_take 12 picked ++ "..." else picked.
Proof. reflexivity. Qed.

(** X25: the model name of the sidebar.  The name shown is never longer
    than fifteen characters and holds no slash.  Of a model name
    [owner/.../last] the part after the last slash is taken, a name
    without a slash is taken whole; what is taken is shown as it is
    when it has at most fifteen characters, and as its first twelve
    characters followed by three dots otherwise. *)
Theorem sidebar_shows_a_short_model_name model_name :
  (String.length (Frontend.display_name model_name) <= 15)%nat
  /\ Frontend.has_char Frontend.slash (Frontend.display_name model_name)
     = false
  /\ forall last,
       Frontend.has_char Frontend.slash last = false ->
       model_name = last \/ (exists owner, model_name = owner ++ "/" ++ last) ->
       Frontend.display_name model_name
       = if (String.length last <=? 15)%nat then last
         else string_take 12 last ++ "...".
Proof.
  rewrite display_name_shortens.
  set (picked := if Frontend.has_char Frontend.slash model_name
                 then Frontend.last_part
                        (Frontend.split_on Frontend.slash model_name)
                 else model_name).
  assert (Frontend.has_char Frontend.slash picked = false) as Hclean.
  { subst picked.
    destruct (Frontend.has_char Frontend.slash model_name) eqn:Hs;
      [apply last_part_clean|exact Hs]. }
  cbv zeta. split; [|split].
  - destruct (Nat.ltb_spec 15 (String.length picked)) as [Hlong|Hshort];
      [|exact Hshort].
    rewrite string_length_app, string_take_length. cbn [String.length]. lia.
  - destruct (15 <? String.length picked)%nat; [|exact Hclean].
    rewrite has_char_app, (has_char_take _ 12 picked Hclean). reflexivity.
  - intros last Hlast Hname.
    assert (picked = last) as ->.
    { subst picked. destruct Hname as [->|[owner ->]];
        [now rewrite Hlast|].
      change (owner ++ "/" ++ last)
        with (owner ++ String Frontend.slash last).
      rewrite has_char_app. cbn [Frontend.has_char].
      rewrite Ascii.eqb_refl, orb_true_r.
      apply last_part_after, Hlast. }
    destruct (Nat.ltb_spec 15 (String.length last)) as [Hlong|Hshort].
    + destruct (Nat.leb_spec (String.length last) 15); [lia|reflexivity].
    + destruct (Nat.leb_spec (String.length last) 15); [reflexivity|lia].
Qed.

(** Two records: two blocks, numbered 1 and 2 out of 2. *)
Lemma context_blocks_are_numbered_witness :
  exists context blocks,
    ResponseGenerator._format_context Sample.py_repr
      [Sample.found_chunk; Sample.found_chunk]
    = Ok context
    /\ context = join (nl ++ nl) blocks
    /\ length blocks = 2%nat
    /\ forall j block,
         blocks !! j = Some block ->
         String.prefix (PromptView.header_line (S j) 2) block = true.
Proof.
  eexists.
  destruct (context_blocks_are_numbered Sample.py_repr
              [Sample.found_chunk; Sample.found_chunk] _ eq_refl)
    as (blocks & Hjoin & Hlen & Hnum).
  exists blocks. split; [reflexivity|]. split; [exact Hjoin|].
  split; [exact Hlen|exact Hnum].
Defined.

(** The record of [area], whose documentation string has three lines. *)
Lemma prompt_block_of_an_extracted_chunk_witness :
  ResponseGenerator.format_chunk Sample.py_repr 1 1 Asked.area_record
  = Ok (PromptView.block 1 1 "models/area.py" "area" "function" "1"
          "Area of a rectangle." Sample.documented_source).
Proof.
  destruct (prompt_block_of_an_extracted_chunk Sample.py_repr Sample.root
              Sample.area_def Sample.documented_source Sample.area_path []
              Sample.area_chunk
              {| name := "area"; lineno := 1; end_lineno := Some 5;
                 get_docstring := Some Sample.area_doc |}
              Asked.area_record 1%nat 1%nat eq_refl eq_refl)
    as (rel & code & Hrel & Hcode & Hblock).
  { intros key Hkey. unfold PromptView.retrieved_keys in Hkey.
    repeat (apply elem_of_cons in Hkey as [->|Hkey]; [reflexivity|]).
    inversion Hkey. }
  injection Hrel as <-.
  assert (code = Sample.documented_source) as ->.
  { vm_compute in Hcode. injection Hcode as <-. reflexivity. }
  exact Hblock.
Defined.

(** The record the build stores for [add], as a search returns it. *)
Lemma records_of_a_build_always_format_witness :
  (exists context,
     ResponseGenerator._format_context Sample.py_repr [Sample.found_chunk]
     = Ok context)
  /\ exists answer,
       (ResponseGenerator.generate Sample.api_key Sample.model
          Sample.py_repr Cases.timed_out "how do I add?"
          [Sample.found_chunk]).2
       = Ok answer.
Proof.
  apply (records_of_a_build_always_format Sample.ast_parse Sample.fs_add
           Sample.root Sample.api_key Sample.model Sample.py_repr
           Cases.timed_out [Sample.add_chunk] [Sample.found_chunk]
           "how do I add?" eq_refl).
  constructor; [|constructor].
  exists Sample.add_chunk, Sample.embedding_of_any.
  split; [apply list_elem_of_here|].
  intros key Hkey. unfold PromptView.retrieved_keys in Hkey.
  repeat (apply elem_of_cons in Hkey as [->|Hkey]; [reflexivity|]).
  inversion Hkey.
Defined.

(** An encoder out of memory. *)
Lemma encoder_failure_is_a_500_before_any_search_witness :
  Main.ask_question Asked.failing_encode (Sample.store [Sample.found_chunk])
    Sample.api_key Sample.model Sample.py_repr Sample.answered Asked.request
  = ([Called (ModelEncode "how do I add?")],
     Raise (HTTPException 500 "CUDA out of memory")).
Proof.
  apply (encoder_failure_is_a_500_before_any_search Asked.failing_encode
           (Sample.store [Sample.found_chunk]) Sample.api_key Sample.model
           Sample.py_repr Sample.answered Asked.request
           (LibraryError "RuntimeError" "CUDA out of memory")).
  reflexivity.
Defined.

(** One record found and an endpoint that answers. *)
Lemma answer_lists_its_sources_witness :
  exists srcs,
    (Main.ask_question Sample.model_encode
       (Sample.store [Sample.found_chunk]) Sample.api_key Sample.model
       Sample.py_repr Sample.answered Asked.request).2
    = Ok {| Main.answer_question := "how do I add?";
            Main.answer := "Call add(a, b).";
            Main.sources := srcs |}
    /\ length srcs = 1%nat.
Proof.
  destruct (answer_lists_its_sources Sample.model_encode
              (Sample.store [Sample.found_chunk]) Sample.api_key Sample.model
              Sample.py_repr Sample.answered Asked.request
              Sample.embedding_of_any [Sample.found_chunk] "Call add(a, b)."
              eq_refl eq_refl) as (srcs & Hres & Hlen & _);
    [discriminate|reflexivity|].
  exists srcs. split; [exact Hres|exact Hlen].
Defined.

(** One record found and an endpoint that answers 429. *)
Lemma failed_synthesis_is_a_200_with_the_failure_text_witness :
  exists srcs,
    (Main.ask_question Sample.model_encode
       (Sample.store [Sample.found_chunk]) Sample.api_key Sample.model
       Sample.py_repr Sample.rate_limited Asked.request).2
    = Ok {| Main.answer_question := "how do I add?";
            Main.answer :=
              "Error generating response: "
              ++ "API returned 429: {'error': 'rate limited'}";
            Main.sources := srcs |}.
Proof.
  destruct (failed_synthesis_is_a_200_with_the_failure_text
              Sample.model_encode (Sample.store [Sample.found_chunk])
              Sample.api_key Sample.model Sample.py_repr Sample.rate_limited
              Asked.request Sample.embedding_of_any [Sample.found_chunk]
              Sample.found_context eq_refl eq_refl)
    as [Hstatus _]; [discriminate|reflexivity|reflexivity|].
  apply (Hstatus {| resp_status_code := 429;
                    resp_text := "{'error': 'rate limited'}";
                    resp_headers := ∅;
                    resp_json :=
                      Ok (VDict {[ "error" := VStr "rate limited" ]}) |});
    [reflexivity|discriminate].
Defined.


(** The encoder fails: the records of the earlier build are still there. *)
Lemma store_changes_only_on_success_witness :
  exists l e,
    SetupIndex.main Sample.ast_parse Sample.fs_add
      Built.failing_encode_batch Sample.root Sample.old_collection
    = (l, Sample.old_collection, Raise e)
    /\ DeleteMany ∉ calls_of l.
Proof.
  eexists. eexists. split; [reflexivity|].
  match goal with
  | |- _ ∉ calls_of ?l =>
      destruct (store_changes_only_on_success Sample.ast_parse
                  Sample.fs_add Built.failing_encode_batch Sample.root
                  Sample.old_collection l Sample.old_collection _ eq_refl)
        as [(_ & Hkept & _)|(Hr & _)]
  end.
  - exact Hkept.
  - discriminate Hr.
Defined.

(** Three chunks and one vector: the third record is the chunk as the
    indexer made it. *)
Lemma unmatched_chunks_are_stored_unchanged_witness :
  exists chunks l docs chunk,
    path_exists Sample.fs_mixed Sample.root = true
    /\ (CodeIndexer.extract_code_chunks Sample.ast_parse Sample.fs_mixed
          Sample.root).2 = Ok chunks
    /\ Built.short_encode_batch (map SetupIndex.embedding_text chunks)
       = Ok [Sample.embedding_of_any]
    /\ SetupIndex.main Sample.ast_parse Sample.fs_mixed
         Built.short_encode_batch Sample.root Sample.old_collection
       = (l, docs, Ok tt)
    /\ length docs = 3%nat
    /\ chunks !! 2%nat = Some chunk
    /\ docs !! 2%nat = Some chunk
    /\ is_Some (chunk !! "text_for_embedding")
    /\ chunk !! "embedding" = None.
Proof.
  destruct (unmatched_chunks_are_stored_unchanged Sample.ast_parse
              Sample.fs_mixed Built.short_encode_batch Sample.root
              Sample.old_collection _ [Sample.embedding_of_any]
              eq_refl eq_refl eq_refl)
    as (l & docs & Hmain & _ & Hlen & Hrest).
  assert (1 <= 2)%nat as Hle by lia.
  destruct (Hrest 2%nat _ Hle eq_refl) as (Hdoc & Htext & Hemb).
  eexists. exists l, docs. eexists.
  split; [reflexivity|]. split; [reflexivity|]. split; [reflexivity|].
  split; [exact Hmain|]. split; [rewrite Hlen; reflexivity|].
  split; [reflexivity|]. split; [exact Hdoc|].
  split; [exact Htext|exact Hemb].
Defined.

(** An environment with both secrets and three results per question. *)
Lemma loaded_settings_have_their_secrets_witness :
  exists cfg,
    (Config.load Configured.environ Configured.py_int Configured.env_path
       true).2 = Ok cfg
    /\ Config.TOP_K_RESULTS cfg = 3
    /\ exists key uri,
         Config.OPENROUTER_API_KEY cfg = Some key /\ key <> ""
         /\ Configured.environ !! "OPENROUTER_API_KEY" = Some key
         /\ Config.MONGODB_URI cfg = Some uri /\ uri <> ""
         /\ Configured.environ !! "MONGODB_URI" = Some uri
         /\ (ResponseGenerator.api_key_missing
               (Config.OPENROUTER_API_KEY cfg) = true <-> key = "None").
Proof.
  eexists. split; [reflexivity|]. split; [reflexivity|].
  match goal with
  | |- context [Config.OPENROUTER_API_KEY ?cfg] =>
      destruct (loaded_settings_have_their_secrets Configured.environ
                  Configured.py_int Configured.env_path true cfg eq_refl)
        as [Hsecrets _]
  end.
  exact Hsecrets.
Defined.

(** Neither secret is set: the error names the key. *)
Lemma loading_fails_on_the_first_missing_setting_witness :
  Configured.py_int (Config.getenv_or Configured.bare_environ
                       "TOP_K_RESULTS" "5") = Ok 5
  /\ Config.present (Configured.bare_environ !! "OPENROUTER_API_KEY") = false
  /\ Config.present (Configured.bare_environ !! "MONGODB_URI") = false
  /\ (Config.load Configured.bare_environ Configured.py_int
        Configured.env_path false).2
     = Raise (ValueError
                "OPENROUTER_API_KEY not found! Check your .env file.").
Proof.
  split; [reflexivity|]. split; [reflexivity|]. split; [reflexivity|].
  destruct (loading_fails_on_the_first_missing_setting
              Configured.bare_environ Configured.py_int Configured.env_path
              false) as (_ & Hsecrets & _).
  destruct (Hsecrets 5 eq_refl) as [Hkey _].
  apply Hkey. reflexivity.
Defined.

(** The default model of the configuration in the sidebar. *)
Lemma sidebar_shows_a_short_model_name_witness :
  Frontend.has_char Frontend.slash "nemotron-3-nano-30b-a3b:free" = false
  /\ Frontend.display_name "nvidia/nemotron-3-nano-30b-a3b:free"
     = "nemotron-3-n...".
Proof.
  split; [reflexivity|].
  destruct (sidebar_shows_a_short_model_name
              "nvidia/nemotron-3-nano-30b-a3b:free") as (_ & _ & Hlast).
  apply (Hlast "nemotron-3-nano-30b-a3b:free" eq_refl).
  right. exists "nvidia". reflexivity.
Defined.
